(** * Bencana dashboard: the extraction pipeline of [app.py]

    A shallow embedding of [_to_number], [extract_province_section] and the
    [pd.concat] merge of [app.py], together with the part of the Python
    runtime they call ([str], [float], [int], [str.strip], ...), and the
    properties of the specification proved or refuted on it.

    Conventions:
    - a Python [str] is a list of Unicode code points;
    - a Python [float] is an IEEE 754 binary64 value ([spec_float] with
      precision 53 and maximal exponent 1024), and [float(s)], [repr(f)]
      round as CPython does;
    - a Python exception is a value of [exn]; code that may raise returns a
      [result];
    - a frame is its number of columns and its rows, under the default
      index.

    Outside the model: cells that are neither empty, text nor numbers
    (dates, booleans). *)

From Stdlib Require Import ZArith NArith PArith Bool String Ascii List Lia.
From Stdlib Require Import Floats.SpecFloat Sorting.Sorted.
Import ListNotations.

(* ================================================================== *)
(** * Exceptions *)

Module Py.

(** The [ValueError]s that can reach the caller, told apart by what raised
    them (in Python they differ by their message only). *)
Inductive value_error : Type :=
| MarkerNotFound                      (* raise ValueError("Tidak menemukan bagian ...") *)
| LengthMismatch (have want : nat)    (* df.columns = EXPECTED_COLS *)
| InvalidLiteral (what : list N)      (* int(...) and float(...) on text *)
| MultiDimIndexing.                   (* df_raw.index[<frame>], see [any_cell_rows] *)

Inductive exn : Type :=
| IndexError                          (* df_raw.columns[0] without columns *)
| ValueError (why : value_error)
| OverflowError.                      (* float(int) out of range, int(inf) *)

Inductive result (A : Type) : Type :=
| Ok (a : A)
| Raise (e : exn).

Arguments Ok {A} a.
Arguments Raise {A} e.

Definition bind {A B} (c : result A) (k : A -> result B) : result B :=
  match c with
  | Ok a => k a
  | Raise e => Raise e
  end.

(** [try: c  except <handled>: h] *)
Definition try_except {A} (c : result A) (handled : exn -> bool) (h : result A)
  : result A :=
  match c with
  | Ok a => Ok a
  | Raise e => if handled e then h else Raise e
  end.

Definition is_ValueError (e : exn) : bool :=
  match e with ValueError _ => true | _ => false end.

(** [except Exception] catches every exception of this model. *)
Definition is_Exception (e : exn) : bool := true.

Fixpoint mapM {A B} (f : A -> result B) (l : list A) : result (list B) :=
  match l with
  | [] => Ok []
  | a :: l' =>
      bind (f a) (fun b => bind (mapM f l') (fun bs => Ok (b :: bs)))
  end.

End Py.

Import Py.

Notation "x <- c ;; k" := (bind c (fun x => k))
  (at level 61, c at next level, right associativity).

(* ================================================================== *)
(** * Text *)

(** A Python [str]: the sequence of its code points. *)
Definition pystr := list N.

(** An ASCII literal of the source as a [pystr] (one code point per
    character; not meant for text outside ASCII). *)
Definition lit (s : string) : pystr := map N_of_ascii (list_ascii_of_string s).

Definition pystr_eqb (a b : pystr) : bool :=
  if list_eq_dec N.eq_dec a b then true else false.

Module Unicode.

Local Open Scope N_scope.

Definition in_range (c : N) (r : N * N) : bool :=
  (fst r <=? c) && (c <=? snd r).

(** The tables below are those of the Unicode database 14.0, the one of
    CPython 3.11. *)

(** [str.isspace] of one character, as in CPython's [_PyUnicode_IsWhitespace]. *)
Definition isspace (c : N) : bool :=
  existsb (in_range c)
    [ (0x09, 0x0D); (0x1C, 0x20); (0x85, 0x85); (0xA0, 0xA0);
      (0x1680, 0x1680); (0x2000, 0x200A); (0x2028, 0x2029);
      (0x202F, 0x202F); (0x205F, 0x205F); (0x3000, 0x3000) ].

(** First code points of the runs of decimal digits (category Nd) of the
    Unicode database; a run is [zero, zero + 9], except the mathematical
    digits at 0x1D7CE, five runs in a row. *)
Definition decimal_zeros : list N :=
  [ 48; 1632; 1776; 1984; 2406; 2534; 2662; 2790; 2918; 3046; 3174; 3302;
    3430; 3558; 3664; 3792; 3872; 4160; 4240; 6112; 6160; 6470; 6608; 6784;
    6800; 6992; 7088; 7232; 7248; 42528; 43216; 43264; 43472; 43504; 43600;
    44016; 65296; 66720; 68912; 69734; 69872; 69942; 70096; 70384; 70736;
    70864; 71248; 71360; 71472; 71904; 72016; 72784; 73040; 73120; 92768;
    92864; 93008; 120782; 120792; 120802; 120812; 120822; 123200; 123632;
    125264; 130032 ].

(** [Py_UNICODE_TODECIMAL]: the value of a decimal digit. *)
Definition decimal_value (c : N) : option N :=
  match find (fun z => in_range c (z, z + 9)) decimal_zeros with
  | Some z => Some (c - z)
  | None => None
  end.

Definition isdecimal (c : N) : bool :=
  match decimal_value c with Some _ => true | None => false end.

(** Characters that are digits without being decimal digits (superscripts,
    circled digits, ...): [str.isdigit] accepts them, [int] and [float] do
    not. *)
Definition other_digit_ranges : list (N * N) :=
  [ (178, 179); (185, 185); (4969, 4977); (6618, 6618); (8304, 8304);
    (8308, 8313); (8320, 8329); (9312, 9320); (9332, 9340); (9352, 9360);
    (9450, 9450); (9461, 9469); (9471, 9471); (10102, 10110);
    (10112, 10120); (10122, 10130); (68160, 68163); (69216, 69224);
    (69714, 69722); (127232, 127242) ].

(** [str.isdigit] of one character. *)
Definition isdigit_char (c : N) : bool :=
  isdecimal c || existsb (in_range c) other_digit_ranges.

(** The C-locale classes of [pyctype.h], used by [int] and [float]. *)
Definition Py_ISSPACE (c : N) : bool := in_range c (0x09, 0x0D) || (c =? 0x20).
Definition Py_ISDIGIT (c : N) : bool := in_range c (48, 57).
Definition Py_ISUPPER (c : N) : bool := in_range c (65, 90).
Definition Py_ISLOWER (c : N) : bool := in_range c (97, 122).
Definition Py_TOLOWER (c : N) : N := if Py_ISUPPER c then c + 32 else c.
Definition Py_TOUPPER (c : N) : N := if Py_ISLOWER c then c - 32 else c.

(** ** Case

    The case properties and mappings of the Unicode database (version 14.0,
    that of CPython 3.11), as the functions of [unicodectype.c] give them.
    A run [(first, last, step, delta)] stands for the code points
    [first], [first + step], ..., [last], each mapped to itself plus
    [delta]. *)

Definition in_run (c : N) (r : N * N * N * Z) : bool :=
  let '(first, last, step, _) := r in
  in_range c (first, last) && ((c - first) mod step =? 0).

Definition shifted (runs : list (N * N * N * Z)) (c : N) : N :=
  match find (in_run c) runs with
  | Some (_, _, _, delta) => Z.to_N (Z.of_N c + delta)
  | None => c
  end.

Definition mapped (special : list (N * list N)) (runs : list (N * N * N * Z))
  (c : N) : list N :=
  match find (fun e => fst e =? c) special with
  | Some (_, l) => l
  | None => [shifted runs c]
  end.

(** Title case of one code point. *)
Definition title_runs : list (N * N * N * Z) :=
  [
    (97, 122, 1, (-32)%Z); (181, 181, 1, 743%Z); (224, 246, 1, (-32)%Z);
    (248, 254, 1, (-32)%Z); (255, 255, 1, 121%Z); (257, 303, 2, (-1)%Z);
    (305, 305, 1, (-232)%Z); (307, 311, 2, (-1)%Z); (314, 328, 2, (-1)%Z);
    (331, 375, 2, (-1)%Z); (378, 382, 2, (-1)%Z); (383, 383, 1, (-300)%Z);
    (384, 384, 1, 195%Z); (387, 389, 2, (-1)%Z); (392, 392, 1, (-1)%Z);
    (396, 396, 1, (-1)%Z); (402, 402, 1, (-1)%Z); (405, 405, 1, 97%Z);
    (409, 409, 1, (-1)%Z); (410, 410, 1, 163%Z); (414, 414, 1, 130%Z);
    (417, 421, 2, (-1)%Z); (424, 424, 1, (-1)%Z); (429, 429, 1, (-1)%Z);
    (432, 432, 1, (-1)%Z); (436, 438, 2, (-1)%Z); (441, 441, 1, (-1)%Z);
    (445, 445, 1, (-1)%Z); (447, 447, 1, 56%Z); (452, 452, 1, 1%Z);
    (454, 454, 1, (-1)%Z); (455, 455, 1, 1%Z); (457, 457, 1, (-1)%Z);
    (458, 458, 1, 1%Z); (460, 476, 2, (-1)%Z); (477, 477, 1, (-79)%Z);
    (479, 495, 2, (-1)%Z); (497, 497, 1, 1%Z); (499, 501, 2, (-1)%Z);
    (505, 543, 2, (-1)%Z); (547, 563, 2, (-1)%Z); (572, 572, 1, (-1)%Z);
    (575, 576, 1, 10815%Z); (578, 578, 1, (-1)%Z); (583, 591, 2, (-1)%Z);
    (592, 592, 1, 10783%Z); (593, 593, 1, 10780%Z); (594, 594, 1, 10782%Z);
    (595, 595, 1, (-210)%Z); (596, 596, 1, (-206)%Z);
    (598, 599, 1, (-205)%Z); (601, 601, 1, (-202)%Z);
    (603, 603, 1, (-203)%Z); (604, 604, 1, 42319%Z); (608, 608, 1, (-205)%Z);
    (609, 609, 1, 42315%Z); (611, 611, 1, (-207)%Z); (613, 613, 1, 42280%Z);
    (614, 614, 1, 42308%Z); (616, 616, 1, (-209)%Z); (617, 617, 1, (-211)%Z);
    (618, 618, 1, 42308%Z); (619, 619, 1, 10743%Z); (620, 620, 1, 42305%Z);
    (623, 623, 1, (-211)%Z); (625, 625, 1, 10749%Z); (626, 626, 1, (-213)%Z);
    (629, 629, 1, (-214)%Z); (637, 637, 1, 10727%Z); (640, 640, 1, (-218)%Z);
    (642, 642, 1, 42307%Z); (643, 643, 1, (-218)%Z); (647, 647, 1, 42282%Z);
    (648, 648, 1, (-218)%Z); (649, 649, 1, (-69)%Z); (650, 651, 1, (-217)%Z);
    (652, 652, 1, (-71)%Z); (658, 658, 1, (-219)%Z); (669, 669, 1, 42261%Z);
    (670, 670, 1, 42258%Z); (837, 837, 1, 84%Z); (881, 883, 2, (-1)%Z);
    (887, 887, 1, (-1)%Z); (891, 893, 1, 130%Z); (940, 940, 1, (-38)%Z);
    (941, 943, 1, (-37)%Z); (945, 961, 1, (-32)%Z); (962, 962, 1, (-31)%Z);
    (963, 971, 1, (-32)%Z); (972, 972, 1, (-64)%Z); (973, 974, 1, (-63)%Z);
    (976, 976, 1, (-62)%Z); (977, 977, 1, (-57)%Z); (981, 981, 1, (-47)%Z);
    (982, 982, 1, (-54)%Z); (983, 983, 1, (-8)%Z); (985, 1007, 2, (-1)%Z);
    (1008, 1008, 1, (-86)%Z); (1009, 1009, 1, (-80)%Z); (1010, 1010, 1, 7%Z);
    (1011, 1011, 1, (-116)%Z); (1013, 1013, 1, (-96)%Z);
    (1016, 1016, 1, (-1)%Z); (1019, 1019, 1, (-1)%Z);
    (1072, 1103, 1, (-32)%Z); (1104, 1119, 1, (-80)%Z);
    (1121, 1153, 2, (-1)%Z); (1163, 1215, 2, (-1)%Z);
    (1218, 1230, 2, (-1)%Z); (1231, 1231, 1, (-15)%Z);
    (1233, 1327, 2, (-1)%Z); (1377, 1414, 1, (-48)%Z);
    (5112, 5117, 1, (-8)%Z); (7296, 7296, 1, (-6254)%Z);
    (7297, 7297, 1, (-6253)%Z); (7298, 7298, 1, (-6244)%Z);
    (7299, 7300, 1, (-6242)%Z); (7301, 7301, 1, (-6243)%Z);
    (7302, 7302, 1, (-6236)%Z); (7303, 7303, 1, (-6181)%Z);
    (7304, 7304, 1, 35266%Z); (7545, 7545, 1, 35332%Z);
    (7549, 7549, 1, 3814%Z); (7566, 7566, 1, 35384%Z);
    (7681, 7829, 2, (-1)%Z); (7835, 7835, 1, (-59)%Z);
    (7841, 7935, 2, (-1)%Z); (7936, 7943, 1, 8%Z); (7952, 7957, 1, 8%Z);
    (7968, 7975, 1, 8%Z); (7984, 7991, 1, 8%Z); (8000, 8005, 1, 8%Z);
    (8017, 8023, 2, 8%Z); (8032, 8039, 1, 8%Z); (8048, 8049, 1, 74%Z);
    (8050, 8053, 1, 86%Z); (8054, 8055, 1, 100%Z); (8056, 8057, 1, 128%Z);
    (8058, 8059, 1, 112%Z); (8060, 8061, 1, 126%Z); (8064, 8071, 1, 8%Z);
    (8080, 8087, 1, 8%Z); (8096, 8103, 1, 8%Z); (8112, 8113, 1, 8%Z);
    (8115, 8115, 1, 9%Z); (8126, 8126, 1, (-7205)%Z); (8131, 8131, 1, 9%Z);
    (8144, 8145, 1, 8%Z); (8160, 8161, 1, 8%Z); (8165, 8165, 1, 7%Z);
    (8179, 8179, 1, 9%Z); (8526, 8526, 1, (-28)%Z); (8560, 8575, 1, (-16)%Z);
    (8580, 8580, 1, (-1)%Z); (9424, 9449, 1, (-26)%Z);
    (11312, 11359, 1, (-48)%Z); (11361, 11361, 1, (-1)%Z);
    (11365, 11365, 1, (-10795)%Z); (11366, 11366, 1, (-10792)%Z);
    (11368, 11372, 2, (-1)%Z); (11379, 11379, 1, (-1)%Z);
    (11382, 11382, 1, (-1)%Z); (11393, 11491, 2, (-1)%Z);
    (11500, 11502, 2, (-1)%Z); (11507, 11507, 1, (-1)%Z);
    (11520, 11557, 1, (-7264)%Z); (11559, 11559, 1, (-7264)%Z);
    (11565, 11565, 1, (-7264)%Z); (42561, 42605, 2, (-1)%Z);
    (42625, 42651, 2, (-1)%Z); (42787, 42799, 2, (-1)%Z);
    (42803, 42863, 2, (-1)%Z); (42874, 42876, 2, (-1)%Z);
    (42879, 42887, 2, (-1)%Z); (42892, 42892, 1, (-1)%Z);
    (42897, 42899, 2, (-1)%Z); (42900, 42900, 1, 48%Z);
    (42903, 42921, 2, (-1)%Z); (42933, 42947, 2, (-1)%Z);
    (42952, 42954, 2, (-1)%Z); (42961, 42961, 1, (-1)%Z);
    (42967, 42969, 2, (-1)%Z); (42998, 42998, 1, (-1)%Z);
    (43859, 43859, 1, (-928)%Z); (43888, 43967, 1, (-38864)%Z);
    (65345, 65370, 1, (-32)%Z); (66600, 66639, 1, (-40)%Z);
    (66776, 66811, 1, (-40)%Z); (66967, 67003, 2, (-39)%Z);
    (66968, 66976, 2, (-39)%Z); (66980, 66992, 2, (-39)%Z);
    (66996, 67000, 2, (-39)%Z); (67004, 67004, 1, (-39)%Z);
    (68800, 68850, 1, (-64)%Z); (71872, 71903, 1, (-32)%Z);
    (93792, 93823, 1, (-32)%Z); (125218, 125251, 1, (-34)%Z) ].

(** Code points whose title case is more than one code point. *)
Definition title_special : list (N * list N) :=
  [
    (223, [83; 115]); (329, [700; 78]); (496, [74; 780]);
    (912, [921; 776; 769]); (944, [933; 776; 769]); (1415, [1333; 1410]);
    (7830, [72; 817]); (7831, [84; 776]); (7832, [87; 778]);
    (7833, [89; 778]); (7834, [65; 702]); (8016, [933; 787]);
    (8018, [933; 787; 768]); (8020, [933; 787; 769]);
    (8022, [933; 787; 834]); (8114, [8122; 837]); (8116, [902; 837]);
    (8118, [913; 834]); (8119, [913; 834; 837]); (8130, [8138; 837]);
    (8132, [905; 837]); (8134, [919; 834]); (8135, [919; 834; 837]);
    (8146, [921; 776; 768]); (8147, [921; 776; 769]); (8150, [921; 834]);
    (8151, [921; 776; 834]); (8162, [933; 776; 768]);
    (8163, [933; 776; 769]); (8164, [929; 787]); (8166, [933; 834]);
    (8167, [933; 776; 834]); (8178, [8186; 837]); (8180, [911; 837]);
    (8182, [937; 834]); (8183, [937; 834; 837]); (64256, [70; 102]);
    (64257, [70; 105]); (64258, [70; 108]); (64259, [70; 102; 105]);
    (64260, [70; 102; 108]); (64261, [83; 116]); (64262, [83; 116]);
    (64275, [1348; 1398]); (64276, [1348; 1381]); (64277, [1348; 1387]);
    (64278, [1358; 1398]); (64279, [1348; 1389]) ].

(** Lower case of one code point. *)
Definition lower_runs : list (N * N * N * Z) :=
  [
    (65, 90, 1, 32%Z); (192, 214, 1, 32%Z); (216, 222, 1, 32%Z);
    (256, 302, 2, 1%Z); (306, 310, 2, 1%Z); (313, 327, 2, 1%Z);
    (330, 374, 2, 1%Z); (376, 376, 1, (-121)%Z); (377, 381, 2, 1%Z);
    (385, 385, 1, 210%Z); (386, 388, 2, 1%Z); (390, 390, 1, 206%Z);
    (391, 391, 1, 1%Z); (393, 394, 1, 205%Z); (395, 395, 1, 1%Z);
    (398, 398, 1, 79%Z); (399, 399, 1, 202%Z); (400, 400, 1, 203%Z);
    (401, 401, 1, 1%Z); (403, 403, 1, 205%Z); (404, 404, 1, 207%Z);
    (406, 406, 1, 211%Z); (407, 407, 1, 209%Z); (408, 408, 1, 1%Z);
    (412, 412, 1, 211%Z); (413, 413, 1, 213%Z); (415, 415, 1, 214%Z);
    (416, 420, 2, 1%Z); (422, 422, 1, 218%Z); (423, 423, 1, 1%Z);
    (425, 425, 1, 218%Z); (428, 428, 1, 1%Z); (430, 430, 1, 218%Z);
    (431, 431, 1, 1%Z); (433, 434, 1, 217%Z); (435, 437, 2, 1%Z);
    (439, 439, 1, 219%Z); (440, 440, 1, 1%Z); (444, 444, 1, 1%Z);
    (452, 452, 1, 2%Z); (453, 453, 1, 1%Z); (455, 455, 1, 2%Z);
    (456, 456, 1, 1%Z); (458, 458, 1, 2%Z); (459, 475, 2, 1%Z);
    (478, 494, 2, 1%Z); (497, 497, 1, 2%Z); (498, 500, 2, 1%Z);
    (502, 502, 1, (-97)%Z); (503, 503, 1, (-56)%Z); (504, 542, 2, 1%Z);
    (544, 544, 1, (-130)%Z); (546, 562, 2, 1%Z); (570, 570, 1, 10795%Z);
    (571, 571, 1, 1%Z); (573, 573, 1, (-163)%Z); (574, 574, 1, 10792%Z);
    (577, 577, 1, 1%Z); (579, 579, 1, (-195)%Z); (580, 580, 1, 69%Z);
    (581, 581, 1, 71%Z); (582, 590, 2, 1%Z); (880, 882, 2, 1%Z);
    (886, 886, 1, 1%Z); (895, 895, 1, 116%Z); (902, 902, 1, 38%Z);
    (904, 906, 1, 37%Z); (908, 908, 1, 64%Z); (910, 911, 1, 63%Z);
    (913, 929, 1, 32%Z); (931, 939, 1, 32%Z); (975, 975, 1, 8%Z);
    (984, 1006, 2, 1%Z); (1012, 1012, 1, (-60)%Z); (1015, 1015, 1, 1%Z);
    (1017, 1017, 1, (-7)%Z); (1018, 1018, 1, 1%Z); (1021, 1023, 1, (-130)%Z);
    (1024, 1039, 1, 80%Z); (1040, 1071, 1, 32%Z); (1120, 1152, 2, 1%Z);
    (1162, 1214, 2, 1%Z); (1216, 1216, 1, 15%Z); (1217, 1229, 2, 1%Z);
    (1232, 1326, 2, 1%Z); (1329, 1366, 1, 48%Z); (4256, 4293, 1, 7264%Z);
    (4295, 4295, 1, 7264%Z); (4301, 4301, 1, 7264%Z);
    (5024, 5103, 1, 38864%Z); (5104, 5109, 1, 8%Z);
    (7312, 7354, 1, (-3008)%Z); (7357, 7359, 1, (-3008)%Z);
    (7680, 7828, 2, 1%Z); (7838, 7838, 1, (-7615)%Z); (7840, 7934, 2, 1%Z);
    (7944, 7951, 1, (-8)%Z); (7960, 7965, 1, (-8)%Z);
    (7976, 7983, 1, (-8)%Z); (7992, 7999, 1, (-8)%Z);
    (8008, 8013, 1, (-8)%Z); (8025, 8031, 2, (-8)%Z);
    (8040, 8047, 1, (-8)%Z); (8072, 8079, 1, (-8)%Z);
    (8088, 8095, 1, (-8)%Z); (8104, 8111, 1, (-8)%Z);
    (8120, 8121, 1, (-8)%Z); (8122, 8123, 1, (-74)%Z);
    (8124, 8124, 1, (-9)%Z); (8136, 8139, 1, (-86)%Z);
    (8140, 8140, 1, (-9)%Z); (8152, 8153, 1, (-8)%Z);
    (8154, 8155, 1, (-100)%Z); (8168, 8169, 1, (-8)%Z);
    (8170, 8171, 1, (-112)%Z); (8172, 8172, 1, (-7)%Z);
    (8184, 8185, 1, (-128)%Z); (8186, 8187, 1, (-126)%Z);
    (8188, 8188, 1, (-9)%Z); (8486, 8486, 1, (-7517)%Z);
    (8490, 8490, 1, (-8383)%Z); (8491, 8491, 1, (-8262)%Z);
    (8498, 8498, 1, 28%Z); (8544, 8559, 1, 16%Z); (8579, 8579, 1, 1%Z);
    (9398, 9423, 1, 26%Z); (11264, 11311, 1, 48%Z); (11360, 11360, 1, 1%Z);
    (11362, 11362, 1, (-10743)%Z); (11363, 11363, 1, (-3814)%Z);
    (11364, 11364, 1, (-10727)%Z); (11367, 11371, 2, 1%Z);
    (11373, 11373, 1, (-10780)%Z); (11374, 11374, 1, (-10749)%Z);
    (11375, 11375, 1, (-10783)%Z); (11376, 11376, 1, (-10782)%Z);
    (11378, 11378, 1, 1%Z); (11381, 11381, 1, 1%Z);
    (11390, 11391, 1, (-10815)%Z); (11392, 11490, 2, 1%Z);
    (11499, 11501, 2, 1%Z); (11506, 11506, 1, 1%Z); (42560, 42604, 2, 1%Z);
    (42624, 42650, 2, 1%Z); (42786, 42798, 2, 1%Z); (42802, 42862, 2, 1%Z);
    (42873, 42875, 2, 1%Z); (42877, 42877, 1, (-35332)%Z);
    (42878, 42886, 2, 1%Z); (42891, 42891, 1, 1%Z);
    (42893, 42893, 1, (-42280)%Z); (42896, 42898, 2, 1%Z);
    (42902, 42920, 2, 1%Z); (42922, 42922, 1, (-42308)%Z);
    (42923, 42923, 1, (-42319)%Z); (42924, 42924, 1, (-42315)%Z);
    (42925, 42925, 1, (-42305)%Z); (42926, 42926, 1, (-42308)%Z);
    (42928, 42928, 1, (-42258)%Z); (42929, 42929, 1, (-42282)%Z);
    (42930, 42930, 1, (-42261)%Z); (42931, 42931, 1, 928%Z);
    (42932, 42946, 2, 1%Z); (42948, 42948, 1, (-48)%Z);
    (42949, 42949, 1, (-42307)%Z); (42950, 42950, 1, (-35384)%Z);
    (42951, 42953, 2, 1%Z); (42960, 42960, 1, 1%Z); (42966, 42968, 2, 1%Z);
    (42997, 42997, 1, 1%Z); (65313, 65338, 1, 32%Z); (66560, 66599, 1, 40%Z);
    (66736, 66771, 1, 40%Z); (66928, 66964, 2, 39%Z);
    (66929, 66937, 2, 39%Z); (66941, 66953, 2, 39%Z);
    (66957, 66961, 2, 39%Z); (66965, 66965, 1, 39%Z);
    (68736, 68786, 1, 64%Z); (71840, 71871, 1, 32%Z);
    (93760, 93791, 1, 32%Z); (125184, 125217, 1, 34%Z) ].

Definition lower_special : list (N * list N) :=
  [
    (304, [105; 775]) ].

(** The property Cased. *)
Definition cased_ranges : list (N * N) :=
  [
    (65, 90); (97, 122); (170, 170); (181, 181); (186, 186); (192, 214);
    (216, 246); (248, 442); (444, 447); (452, 659); (661, 696); (704, 705);
    (736, 740); (837, 837); (880, 883); (886, 887); (890, 893); (895, 895);
    (902, 902); (904, 906); (908, 908); (910, 929); (931, 1013);
    (1015, 1153); (1162, 1327); (1329, 1366); (1376, 1416); (4256, 4293);
    (4295, 4295); (4301, 4301); (4304, 4346); (4349, 4351); (5024, 5109);
    (5112, 5117); (7296, 7304); (7312, 7354); (7357, 7359); (7424, 7615);
    (7680, 7957); (7960, 7965); (7968, 8005); (8008, 8013); (8016, 8023);
    (8025, 8025); (8027, 8027); (8029, 8029); (8031, 8061); (8064, 8116);
    (8118, 8124); (8126, 8126); (8130, 8132); (8134, 8140); (8144, 8147);
    (8150, 8155); (8160, 8172); (8178, 8180); (8182, 8188); (8305, 8305);
    (8319, 8319); (8336, 8348); (8450, 8450); (8455, 8455); (8458, 8467);
    (8469, 8469); (8473, 8477); (8484, 8484); (8486, 8486); (8488, 8488);
    (8490, 8493); (8495, 8500); (8505, 8505); (8508, 8511); (8517, 8521);
    (8526, 8526); (8544, 8575); (8579, 8580); (9398, 9449); (11264, 11492);
    (11499, 11502); (11506, 11507); (11520, 11557); (11559, 11559);
    (11565, 11565); (42560, 42605); (42624, 42653); (42786, 42887);
    (42891, 42894); (42896, 42954); (42960, 42961); (42963, 42963);
    (42965, 42969); (42997, 42998); (43000, 43002); (43824, 43866);
    (43868, 43880); (43888, 43967); (64256, 64262); (64275, 64279);
    (65313, 65338); (65345, 65370); (66560, 66639); (66736, 66771);
    (66776, 66811); (66928, 66938); (66940, 66954); (66956, 66962);
    (66964, 66965); (66967, 66977); (66979, 66993); (66995, 67001);
    (67003, 67004); (67456, 67456); (67459, 67461); (67463, 67504);
    (67506, 67514); (68736, 68786); (68800, 68850); (71840, 71903);
    (93760, 93823); (119808, 119892); (119894, 119964); (119966, 119967);
    (119970, 119970); (119973, 119974); (119977, 119980); (119982, 119993);
    (119995, 119995); (119997, 120003); (120005, 120069); (120071, 120074);
    (120077, 120084); (120086, 120092); (120094, 120121); (120123, 120126);
    (120128, 120132); (120134, 120134); (120138, 120144); (120146, 120485);
    (120488, 120512); (120514, 120538); (120540, 120570); (120572, 120596);
    (120598, 120628); (120630, 120654); (120656, 120686); (120688, 120712);
    (120714, 120744); (120746, 120770); (120772, 120779); (122624, 122633);
    (122635, 122654); (125184, 125251); (127280, 127305); (127312, 127337);
    (127344, 127369) ].

(** The property Case_Ignorable. *)
Definition case_ignorable_ranges : list (N * N) :=
  [
    (39, 39); (46, 46); (58, 58); (94, 94); (96, 96); (168, 168); (173, 173);
    (175, 175); (180, 180); (183, 184); (688, 879); (884, 885); (890, 890);
    (900, 901); (903, 903); (1155, 1161); (1369, 1369); (1375, 1375);
    (1425, 1469); (1471, 1471); (1473, 1474); (1476, 1477); (1479, 1479);
    (1524, 1524); (1536, 1541); (1552, 1562); (1564, 1564); (1600, 1600);
    (1611, 1631); (1648, 1648); (1750, 1757); (1759, 1768); (1770, 1773);
    (1807, 1807); (1809, 1809); (1840, 1866); (1958, 1968); (2027, 2037);
    (2042, 2042); (2045, 2045); (2070, 2093); (2137, 2139); (2184, 2184);
    (2192, 2193); (2200, 2207); (2249, 2306); (2362, 2362); (2364, 2364);
    (2369, 2376); (2381, 2381); (2385, 2391); (2402, 2403); (2417, 2417);
    (2433, 2433); (2492, 2492); (2497, 2500); (2509, 2509); (2530, 2531);
    (2558, 2558); (2561, 2562); (2620, 2620); (2625, 2626); (2631, 2632);
    (2635, 2637); (2641, 2641); (2672, 2673); (2677, 2677); (2689, 2690);
    (2748, 2748); (2753, 2757); (2759, 2760); (2765, 2765); (2786, 2787);
    (2810, 2815); (2817, 2817); (2876, 2876); (2879, 2879); (2881, 2884);
    (2893, 2893); (2901, 2902); (2914, 2915); (2946, 2946); (3008, 3008);
    (3021, 3021); (3072, 3072); (3076, 3076); (3132, 3132); (3134, 3136);
    (3142, 3144); (3146, 3149); (3157, 3158); (3170, 3171); (3201, 3201);
    (3260, 3260); (3263, 3263); (3270, 3270); (3276, 3277); (3298, 3299);
    (3328, 3329); (3387, 3388); (3393, 3396); (3405, 3405); (3426, 3427);
    (3457, 3457); (3530, 3530); (3538, 3540); (3542, 3542); (3633, 3633);
    (3636, 3642); (3654, 3662); (3761, 3761); (3764, 3772); (3782, 3782);
    (3784, 3789); (3864, 3865); (3893, 3893); (3895, 3895); (3897, 3897);
    (3953, 3966); (3968, 3972); (3974, 3975); (3981, 3991); (3993, 4028);
    (4038, 4038); (4141, 4144); (4146, 4151); (4153, 4154); (4157, 4158);
    (4184, 4185); (4190, 4192); (4209, 4212); (4226, 4226); (4229, 4230);
    (4237, 4237); (4253, 4253); (4348, 4348); (4957, 4959); (5906, 5908);
    (5938, 5939); (5970, 5971); (6002, 6003); (6068, 6069); (6071, 6077);
    (6086, 6086); (6089, 6099); (6103, 6103); (6109, 6109); (6155, 6159);
    (6211, 6211); (6277, 6278); (6313, 6313); (6432, 6434); (6439, 6440);
    (6450, 6450); (6457, 6459); (6679, 6680); (6683, 6683); (6742, 6742);
    (6744, 6750); (6752, 6752); (6754, 6754); (6757, 6764); (6771, 6780);
    (6783, 6783); (6823, 6823); (6832, 6862); (6912, 6915); (6964, 6964);
    (6966, 6970); (6972, 6972); (6978, 6978); (7019, 7027); (7040, 7041);
    (7074, 7077); (7080, 7081); (7083, 7085); (7142, 7142); (7144, 7145);
    (7149, 7149); (7151, 7153); (7212, 7219); (7222, 7223); (7288, 7293);
    (7376, 7378); (7380, 7392); (7394, 7400); (7405, 7405); (7412, 7412);
    (7416, 7417); (7468, 7530); (7544, 7544); (7579, 7679); (8125, 8125);
    (8127, 8129); (8141, 8143); (8157, 8159); (8173, 8175); (8189, 8190);
    (8203, 8207); (8216, 8217); (8228, 8228); (8231, 8231); (8234, 8238);
    (8288, 8292); (8294, 8303); (8305, 8305); (8319, 8319); (8336, 8348);
    (8400, 8432); (11388, 11389); (11503, 11505); (11631, 11631);
    (11647, 11647); (11744, 11775); (11823, 11823); (12293, 12293);
    (12330, 12333); (12337, 12341); (12347, 12347); (12441, 12446);
    (12540, 12542); (40981, 40981); (42232, 42237); (42508, 42508);
    (42607, 42610); (42612, 42621); (42623, 42623); (42652, 42655);
    (42736, 42737); (42752, 42785); (42864, 42864); (42888, 42890);
    (42994, 42996); (43000, 43001); (43010, 43010); (43014, 43014);
    (43019, 43019); (43045, 43046); (43052, 43052); (43204, 43205);
    (43232, 43249); (43263, 43263); (43302, 43309); (43335, 43345);
    (43392, 43394); (43443, 43443); (43446, 43449); (43452, 43453);
    (43471, 43471); (43493, 43494); (43561, 43566); (43569, 43570);
    (43573, 43574); (43587, 43587); (43596, 43596); (43632, 43632);
    (43644, 43644); (43696, 43696); (43698, 43700); (43703, 43704);
    (43710, 43711); (43713, 43713); (43741, 43741); (43756, 43757);
    (43763, 43764); (43766, 43766); (43867, 43871); (43881, 43883);
    (44005, 44005); (44008, 44008); (44013, 44013); (64286, 64286);
    (64434, 64450); (65024, 65039); (65043, 65043); (65056, 65071);
    (65106, 65106); (65109, 65109); (65279, 65279); (65287, 65287);
    (65294, 65294); (65306, 65306); (65342, 65342); (65344, 65344);
    (65392, 65392); (65438, 65439); (65507, 65507); (65529, 65531);
    (66045, 66045); (66272, 66272); (66422, 66426); (67456, 67461);
    (67463, 67504); (67506, 67514); (68097, 68099); (68101, 68102);
    (68108, 68111); (68152, 68154); (68159, 68159); (68325, 68326);
    (68900, 68903); (69291, 69292); (69446, 69456); (69506, 69509);
    (69633, 69633); (69688, 69702); (69744, 69744); (69747, 69748);
    (69759, 69761); (69811, 69814); (69817, 69818); (69821, 69821);
    (69826, 69826); (69837, 69837); (69888, 69890); (69927, 69931);
    (69933, 69940); (70003, 70003); (70016, 70017); (70070, 70078);
    (70089, 70092); (70095, 70095); (70191, 70193); (70196, 70196);
    (70198, 70199); (70206, 70206); (70367, 70367); (70371, 70378);
    (70400, 70401); (70459, 70460); (70464, 70464); (70502, 70508);
    (70512, 70516); (70712, 70719); (70722, 70724); (70726, 70726);
    (70750, 70750); (70835, 70840); (70842, 70842); (70847, 70848);
    (70850, 70851); (71090, 71093); (71100, 71101); (71103, 71104);
    (71132, 71133); (71219, 71226); (71229, 71229); (71231, 71232);
    (71339, 71339); (71341, 71341); (71344, 71349); (71351, 71351);
    (71453, 71455); (71458, 71461); (71463, 71467); (71727, 71735);
    (71737, 71738); (71995, 71996); (71998, 71998); (72003, 72003);
    (72148, 72151); (72154, 72155); (72160, 72160); (72193, 72202);
    (72243, 72248); (72251, 72254); (72263, 72263); (72273, 72278);
    (72281, 72283); (72330, 72342); (72344, 72345); (72752, 72758);
    (72760, 72765); (72767, 72767); (72850, 72871); (72874, 72880);
    (72882, 72883); (72885, 72886); (73009, 73014); (73018, 73018);
    (73020, 73021); (73023, 73029); (73031, 73031); (73104, 73105);
    (73109, 73109); (73111, 73111); (73459, 73460); (78896, 78904);
    (92912, 92916); (92976, 92982); (92992, 92995); (94031, 94031);
    (94095, 94111); (94176, 94177); (94179, 94180); (110576, 110579);
    (110581, 110587); (110589, 110590); (113821, 113822); (113824, 113827);
    (118528, 118573); (118576, 118598); (119143, 119145); (119155, 119170);
    (119173, 119179); (119210, 119213); (119362, 119364); (121344, 121398);
    (121403, 121452); (121461, 121461); (121476, 121476); (121499, 121503);
    (121505, 121519); (122880, 122886); (122888, 122904); (122907, 122913);
    (122915, 122916); (122918, 122922); (123184, 123197); (123566, 123566);
    (123628, 123631); (125136, 125142); (125252, 125259); (127995, 127999);
    (917505, 917505); (917536, 917631); (917760, 917999) ].

Definition _PyUnicode_ToTitleFull (c : N) : list N :=
  mapped title_special title_runs c.

Definition _PyUnicode_ToLowerFull (c : N) : list N :=
  mapped lower_special lower_runs c.

Definition _PyUnicode_IsCased (c : N) : bool :=
  existsb (in_range c) cased_ranges.

Definition _PyUnicode_IsCaseIgnorable (c : N) : bool :=
  existsb (in_range c) case_ignorable_ranges.

End Unicode.

(** ** String methods *)

Fixpoint drop_while (p : N -> bool) (s : pystr) : pystr :=
  match s with
  | [] => []
  | c :: r => if p c then drop_while p r else s
  end.

(** [s.strip()] *)
Definition strip (s : pystr) : pystr :=
  rev (drop_while Unicode.isspace (rev (drop_while Unicode.isspace s))).

(** [s.startswith(p)] *)
Fixpoint startswith (p s : pystr) : bool :=
  match p, s with
  | [], _ => true
  | _ :: _, [] => false
  | a :: p', b :: s' => N.eqb a b && startswith p' s'
  end.

(** [p in s]; [str.contains(p)] of pandas with a pattern free of regular
    expression operators is this substring test. *)
Fixpoint contains (p s : pystr) : bool :=
  startswith p s || match s with [] => false | _ :: s' => contains p s' end.

(** [s.replace(",", "")] *)
Definition remove_commas (s : pystr) : pystr :=
  filter (fun c => negb (N.eqb c 44)) s.

(** [s.isdigit()] *)
Definition isdigit (s : pystr) : bool :=
  match s with [] => false | _ => forallb Unicode.isdigit_char s end.

(** [s.title()], as [do_title] of [unicodeobject.c] has it: a character
    that follows a cased one is lowered, any other is put in title case.
    [before] holds the characters already passed, the last one first, and
    [after] those to come. *)

(** The lower case of a capital sigma is the final sigma at the end of a
    word: after a cased character and not before one, case-ignorable
    characters being skipped on both sides. *)
Definition handle_capital_sigma (before after : pystr) : N :=
  let final_sigma :=
    match drop_while Unicode._PyUnicode_IsCaseIgnorable before with
    | [] => false
    | c :: _ => Unicode._PyUnicode_IsCased c
    end
    && match drop_while Unicode._PyUnicode_IsCaseIgnorable after with
       | [] => true
       | c :: _ => negb (Unicode._PyUnicode_IsCased c)
       end in
  if final_sigma then 0x3C2%N else 0x3C3%N.

Definition lower_ucs4 (before : pystr) (c : N) (after : pystr) : list N :=
  if N.eqb c 0x3A3 then [handle_capital_sigma before after]
  else Unicode._PyUnicode_ToLowerFull c.

Fixpoint do_title (before : pystr) (previous_is_cased : bool) (s : pystr)
  : pystr :=
  match s with
  | [] => []
  | c :: r =>
      (if previous_is_cased then lower_ucs4 before c r
       else Unicode._PyUnicode_ToTitleFull c)
        ++ do_title (c :: before) (Unicode._PyUnicode_IsCased c) r
  end.

Definition title (s : pystr) : pystr := do_title [] false s.

(** ** Decimal numerals *)

Fixpoint digits_of (fuel : nat) (n : N) (acc : pystr) : pystr :=
  match fuel with
  | O => acc
  | S fuel' =>
      let acc' := (48 + n mod 10)%N :: acc in
      if (n / 10 =? 0)%N then acc' else digits_of fuel' (n / 10)%N acc'
  end.

(** [str(n)] for a natural number [n]. *)
Definition str_of_N (n : N) : pystr := digits_of (S (N.to_nat (N.log2 n))) n [].

(** [str(z)] for a Python [int]. *)
Definition str_of_Z (z : Z) : pystr :=
  match z with
  | Zneg p => 45%N :: str_of_N (Npos p)
  | _ => str_of_N (Z.to_N z)
  end.

(** The number written by a list of digit values, most significant first. *)
Definition number_of (ds : list N) : N :=
  fold_left (fun acc d => (10 * acc + d)%N) ds 0%N.

(* ================================================================== *)
(** * Floating-point numbers *)

Module Float.

Local Open Scope Z_scope.

Definition prec : Z := 53.
Definition emax : Z := 1024.

Definition float := spec_float.

Definition zero : float := S754_zero false.
Definition add : float -> float -> float := SFadd prec emax.

(** The binary64 number nearest to the integer [z] (ties to even). *)
Definition of_Z (z : Z) : float := binary_normalize prec emax z 0 false.

(** The binary64 number nearest to [(-1)^neg * m * 10^e10] (ties to even),
    what [strtod] of CPython's [dtoa.c] returns for a decimal numeral. *)
Definition of_decimal (neg : bool) (m : N) (e10 : Z) : float :=
  match m with
  | N0 => S754_zero neg
  | Npos p =>
      if 0 <=? e10 then
        match Zpos p * 10 ^ e10 with
        | Zpos q => binary_round prec emax neg q 0
        | _ => S754_nan
        end
      else
        let '(q, e, l) :=
          SFdiv_core_binary prec emax (Zpos p) 0 (10 ^ (- e10)) 0 in
        binary_round_aux prec emax neg q e l
  end.

(** The same float, bit for bit. *)
Definition eqb_repr (f g : float) : bool :=
  match f, g with
  | S754_zero s, S754_zero t => Bool.eqb s t
  | S754_infinity s, S754_infinity t => Bool.eqb s t
  | S754_nan, S754_nan => true
  | S754_finite s m e, S754_finite t n k =>
      Bool.eqb s t && Pos.eqb m n && Z.eqb e k
  | _, _ => false
  end.

(** [x < 0.0] *)
Definition is_negative (f : float) : bool := SFltb f zero.

(** [float(z)] for a Python [int]. *)
Definition of_int (z : Z) : result float :=
  match of_Z z with
  | S754_infinity _ => Raise OverflowError
  | f => Ok f
  end.

(** [int(f)]: truncation towards zero. *)
Definition to_int (f : float) : result Z :=
  match f with
  | S754_zero _ => Ok 0
  | S754_nan => Raise (ValueError (InvalidLiteral (lit "nan")))
  | S754_infinity _ => Raise OverflowError
  | S754_finite s m e =>
      let a := if 0 <=? e then Zpos m * 2 ^ e else Zpos m / 2 ^ (- e) in
      Ok (if s then - a else a)
  end.

(** *** [repr(f)]: the shortest numeral that reads back as [f] *)

(** [num / den >= 10^k] *)
Definition ge_pow10 (num den k : Z) : bool :=
  if 0 <=? k then den * 10 ^ k <=? num else den <=? num * 10 ^ (- k).

(** The [p] with [10^(p-1) <= num/den < 10^p]. *)
Definition decimal_point (num den : Z) : Z :=
  let est := ((Z.log2 num - Z.log2 den) * 30103) / 100000 in
  match find (fun p => negb (ge_pow10 num den p))
             (map (fun i => est - 2 + Z.of_nat i) (seq 0 6)) with
  | Some p => p
  | None => est
  end.

(** [floor (num/den * 10^k)] and whether the fraction left is below, at or
    above one half. *)
Definition scaled (num den k : Z) : Z * comparison :=
  let '(a, b) := if 0 <=? k then (num * 10 ^ k, den) else (num, den * 10 ^ (- k)) in
  (a / b, (2 * (a mod b)) ?= b).

(** The value [m * 2^e] as a fraction. *)
Definition fraction (m : positive) (e : Z) : Z * Z :=
  if 0 <=? e then (Zpos m * 2 ^ e, 1) else (Zpos m, 2 ^ (- e)).

(** The [n]-digit numeral just below [m * 2^e]: [(c, k)] stands for
    [c * 10^k]; and where [m * 2^e] lies between it and the next one. *)
Definition numeral_below (m : positive) (e : Z) (n : Z) : Z * Z * comparison :=
  let '(num, den) := fraction m e in
  let k := decimal_point num den - n in
  let '(lo, half) := scaled num den (- k) in
  (lo, k, half).

(** The [n]-digit numeral that reads back as [m * 2^e], if there is one;
    the nearest one if there are two. *)
Definition shortest_at (m : positive) (e : Z) (n : Z) : option (N * Z) :=
  let '(lo, k, half) := numeral_below m e n in
  let back c := eqb_repr (of_decimal false (Z.to_N c) k) (S754_finite false m e) in
  match back lo, back (lo + 1) with
  | true, true =>
      match half with
      | Lt => Some (Z.to_N lo, k)
      | Gt => Some (Z.to_N (lo + 1), k)
      | Eq => Some (Z.to_N (if Z.even lo then lo else lo + 1), k)
      end
  | true, false => Some (Z.to_N lo, k)
  | false, true => Some (Z.to_N (lo + 1), k)
  | false, false => None
  end.

(** The shortest such numeral, trying [n], [n + 1], ... digits; seventeen
    digits always tell a binary64 number apart. *)
Fixpoint shortest_from (fuel : nat) (m : positive) (e : Z) (n : Z) : N * Z :=
  match fuel with
  | O => let '(lo, k, _) := numeral_below m e n in (Z.to_N lo, k)
  | S fuel' =>
      match shortest_at m e n with
      | Some r => r
      | None => shortest_from fuel' m e (n + 1)
      end
  end.

Definition strip_zeros (ds : pystr) : pystr :=
  rev (drop_while (N.eqb 48) (rev ds)).

Definition zeros (n : Z) : pystr := repeat 48%N (Z.to_nat n).

(** [format_float_short] of CPython in mode ['r']: the digits [ds] with the
    decimal point after the first [decpt] of them. *)
Definition format_repr (ds : pystr) (decpt : Z) : pystr :=
  if (decpt <=? -4) || (16 <? decpt) then
    let mant := match ds with
                | [] => []
                | [d] => [d]
                | d :: r => d :: 46%N :: r
                end in
    let ex := decpt - 1 in
    let exd := str_of_N (Z.to_N (Z.abs ex)) in
    mant ++ [101%N; if ex <? 0 then 45%N else 43%N]
         ++ (if Z.abs ex <? 10 then 48%N :: exd else exd)
  else if decpt <=? 0 then
    lit "0." ++ zeros (- decpt) ++ ds
  else if Z.of_nat (length ds) <=? decpt then
    ds ++ zeros (decpt - Z.of_nat (length ds)) ++ lit ".0"
  else
    firstn (Z.to_nat decpt) ds ++ 46%N :: skipn (Z.to_nat decpt) ds.

Definition repr (f : float) : pystr :=
  match f with
  | S754_nan => lit "nan"
  | S754_infinity s => if s then lit "-inf" else lit "inf"
  | S754_zero s => if s then lit "-0.0" else lit "0.0"
  | S754_finite s m e =>
      let '(c, k) := shortest_from 17 m e 1 in
      let ds := str_of_N c in
      (if s then [45%N] else [])
        ++ format_repr (strip_zeros ds) (k + Z.of_nat (length ds))
  end.

End Float.

(* ================================================================== *)
(** * Numbers read from text *)

Section Parsing.

Import Unicode.
Local Open Scope N_scope.

(** [_PyUnicode_TransformDecimalAndSpaceToASCII]: what [int] and [float]
    do to their argument first.  A code point below 127 is kept, a space
    becomes [' '], a decimal digit its ASCII digit; at any other character
    the output ends with ['?']. *)
Fixpoint transform_decimal_and_space (s : pystr) : pystr :=
  match s with
  | [] => []
  | ch :: r =>
      if ch <? 127 then ch :: transform_decimal_and_space r
      else if isspace ch then 32 :: transform_decimal_and_space r
      else match decimal_value ch with
           | Some d => (48 + d) :: transform_decimal_and_space r
           | None => [63]
           end
  end.

Definition parse_sign (s : pystr) : bool * pystr :=
  match s with
  | c :: r =>
      if c =? 45 then (true, r) else if c =? 43 then (false, r) else (false, s)
  | [] => (false, s)
  end.

(** The values of the leading ASCII digits of [s], and what follows them. *)
Fixpoint span_digits (s : pystr) : list N * pystr :=
  match s with
  | c :: r =>
      if Py_ISDIGIT c then let '(ds, rest) := span_digits r in (c - 48 :: ds, rest)
      else ([], s)
  | [] => ([], [])
  end.

(** ** [int(s)] *)

(** [sys.get_int_max_str_digits()], the default. *)
Definition int_max_str_digits : nat := 4300.

(** The digit loop of [PyLong_FromString]: digits, single underscores
    between them. *)
Fixpoint scan_int (prev : N) (s : pystr) : option (list N * pystr) :=
  match s with
  | c :: r =>
      if Py_ISDIGIT c then
        match scan_int c r with
        | Some (ds, rest) => Some (c - 48 :: ds, rest)
        | None => None
        end
      else if c =? 95 then
        if prev =? 95 then None else scan_int c r
      else if prev =? 95 then None else Some ([], s)
  | [] => if prev =? 95 then None else Some ([], [])
  end.

Definition int_of_str (s : pystr) : result Z :=
  let bad := Raise (ValueError (InvalidLiteral s)) in
  let a := drop_while Py_ISSPACE (transform_decimal_and_space s) in
  let '(neg, a) := parse_sign a in
  if startswith [95] a then bad
  else
    match scan_int 0 a with
    | Some (d :: ds, rest) =>
        match drop_while Py_ISSPACE rest with
        | [] =>
            if (int_max_str_digits <? length (d :: ds))%nat then bad
            else let n := Z.of_N (number_of (d :: ds)) in
                 Ok (if neg then (- n)%Z else n)
        | _ :: _ => bad
        end
    | _ => bad
    end.

(** ** [float(s)] *)

(** The underscore pass of [_Py_string_to_number_with_underscores]: an
    underscore is dropped when it stands between two digits, and is an
    error anywhere else. *)
Fixpoint drop_underscores (prev : N) (s : pystr) : option pystr :=
  match s with
  | [] => if prev =? 95 then None else Some []
  | c :: r =>
      if c =? 95 then
        if Py_ISDIGIT prev then drop_underscores c r else None
      else if (prev =? 95) && negb (Py_ISDIGIT c) then None
      else option_map (cons c) (drop_underscores c r)
  end.

Definition case_insensitive_match (s t : pystr) : bool :=
  pystr_eqb (map Py_TOLOWER (firstn (length t) s)) t.

(** [_Py_parse_inf_or_nan]: the value and the text left, when the text
    starts with an infinity or a NaN. *)
Definition parse_inf_or_nan (p : pystr) : option (Float.float * pystr) :=
  let '(negate, s) := parse_sign p in
  if case_insensitive_match s (lit "inf") then
    let s := skipn 3 s in
    Some (S754_infinity negate,
          if case_insensitive_match s (lit "inity") then skipn 5 s else s)
  else if case_insensitive_match s (lit "nan") then
    Some (S754_nan, skipn 3 s)
  else None.

(** [_Py_dg_strtod]: sign, digits, fraction, exponent; the value and the
    text left. *)
Definition strtod (s00 : pystr) : option (Float.float * pystr) :=
  let '(neg, s) := parse_sign s00 in
  let '(ip, s) := span_digits s in
  let '(fp, s) := if startswith [46] s then span_digits (skipn 1 s)
                  else ([], s) in
  match ip ++ fp with
  | [] => None
  | ds =>
      let '(ex, s) :=
        match s with
        | c :: r =>
            if (c =? 101) || (c =? 69) then
              let '(eneg, r) := parse_sign r in
              match span_digits r with
              | ([], _) => (0%Z, s)
              | (ed, r) =>
                  let e := Z.of_N (number_of ed) in
                  (if eneg then (- e)%Z else e, r)
              end
            else (0%Z, s)
        | [] => (0%Z, s)
        end in
      Some (Float.of_decimal neg (number_of ds) (ex - Z.of_nat (length fp)), s)
  end.

(** [float_from_string_inner]: the whole text must be a number. *)
Definition float_from_string_inner (s : pystr) : option Float.float :=
  match parse_inf_or_nan s with
  | Some (f, rest) => match rest with [] => Some f | _ => None end
  | None =>
      match strtod s with
      | Some (f, []) => Some f
      | _ => None
      end
  end.

Definition float_of_str (s : pystr) : result Float.float :=
  let bad := Raise (ValueError (InvalidLiteral s)) in
  match drop_while Py_ISSPACE (transform_decimal_and_space s) with
  | [] => bad
  | a =>
      match drop_underscores 0 (rev (drop_while Py_ISSPACE (rev a))) with
      | Some b =>
          match float_from_string_inner b with
          | Some f => Ok f
          | None => bad
          end
      | None => bad
      end
  end.

End Parsing.

(* ================================================================== *)
(** * Cells *)

(** A cell of the raw grid, as [pd.read_excel] hands it over: the empty
    marker (NaN), text, or a number.  An integer cell is a spreadsheet
    number, well below the digit count at which [str] of an [int] raises;
    that bound is not modelled. *)
Inductive Cell : Type :=
| Empty
| Text (s : pystr)
| Int (z : Z)
| Num (f : Float.float).

(** What [_to_number] returns: the [int] [0] or a [float]. *)
Inductive pynum : Type :=
| PyInt (z : Z)
| PyFloat (f : Float.float).

(** [pd.isna(x)] *)
Definition isna (x : Cell) : bool :=
  match x with
  | Empty | Num S754_nan => true
  | _ => false
  end.

(** [str(x)], what [astype(str)] makes of a cell. *)
Definition py_str (x : Cell) : pystr :=
  match x with
  | Empty => lit "nan"
  | Text s => s
  | Int z => str_of_Z z
  | Num f => Float.repr f
  end.

(** [float(x)] *)
Definition py_float (x : Cell) : result Float.float :=
  match x with
  | Empty => Ok S754_nan
  | Text s => float_of_str s
  | Int z => Float.of_int z
  | Num f => Ok f
  end.

(** [int(x)] *)
Definition py_int (x : Cell) : result Z :=
  match x with
  | Empty => Float.to_int S754_nan
  | Text s => int_of_str s
  | Int z => Ok z
  | Num f => Float.to_int f
  end.

(* ================================================================== *)
(** * Helpers of [app.py] *)

Definition EXPECTED_COLS : list string :=
  [ "Kode_Provinsi"; "Provinsi"; "Jumlah_Kejadian"; "Meninggal_Hilang";
    "Luka_Luka"; "Mengungsi_Terdampak"; "Rumah_Rusak_Berat";
    "Rumah_Rusak_Sedang"; "Rumah_Rusak_Ringan"; "Rumah_Terendam";
    "Fasilitas_Pendidikan"; "Fasilitas_Peribadatan"; "Fasilitas_Kesehatan"
  ]%string.

Definition NUM_COLS : list string :=
  filter (fun c => negb (existsb (String.eqb c) ["Kode_Provinsi"; "Provinsi"]%string))
         EXPECTED_COLS.

Definition em_dash : pystr := [8212%N].
Definition en_dash : pystr := [8211%N].

(** The numeric coercion.  [try_except] stands for the two [try] blocks
    of the source. *)
Definition _to_number (x : Cell) : result pynum :=
  if isna x then Ok (PyInt 0)
  else
    match x with
    | Text x =>
        let s := strip x in
        if existsb (pystr_eqb s) [lit "-"; em_dash; en_dash; lit ""] then
          Ok (PyInt 0)
        else
          let s := remove_commas s in
          try_except (f <- float_of_str s ;; Ok (PyFloat f))
                     is_ValueError
                     (Ok (PyInt 0))
    | _ =>
        try_except (f <- py_float x ;; Ok (PyFloat f))
                   is_Exception
                   (Ok (PyInt 0))
    end.

(** [.astype(float)] on a value returned by [_to_number]. *)
Definition astype_float (v : pynum) : result Float.float :=
  match v with
  | PyInt z => Float.of_int z
  | PyFloat f => Ok f
  end.

(* ================================================================== *)
(** * The release of pandas *)

(** The repository pins no release of pandas, and one step of the
    extraction depends on it: what [DataFrame.apply(f, axis=1)] gives on a
    frame without rows (see [any_cell_rows]).  The release is an implicit
    argument of the functions that reach that step; what is proved of them
    holds on both. *)
Inductive pandas : Type :=
| pandas_2
| pandas_3.

Existing Class pandas.

(** The sample frames are evaluated on pandas 3. *)
#[global] Existing Instance pandas_3.

(* ================================================================== *)
(** * Frames *)

(** The raw frame: [ncols] columns, and the rows in index order; the index
    is the default one, [0 .. len - 1]. *)
Record DataFrame : Type := { ncols : nat; rows : list (list Cell) }.

(** Every row has one cell per column. *)
Definition rectangular (df : DataFrame) : bool :=
  forallb (fun r => Nat.eqb (length r) (ncols df)) (rows df).

Definition cell (r : list Cell) (j : nat) : Cell := nth j r Empty.

(** A frame cut out of the raw one: rows keep their index label. *)
Definition Slice := list (nat * list Cell).

Fixpoint position (c : string) (cols : list string) : nat :=
  match cols with
  | [] => 0
  | c' :: cols' => if String.eqb c c' then 0 else S (position c cols')
  end.

(** [row[c]] once the columns are labelled [EXPECTED_COLS]. *)
Definition col (c : string) (r : list Cell) : Cell :=
  cell r (position c EXPECTED_COLS).

(** One row of the result. *)
Record ProvinceRecord : Type := {
  Kode_Provinsi : pystr;
  Provinsi : pystr;
  Jumlah_Kejadian : Float.float;
  Meninggal_Hilang : Float.float;
  Luka_Luka : Float.float;
  Mengungsi_Terdampak : Float.float;
  Rumah_Rusak_Berat : Float.float;
  Rumah_Rusak_Sedang : Float.float;
  Rumah_Rusak_Ringan : Float.float;
  Rumah_Terendam : Float.float;
  Fasilitas_Pendidikan : Float.float;
  Fasilitas_Peribadatan : Float.float;
  Fasilitas_Kesehatan : Float.float;
  Tahun : Z;
  Total_Dampak_Indikator : Float.float
}.

(** The values of the columns [NUM_COLS] of a record, in that order. *)
Definition indicators (r : ProvinceRecord) : list Float.float :=
  [ Jumlah_Kejadian r; Meninggal_Hilang r; Luka_Luka r; Mengungsi_Terdampak r;
    Rumah_Rusak_Berat r; Rumah_Rusak_Sedang r; Rumah_Rusak_Ringan r;
    Rumah_Terendam r; Fasilitas_Pendidikan r; Fasilitas_Peribadatan r;
    Fasilitas_Kesehatan r ].

(** A normalised table: records under their index labels. *)
Definition Table := list (nat * ProvinceRecord).

(* ================================================================== *)
(** * [extract_province_section] *)

Definition marker : pystr := lit "Kode Wilayah Provinsi".

(** [astype(str).str.contains("Kode Wilayah Provinsi", na=False)] on one
    cell. *)
Definition has_marker (x : Cell) : bool := contains marker (py_str x).

(** [df_raw.index[mask]] *)
Definition index_where (mask : list bool) : list nat :=
  map fst (filter snd (combine (seq 0 (length mask)) mask)).

(** First pass: the rows whose first cell holds the marker. *)
Definition first_col_rows (df_raw : DataFrame) : list nat :=
  index_where (map (fun r => has_marker (cell r 0)) (rows df_raw)).

(** Fallback: the rows with the marker in any cell.  On a frame without
    rows the outcome is that of the release of pandas: pandas 2 hands back
    a copy of the frame instead of a row mask, which [df_raw.index]
    refuses as an index; pandas 3 gives the empty row mask. *)
Definition any_cell_rows {pd : pandas} (df_raw : DataFrame)
  : result (list nat) :=
  match rows df_raw with
  | [] =>
      match pd with
      | pandas_2 => Raise (ValueError MultiDimIndexing)
      | pandas_3 => Ok []
      end
  | rs => Ok (index_where (map (existsb has_marker) rs))
  end.

Definition locate_marker {pd : pandas} (df_raw : DataFrame) : result nat :=
  (* first_col = df_raw.columns[0] *)
  _ <- (if Nat.eqb (ncols df_raw) 0 then Raise IndexError else Ok tt) ;;
  let marker_idx := first_col_rows df_raw in
  marker_idx <- (if Nat.eqb (length marker_idx) 0 then any_cell_rows df_raw
                 else Ok marker_idx) ;;
  if Nat.eqb (length marker_idx) 0 then Raise (ValueError MarkerNotFound)
  else Ok (hd 0 marker_idx).

(** [df_raw.iloc[k:]] *)
Definition iloc_rows_from (k : nat) (df_raw : DataFrame) : Slice :=
  skipn k (combine (seq 0 (length (rows df_raw))) (rows df_raw)).

(** [df.iloc[:, :13]] followed by [df.columns = EXPECTED_COLS]. *)
Definition first_13_columns (width : nat) (df : Slice) : result Slice :=
  let have := Nat.min 13 width in
  if Nat.eqb have (length EXPECTED_COLS) then
    Ok (map (fun '(i, r) => (i, firstn 13 r)) df)
  else Raise (ValueError (LengthMismatch have (length EXPECTED_COLS))).

(** [dropna(subset=["Kode_Provinsi", "Provinsi"], how="any")] keeps: *)
Definition has_code_and_name (r : list Cell) : bool :=
  negb (isna (col "Kode_Provinsi" r) || isna (col "Provinsi" r)).

(** [~df["Kode_Provinsi"].astype(str).str.startswith("-")] *)
Definition not_placeholder (r : list Cell) : bool :=
  negb (startswith (lit "-") (py_str (col "Kode_Provinsi" r))).

(** [lambda x: str(int(x)) if str(x).strip().isdigit() else str(x).strip()] *)
Definition clean_code (x : Cell) : result pystr :=
  if isdigit (strip (py_str x)) then n <- py_int x ;; Ok (str_of_Z n)
  else Ok (strip (py_str x)).

(** [.astype(str).str.strip().str.title()] *)
Definition clean_name (x : Cell) : pystr := title (strip (py_str x)).

(** [.apply(_to_number).astype(float)] on one cell. *)
Definition number_of_cell (x : Cell) : result Float.float :=
  v <- _to_number x ;; astype_float v.

(** The clean-up of the text columns, the numeric conversion, the year and
    the total, on one row.  The clean-up of the code is the one step that
    can raise, so that going row by row meets the same first exception as
    the source, which goes column by column. *)
Definition normalise_row (year : Z) (r : list Cell) : result ProvinceRecord :=
  code <- clean_code (col "Kode_Provinsi" r) ;;
  let name := clean_name (col "Provinsi" r) in
  nums <- mapM (fun c => number_of_cell (col c r)) NUM_COLS ;;
  let v i := nth i nums Float.zero in
  Ok {| Kode_Provinsi := code;
        Provinsi := name;
        Jumlah_Kejadian := v 0;
        Meninggal_Hilang := v 1;
        Luka_Luka := v 2;
        Mengungsi_Terdampak := v 3;
        Rumah_Rusak_Berat := v 4;
        Rumah_Rusak_Sedang := v 5;
        Rumah_Rusak_Ringan := v 6;
        Rumah_Terendam := v 7;
        Fasilitas_Pendidikan := v 8;
        Fasilitas_Peribadatan := v 9;
        Fasilitas_Kesehatan := v 10;
        Tahun := year;
        Total_Dampak_Indikator :=
          Float.add (Float.add (Float.add (Float.add (Float.add (Float.add
            (v 0) (v 1)) (v 2)) (v 3)) (v 4)) (v 5)) (v 6) |}.

Definition extract_province_section {pd : pandas} (df_raw : DataFrame)
  (year : Z) : result Table :=
  marker_idx <- locate_marker df_raw ;;
  let df := iloc_rows_from (marker_idx + 1) df_raw in
  df <- first_13_columns (ncols df_raw) df ;;
  let df := filter (fun ir => has_code_and_name (snd ir)) df in
  let df := filter (fun ir => not_placeholder (snd ir)) df in
  mapM (fun ir => r <- normalise_row year (snd ir) ;; Ok (fst ir, r)) df.

(* ================================================================== *)
(** * The merge *)

(** [pd.concat(tables, ignore_index=True)] *)
Definition concat_ignore_index (tables : list Table) : Table :=
  let records := flat_map (map snd) tables in
  combine (seq 0 (length records)) records.

(** [df = pd.concat([df23, df24], ignore_index=True)] *)
Definition merge (df23 df24 : Table) : Table :=
  concat_ignore_index [df23; df24].


(* ================================================================== *)
(** * Notions used to state the properties *)

(** A text that starts with a digit character. *)
Definition digit_headed (s : pystr) : Prop :=
  exists c r, s = c :: r /\ (48 <= c)%N.

(** The characters of a numeral written with thousands separators. *)
Definition is_digit_or_comma (c : N) : bool :=
  Unicode.Py_ISDIGIT c || N.eqb c 44.

(** The number that the ASCII digits of [s] write, whatever stands between
    them. *)
Definition number_written (s : pystr) : N :=
  number_of (map (fun c => (c - 48)%N) (filter Unicode.Py_ISDIGIT s)).

(** The number a cell holds or writes, if it does: what [float] makes of
    a number cell, and of the trimmed, comma-free text of a text cell. *)
Definition held_number (x : Cell) : option Float.float :=
  match x with
  | Empty => None
  | Text s =>
      match float_of_str (remove_commas (strip s)) with
      | Ok f => Some f
      | Raise _ => None
      end
  | Int z =>
      match Float.of_int z with
      | Ok f => Some f
      | Raise _ => None
      end
  | Num f => Some f
  end.

(** Some row of the frame has the marker in some cell. *)
Definition contains_marker (df : DataFrame) : bool :=
  existsb (existsb has_marker) (rows df).

(** The two frames have the same rows as far as their first 13 columns go. *)
Definition same_first_13 (df df' : DataFrame) : Prop :=
  map (firstn 13) (rows df) = map (firstn 13) (rows df').

(** ** Sample frames *)

Module Examples.

Definition T (s : string) : Cell := Text (lit s).

Definition header : list Cell :=
  T "Kode Wilayah Provinsi" :: repeat Empty 12.

(** The end-to-end example of the specification. *)
Definition aceh : DataFrame :=
  {| ncols := 13;
     rows := [ header;
               [T "11"; T "Aceh"; T "5"; T "2"; T "-"; T "100";
                T "0"; T "0"; T "0"; T "0"; T "0"; T "0"; T "0"];
               [T "-1"; T "Total"; T "5"; T "2"; T "-"; T "100";
                T "0"; T "0"; T "0"; T "0"; T "0"; T "0"; T "0"] ] |}.

Definition aceh_record : ProvinceRecord :=
  {| Kode_Provinsi := lit "11";
     Provinsi := lit "Aceh";
     Jumlah_Kejadian := Float.of_Z 5;
     Meninggal_Hilang := Float.of_Z 2;
     Luka_Luka := Float.zero;
     Mengungsi_Terdampak := Float.of_Z 100;
     Rumah_Rusak_Berat := Float.zero;
     Rumah_Rusak_Sedang := Float.zero;
     Rumah_Rusak_Ringan := Float.zero;
     Rumah_Terendam := Float.zero;
     Fasilitas_Pendidikan := Float.zero;
     Fasilitas_Peribadatan := Float.zero;
     Fasilitas_Kesehatan := Float.zero;
     Tahun := 2023;
     Total_Dampak_Indikator := Float.of_Z 107 |}.

(** A row whose code is a single space, and one whose name is the empty
    string. *)
Definition blank_text : DataFrame :=
  {| ncols := 13;
     rows := [ header;
               T " " :: T "Aceh" :: repeat (T "0") 11;
               T "12" :: T "" :: repeat (T "0") 11 ] |}.

(** A row with a negative event count. *)
Definition negative_count : DataFrame :=
  {| ncols := 13;
     rows := [ header; T "11" :: T "Aceh" :: T "-5" :: repeat (T "0") 10 ] |}.

(** A frame of two columns. *)
Definition narrow : DataFrame :=
  {| ncols := 2;
     rows := [ [T "Kode Wilayah Provinsi"; Empty]; [T "11"; T "Aceh"] ] |}.

(** [aceh] with a fourteenth column. *)
Definition wide : DataFrame :=
  {| ncols := 14; rows := map (fun r => r ++ [T "catatan"]) (rows aceh) |}.

(** The frame of an empty sheet. *)
Definition no_columns : DataFrame := {| ncols := 0; rows := [] |}.

(** A frame without the marker. *)
Definition unmarked : DataFrame :=
  {| ncols := 2; rows := [ [T "Provinsi"; Empty]; [T "11"; T "Aceh"] ] |}.

(** The marker in the second column of the first row and in the first
    column of the third. *)
Definition two_markers : DataFrame :=
  {| ncols := 13;
     rows := [ Empty :: T "Kode Wilayah Provinsi" :: repeat Empty 11;
               T "11" :: T "Aceh" :: repeat (T "0") 11;
               header;
               T "12" :: T "Sumatera Utara" :: repeat (T "0") 11 ] |}.

(** The marker in the third column only, under a row that reads like a
    province. *)
Definition marker_in_third_column : DataFrame :=
  {| ncols := 13;
     rows := [ T "99" :: T "Contoh" :: repeat (T "0") 11;
               Empty :: Empty :: T "Kode Wilayah Provinsi" :: repeat Empty 10;
               T "11" :: T "Aceh" :: repeat (T "0") 11 ] |}.

End Examples.

(* ================================================================== *)
(** * More notions and sample frames *)

(** The rows that the extraction normalises, under their labels. *)
Definition kept_rows (df : DataFrame) (marker_idx : nat) : Slice :=
  filter (fun ir => not_placeholder (snd ir))
    (filter (fun ir => has_code_and_name (snd ir))
       (map (fun ir => (fst ir, firstn 13 (snd ir)))
            (iloc_rows_from (marker_idx + 1) df))).

(** What [str.title] reads of a character. *)
Definition case_profile (c : N) : list N * list N * bool * bool * bool :=
  (Unicode._PyUnicode_ToTitleFull c, Unicode._PyUnicode_ToLowerFull c,
   Unicode._PyUnicode_IsCased c, Unicode._PyUnicode_IsCaseIgnorable c,
   N.eqb c 0x3A3).

Definition case_profile_eqb (a b : N) : bool :=
  let '(t, l, c, i, s) := case_profile a in
  let '(t', l', c', i', s') := case_profile b in
  pystr_eqb t t' && pystr_eqb l l' && Bool.eqb c c' && Bool.eqb i i'
  && Bool.eqb s s'.

Module MoreExamples.

(** A row whose code is a superscript two. *)
Definition superscript_code : DataFrame :=
  {| ncols := 13;
     rows := [ Examples.header;
               Text [178%N] :: Examples.T "Aceh" :: repeat (Examples.T "0") 11 ] |}.

(** A row whose deaths cell is the text [nan]. *)
Definition nan_count : DataFrame :=
  {| ncols := 13;
     rows := [ Examples.header;
               Examples.T "11" :: Examples.T "Aceh" :: Examples.T "5"
                 :: Examples.T "nan" :: repeat (Examples.T "0") 9 ] |}.

(** The row of Aceh with an integer as its code. *)
Definition integer_code : DataFrame :=
  {| ncols := 13;
     rows := [ Examples.header;
               Int 11 :: Examples.T "Aceh" :: Examples.T "5" :: Examples.T "2"
                 :: Examples.T "-" :: Examples.T "100"
                 :: repeat (Examples.T "0") 7 ] |}.

(** Two provinces with the row of the totals between them. *)
Definition two_provinces : DataFrame :=
  {| ncols := 13;
     rows := [ Examples.header;
               Examples.T "11" :: Examples.T "Aceh" :: Examples.T "5"
                 :: Examples.T "2" :: Examples.T "-" :: Examples.T "100"
                 :: repeat (Examples.T "0") 7;
               Examples.T "-1" :: Examples.T "Total" :: Examples.T "5"
                 :: Examples.T "2" :: Examples.T "-" :: Examples.T "100"
                 :: repeat (Examples.T "0") 7;
               Examples.T "12" :: Examples.T "sumatera utara"
                 :: Examples.T "3" :: Examples.T "1" :: Examples.T "-"
                 :: Examples.T "20" :: repeat (Examples.T "0") 7 ] |}.

Definition sumatera_utara_record : ProvinceRecord :=
  {| Kode_Provinsi := lit "12";
     Provinsi := lit "Sumatera Utara";
     Jumlah_Kejadian := Float.of_Z 3;
     Meninggal_Hilang := Float.of_Z 1;
     Luka_Luka := Float.zero;
     Mengungsi_Terdampak := Float.of_Z 20;
     Rumah_Rusak_Berat := Float.zero;
     Rumah_Rusak_Sedang := Float.zero;
     Rumah_Rusak_Ringan := Float.zero;
     Rumah_Terendam := Float.zero;
     Fasilitas_Pendidikan := Float.zero;
     Fasilitas_Peribadatan := Float.zero;
     Fasilitas_Kesehatan := Float.zero;
     Tahun := 2023;
     Total_Dampak_Indikator := Float.of_Z 24 |}.

(** What the extraction makes of [two_provinces] for 2023. *)
Definition two_provinces_table : Table :=
  [(1, Examples.aceh_record); (3, sumatera_utara_record)].

End MoreExamples.

(* ================================================================== *)
(** * The application around the extraction *)

(** [load_from_excel(path, year)]: [pd.read_excel(path)], whose outcome is
    the argument [read], then the extraction.  The cache in front of it
    does not change what it returns. *)
Definition load_from_excel {pd : pandas} (read : result DataFrame) (year : Z)
  : result Table :=
  df_raw <- read ;; extract_province_section df_raw year.

(** The [try] block that loads both files, and the merge after it.  An
    exception is what the [except] branch reports before it stops the
    application. *)
Definition load_data {pd : pandas} (read_2023 read_2024 : result DataFrame)
  : result Table :=
  df23 <- load_from_excel read_2023 2023 ;;
  df24 <- load_from_excel read_2024 2024 ;;
  Ok (merge df23 df24).

(** ** The sidebar *)

(** [Series.unique()]: the values in the order of their first occurrence. *)
Fixpoint unique_from {A : Type} (eqb : A -> A -> bool) (seen l : list A)
  : list A :=
  match l with
  | [] => []
  | a :: l' =>
      if existsb (eqb a) seen then unique_from eqb seen l'
      else a :: unique_from eqb (a :: seen) l'
  end.

Definition unique {A : Type} (eqb : A -> A -> bool) (l : list A) : list A :=
  unique_from eqb [] l.

(** [sorted(l)]: a stable sort, written as an insertion sort. *)
Fixpoint insert_sorted {A : Type} (leb : A -> A -> bool) (x : A) (l : list A)
  : list A :=
  match l with
  | [] => [x]
  | y :: l' => if leb x y then x :: l else y :: insert_sorted leb x l'
  end.

Definition sorted {A : Type} (leb : A -> A -> bool) (l : list A) : list A :=
  fold_right (insert_sorted leb) [] l.

(** [a <= b] on [str]: code point by code point. *)
Fixpoint pystr_leb (a b : pystr) : bool :=
  match a, b with
  | [], _ => true
  | _ :: _, [] => false
  | x :: a', y :: b' =>
      if N.ltb x y then true else if N.eqb x y then pystr_leb a' b' else false
  end.

(** [df["Tahun"]] and [df["Provinsi"]] *)
Definition column_Tahun (df : Table) : list Z :=
  map (fun ir => Tahun (snd ir)) df.

Definition column_Provinsi (df : Table) : list pystr :=
  map (fun ir => Provinsi (snd ir)) df.

(** [years = sorted(df["Tahun"].unique().tolist())] *)
Definition years (df : Table) : list Z :=
  sorted Z.leb (unique Z.eqb (column_Tahun df)).

(** [provs = sorted(df["Provinsi"].unique().tolist())] *)
Definition provs (df : Table) : list pystr :=
  sorted pystr_leb (unique pystr_eqb (column_Provinsi df)).

(** ** The filters *)

(** [x in values], the test of [Series.isin(values)]. *)
Definition isin {A : Type} (eqb : A -> A -> bool) (values : list A) (x : A)
  : bool :=
  existsb (eqb x) values.

(** [df_f = df[df["Tahun"].isin(year_sel)]], then, [if prov_sel:], the
    same on [Provinsi]. *)
Definition apply_filters (year_sel : list Z) (prov_sel : list pystr)
  (df : Table) : Table :=
  let df_f := filter (fun ir => isin Z.eqb year_sel (Tahun (snd ir))) df in
  match prov_sel with
  | [] => df_f
  | _ :: _ =>
      filter (fun ir => isin pystr_eqb prov_sel (Provinsi (snd ir))) df_f
  end.

(** [df_f['Provinsi'].nunique()], the figure of the card "Jumlah Provinsi". *)
Definition nunique_Provinsi (df_f : Table) : nat :=
  length (unique pystr_eqb (column_Provinsi df_f)).

(** ** A loaded table *)

Module LoadedExamples.

Definition aceh_record_2024 : ProvinceRecord :=
  {| Kode_Provinsi := lit "11";
     Provinsi := lit "Aceh";
     Jumlah_Kejadian := Float.of_Z 5;
     Meninggal_Hilang := Float.of_Z 2;
     Luka_Luka := Float.zero;
     Mengungsi_Terdampak := Float.of_Z 100;
     Rumah_Rusak_Berat := Float.zero;
     Rumah_Rusak_Sedang := Float.zero;
     Rumah_Rusak_Ringan := Float.zero;
     Rumah_Terendam := Float.zero;
     Fasilitas_Pendidikan := Float.zero;
     Fasilitas_Peribadatan := Float.zero;
     Fasilitas_Kesehatan := Float.zero;
     Tahun := 2024;
     Total_Dampak_Indikator := Float.of_Z 107 |}.

(** What the application loads from [aceh] as the 2023 file and [wide] as
    the 2024 file. *)
Definition both_years : Table :=
  [(0, Examples.aceh_record); (1, aceh_record_2024)].

(** A table in which Aceh comes twice. *)
Definition three_rows : Table :=
  [(0, Examples.aceh_record); (1, MoreExamples.sumatera_utara_record);
   (2, aceh_record_2024)].

End LoadedExamples.
(* ================================================================== *)
(** * Properties of the runtime functions *)

Lemma bind_Ok {A B : Type} (c : result A) (k : A -> result B) (b : B) :
  bind c k = Ok b -> exists a, c = Ok a /\ k a = Ok b.
Proof.
  destruct c as [a | e]; simpl; intros H; [eauto | discriminate].
Qed.

Section MapM.

Context {A B : Type}.

Lemma mapM_In (f : A -> result B) (l : list A) (l' : list B) :
  mapM f l = Ok l' ->
  forall b, In b l' -> exists a, In a l /\ f a = Ok b.
Proof.
  revert l'; induction l as [| a l IH]; simpl; intros l' H b Hb.
  - injection H as <-. destruct Hb.
  - apply bind_Ok in H as (b0 & Hb0 & H).
    apply bind_Ok in H as (bs & Hbs & H).
    injection H as <-.
    destruct Hb as [<- | Hb]; [eauto |].
    destruct (IH _ Hbs _ Hb) as (a' & Ha' & Hf); eauto.
Qed.

Lemma mapM_total (f : A -> result B) (l : list A) :
  (forall a, In a l -> exists b, f a = Ok b) -> exists l', mapM f l = Ok l'.
Proof.
  induction l as [| a l IH]; simpl; intros H; [eauto |].
  destruct (H a (or_introl eq_refl)) as (b & ->).
  destruct IH as (bs & ->); [intros; apply H; now right |].
  simpl; eauto.
Qed.

Lemma mapM_nth (f : A -> result B) (l : list A) (l' : list B) :
  mapM f l = Ok l' ->
  length l' = length l /\
  forall i a, nth_error l i = Some a ->
              exists b, nth_error l' i = Some b /\ f a = Ok b.
Proof.
  revert l'; induction l as [| a l IH]; simpl; intros l' H.
  - injection H as <-. split; [reflexivity |]. intros [| i] a'; discriminate.
  - apply bind_Ok in H as (b0 & Hb0 & H).
    apply bind_Ok in H as (bs & Hbs & H).
    injection H as <-.
    destruct (IH _ Hbs) as (Hlen & Hnth).
    split; [simpl; congruence |].
    intros [| i] a' Ha'; simpl in *.
    + injection Ha' as <-. eauto.
    + eauto.
Qed.

End MapM.

Section TextFacts.

Lemma pystr_eqb_eq (a b : pystr) : pystr_eqb a b = true <-> a = b.
Proof.
  unfold pystr_eqb; destruct (list_eq_dec N.eq_dec a b); split;
    congruence.
Qed.

Lemma startswith_prefix (p s : pystr) :
  startswith p s = true <-> exists t, s = p ++ t.
Proof.
  revert s; induction p as [| a p IH]; intros s; simpl.
  - split; [intros _; now exists s | reflexivity].
  - destruct s as [| b s].
    + split; [discriminate | intros (t & E); discriminate].
    + rewrite andb_true_iff, N.eqb_eq, IH. split.
      * intros (-> & t & ->); now exists t.
      * intros (t & E); injection E as -> ->; eauto.
Qed.

(** [contains p s] holds when [p] occurs in [s], code point by code point. *)
Lemma contains_substring (p s : pystr) :
  contains p s = true <-> exists a b, s = a ++ p ++ b.
Proof.
  induction s as [| c s IH].
  - simpl; rewrite orb_false_r, startswith_prefix. split.
    + intros (t & E); now exists [], t.
    + intros (a & b & E). destruct a; [now exists b | discriminate].
  - cbn [contains]. rewrite orb_true_iff, startswith_prefix, IH. split.
    + intros [(t & E) | (a & b & E)].
      * now exists [], t.
      * exists (c :: a), b; now rewrite E.
    + intros ([| c' a] & b & E).
      * left; now exists b.
      * right; injection E as _ E; eauto.
Qed.

Lemma drop_while_head (p : N -> bool) (c : N) (s : pystr) :
  p c = false -> drop_while p (c :: s) = c :: s.
Proof. intros H; simpl; now rewrite H. Qed.

Lemma drop_while_snoc (p : N -> bool) (s : pystr) (c : N) :
  p c = false -> exists s', drop_while p (s ++ [c]) = s' ++ [c].
Proof.
  intros H; induction s as [| a s IH]; simpl.
  - rewrite H. now exists [].
  - destruct (p a); [exact IH | now exists (a :: s)].
Qed.

(** Trimming keeps a first character that is not a space. *)
Lemma strip_head (c : N) (s : pystr) :
  Unicode.isspace c = false -> exists s', strip (c :: s) = c :: s'.
Proof.
  intros H; unfold strip.
  rewrite (drop_while_head _ _ s H); simpl rev.
  destruct (drop_while_snoc _ (rev s) _ H) as (s' & ->).
  rewrite rev_app_distr; simpl. now exists (rev s').
Qed.

(** A case mapping never maps a character to nothing. *)
Lemma mapped_nonempty (special : list (N * list N))
  (runs : list (N * N * N * Z)) (c : N) :
  forallb (fun e => negb (Nat.eqb (length (snd e)) 0)) special = true ->
  Unicode.mapped special runs c <> [].
Proof.
  intros H; unfold Unicode.mapped.
  destruct (find _ special) as [[k l] |] eqn:F; [| discriminate].
  apply find_some in F as (Hin & _).
  rewrite forallb_forall in H. specialize (H _ Hin); cbn [snd] in H.
  now destruct l.
Qed.

Lemma title_nonempty (s : pystr) : s <> [] -> title s <> [].
Proof.
  destruct s as [| c r]; [congruence | intros _].
  unfold title; cbn [do_title]. intros E.
  apply app_eq_nil in E as (E & _). revert E.
  apply mapped_nonempty. vm_compute; reflexivity.
Qed.

Lemma digits_of_head (fuel : nat) (n : N) (acc : pystr) :
  fuel <> 0 \/ digit_headed acc -> digit_headed (digits_of fuel n acc).
Proof.
  revert n acc; induction fuel as [| fuel IH]; intros n acc H; simpl.
  - destruct H as [H | H]; [congruence | exact H].
  - assert (digit_headed ((48 + n mod 10)%N :: acc))
      by (eexists _, _; split; [reflexivity | apply N.le_add_r]).
    destruct (n / 10 =? 0)%N; [assumption | apply IH; now right].
Qed.

Lemma str_of_N_head (n : N) : digit_headed (str_of_N n).
Proof. apply digits_of_head; left; discriminate. Qed.

Lemma digit_headed_no_dash (s : pystr) :
  digit_headed s -> startswith (lit "-") s = false.
Proof.
  intros (c & r & -> & H); unfold lit; cbn [list_ascii_of_string map startswith].
  destruct (N.eqb_spec (N_of_ascii "-") c) as [<- |]; [| reflexivity].
  now vm_compute in H.
Qed.

Lemma str_of_Z_nonempty (z : Z) : str_of_Z z <> [].
Proof.
  destruct z; simpl; try discriminate;
    match goal with |- str_of_N ?n <> _ =>
      destruct (str_of_N_head n) as (d & r & -> & _); discriminate end.
Qed.

Lemma str_of_Z_no_dash (z : Z) :
  (0 <= z)%Z -> startswith (lit "-") (str_of_Z z) = false.
Proof.
  destruct z; intros H; try lia; apply digit_headed_no_dash, str_of_N_head.
Qed.

End TextFacts.

Section NumberFacts.

(** [float(s)] raises nothing but [ValueError]. *)
Lemma float_of_str_cases (s : pystr) :
  (exists f, float_of_str s = Ok f) \/
  float_of_str s = Raise (ValueError (InvalidLiteral s)).
Proof.
  unfold float_of_str.
  destruct (drop_while _ _); [now right |].
  destruct (drop_underscores _ _); [| now right].
  destruct (float_from_string_inner _); [left; eauto | now right].
Qed.

Lemma astype_float_zero : astype_float (PyInt 0) = Ok Float.zero.
Proof. reflexivity. Qed.

(** The two shapes of a value of [_to_number]. *)
Lemma to_number_cases (x : Cell) :
  _to_number x = Ok (PyInt 0) \/ exists f, _to_number x = Ok (PyFloat f).
Proof.
  destruct x as [| s | z | f]; unfold _to_number; cbn [isna].
  - now left.
  - destruct (existsb (pystr_eqb (strip s)) _); [now left |].
    destruct (float_of_str_cases (remove_commas (strip s))) as [(f & ->) | ->];
      simpl; eauto.
  - cbn [py_float]. destruct (Float.of_int z); simpl; eauto.
  - destruct f; simpl; eauto.
Qed.

Lemma number_of_cell_total (x : Cell) : exists f, number_of_cell x = Ok f.
Proof.
  unfold number_of_cell.
  destruct (to_number_cases x) as [-> | (f & ->)]; simpl; eauto.
  exists Float.zero; reflexivity.
Qed.

End NumberFacts.

(* ================================================================== *)
(** * Where the records come from *)

Section Provenance.

Lemma combine_seq_In {A : Type} (l : list A) (s i : nat) (a : A) :
  In (i, a) (combine (seq s (length l)) l) ->
  s <= i /\ nth_error l (i - s) = Some a.
Proof.
  revert s; induction l as [| b l IH]; simpl; intros s H; [destruct H |].
  destruct H as [H | H].
  - injection H as <- <-. rewrite Nat.sub_diag. split; [lia | reflexivity].
  - apply IH in H as (Hle & Hnth). split; [lia |].
    replace (i - s) with (S (i - S s)) by lia. exact Hnth.
Qed.

Lemma skipn_combine {A B : Type} (k : nat) (l : list A) (l' : list B) :
  skipn k (combine l l') = combine (skipn k l) (skipn k l').
Proof.
  revert l l'; induction k as [| k IH]; intros l l'; [reflexivity |].
  destruct l as [| a l]; [reflexivity |].
  destruct l' as [| b l']; simpl; [now destruct (skipn k l) | apply IH].
Qed.

(** The rows from position [k] on, under their labels [k], [k + 1], ... *)
Lemma iloc_rows_from_eq (k : nat) (df : DataFrame) :
  iloc_rows_from k df =
  combine (seq k (length (skipn k (rows df)))) (skipn k (rows df)).
Proof.
  unfold iloc_rows_from.
  rewrite skipn_combine, skipn_seq, length_skipn. reflexivity.
Qed.

Lemma iloc_rows_from_In (k : nat) (df : DataFrame) (i : nat) (row : list Cell) :
  In (i, row) (iloc_rows_from k df) ->
  k <= i /\ nth_error (rows df) i = Some row.
Proof.
  rewrite iloc_rows_from_eq. intros H.
  apply combine_seq_In in H as (Hle & Hnth). split; [exact Hle |].
  rewrite nth_error_skipn in Hnth.
  now replace (k + (i - k)) with i in Hnth by lia.
Qed.

Lemma first_13_columns_Ok (w : nat) (df df' : Slice) :
  first_13_columns w df = Ok df' ->
  13 <= w /\ df' = map (fun ir => (fst ir, firstn 13 (snd ir))) df.
Proof.
  unfold first_13_columns.
  change (length EXPECTED_COLS) with 13.
  destruct (Nat.eqb_spec (Nat.min 13 w) 13) as [E | E]; [| discriminate].
  intros H; injection H as <-. split; [lia |].
  apply map_ext; now intros [i r].
Qed.

Lemma first_13_columns_narrow (w : nat) (df : Slice) :
  w < 13 -> first_13_columns w df = Raise (ValueError (LengthMismatch w 13)).
Proof.
  intros H; unfold first_13_columns.
  change (length EXPECTED_COLS) with 13.
  replace (Nat.min 13 w) with w by lia.
  destruct (Nat.eqb_spec w 13); [lia | reflexivity].
Qed.

(** Every record of the result is the normal form of a row of the raw
    frame that lies after the marker row and passed both filters. *)
Lemma extract_provenance {pd : pandas} (df : DataFrame) (year : Z) (t : Table) :
  extract_province_section df year = Ok t ->
  exists marker_idx,
    locate_marker df = Ok marker_idx /\ 13 <= ncols df /\
    forall i r, In (i, r) t ->
      exists row,
        nth_error (rows df) i = Some row /\ marker_idx < i /\
        has_code_and_name (firstn 13 row) = true /\
        not_placeholder (firstn 13 row) = true /\
        normalise_row year (firstn 13 row) = Ok r.
Proof.
  unfold extract_province_section; intros H.
  apply bind_Ok in H as (marker_idx & Hm & H).
  apply bind_Ok in H as (df' & Hc & H).
  apply first_13_columns_Ok in Hc as (Hw & ->).
  exists marker_idx; split; [exact Hm |]; split; [exact Hw |].
  intros i r Hin.
  destruct (mapM_In _ _ _ H _ Hin) as ([i' row'] & Hrow & Hn).
  apply bind_Ok in Hn as (r' & Hn & E); injection E as <- <-.
  apply filter_In in Hrow as (Hrow & Hp).
  apply filter_In in Hrow as (Hrow & Hk).
  apply in_map_iff in Hrow as ([j row] & E & Hrow); injection E as <- <-.
  apply iloc_rows_from_In in Hrow as (Hle & Hnth).
  exists row; simpl in *; repeat split; try assumption; lia.
Qed.

(** What [normalise_row] puts in each column. *)
Lemma normalise_row_Ok (year : Z) (row : list Cell) (r : ProvinceRecord) :
  normalise_row year row = Ok r ->
  clean_code (col "Kode_Provinsi" row) = Ok (Kode_Provinsi r) /\
  Provinsi r = clean_name (col "Provinsi" row) /\
  mapM (fun c => number_of_cell (col c row)) NUM_COLS = Ok (indicators r) /\
  Tahun r = year /\
  Total_Dampak_Indikator r =
    Float.add (Float.add (Float.add (Float.add (Float.add (Float.add
      (Jumlah_Kejadian r) (Meninggal_Hilang r)) (Luka_Luka r))
      (Mengungsi_Terdampak r)) (Rumah_Rusak_Berat r)) (Rumah_Rusak_Sedang r))
      (Rumah_Rusak_Ringan r).
Proof.
  unfold normalise_row; intros H.
  apply bind_Ok in H as (code & Hcode & H).
  apply bind_Ok in H as (nums & Hnums & H).
  injection H as <-; cbn [Kode_Provinsi Provinsi Tahun Total_Dampak_Indikator
    indicators Jumlah_Kejadian Meninggal_Hilang Luka_Luka Mengungsi_Terdampak
    Rumah_Rusak_Berat Rumah_Rusak_Sedang Rumah_Rusak_Ringan Rumah_Terendam
    Fasilitas_Pendidikan Fasilitas_Peribadatan Fasilitas_Kesehatan].
  repeat split; try assumption.
  rewrite Hnums; f_equal.
  destruct (mapM_nth _ _ _ Hnums) as (Hlen & _).
  change (length NUM_COLS) with 11 in Hlen.
  do 11 (destruct nums as [| ? nums]; [discriminate |]).
  destruct nums; [reflexivity | discriminate].
Qed.

End Provenance.

(* ================================================================== *)
(** * Reading a run of ASCII digits *)

(** Case analysis on the comparisons of a code point with constants. *)
Ltac decide_ranges :=
  repeat match goal with
         | |- context [N.leb ?a ?b] => destruct (N.leb_spec a b); try lia
         | |- context [N.ltb ?a ?b] => destruct (N.ltb_spec a b); try lia
         | |- context [N.eqb ?a ?b] => destruct (N.eqb_spec a b); try lia
         end;
  try reflexivity.

Section DigitStrings.

Import Unicode.
Local Open Scope N_scope.

Lemma Py_ISDIGIT_bounds (c : N) : Py_ISDIGIT c = true <-> 48 <= c <= 57.
Proof.
  unfold Py_ISDIGIT, in_range; cbn [fst snd].
  rewrite andb_true_iff, !N.leb_le. reflexivity.
Qed.

Lemma digit_not_space (c : N) : Py_ISDIGIT c = true -> isspace c = false.
Proof.
  rewrite Py_ISDIGIT_bounds; intros H.
  unfold isspace, existsb, in_range; cbn [fst snd]. decide_ranges.
Qed.

Lemma digit_not_Py_space (c : N) : Py_ISDIGIT c = true -> Py_ISSPACE c = false.
Proof.
  rewrite Py_ISDIGIT_bounds; intros H.
  unfold Py_ISSPACE, in_range; cbn [fst snd]. decide_ranges.
Qed.

Lemma drop_while_none (p : N -> bool) (s : pystr) :
  forallb (fun c => negb (p c)) s = true -> drop_while p s = s.
Proof.
  destruct s as [| c s]; [reflexivity |]; simpl.
  rewrite andb_true_iff, negb_true_iff; now intros (-> & _).
Qed.

Lemma forallb_rev {A : Type} (p : A -> bool) (l : list A) :
  forallb p (rev l) = forallb p l.
Proof.
  induction l as [| a l IH]; [reflexivity |]; simpl.
  rewrite forallb_app, IH; simpl. now rewrite andb_true_r, andb_comm.
Qed.

Lemma forallb_weaken {A : Type} (p q : A -> bool) (l : list A) :
  (forall a, p a = true -> q a = true) ->
  forallb p l = true -> forallb q l = true.
Proof.
  intros H; rewrite !forallb_forall; auto.
Qed.

(** Text without a space at either end is its own trimmed form. *)
Lemma strip_none (s : pystr) :
  forallb (fun c => negb (isspace c)) s = true -> strip s = s.
Proof.
  intros H; unfold strip.
  rewrite (drop_while_none _ s H), drop_while_none, rev_involutive;
    [reflexivity | now rewrite forallb_rev].
Qed.

Lemma transform_ascii (s : pystr) :
  forallb (fun c => c <? 127) s = true -> transform_decimal_and_space s = s.
Proof.
  induction s as [| c s IH]; [reflexivity |]; simpl.
  rewrite andb_true_iff; intros (-> & H). now rewrite IH.
Qed.

Lemma drop_underscores_digits (prev : N) (s : pystr) :
  (prev =? 95) = false -> forallb Py_ISDIGIT s = true ->
  drop_underscores prev s = Some s.
Proof.
  revert prev; induction s as [| c s IH]; intros prev Hp; simpl.
  - now rewrite Hp.
  - rewrite andb_true_iff; intros (Hc & Hs).
    assert (E : (c =? 95) = false)
      by (apply Py_ISDIGIT_bounds in Hc; apply N.eqb_neq; lia).
    now rewrite E, Hc, andb_false_r, (IH c E Hs).
Qed.

Lemma span_digits_all (s : pystr) :
  forallb Py_ISDIGIT s = true ->
  span_digits s = (map (fun c => c - 48) s, []).
Proof.
  induction s as [| c s IH]; [reflexivity |]; simpl.
  rewrite andb_true_iff; intros (-> & H). now rewrite (IH H).
Qed.

Lemma parse_sign_digit (c : N) (s : pystr) :
  Py_ISDIGIT c = true -> parse_sign (c :: s) = (false, c :: s).
Proof.
  rewrite Py_ISDIGIT_bounds; intros H; unfold parse_sign. decide_ranges.
Qed.

Lemma no_match_digit (c : N) (s t : pystr) (a : N) :
  Py_ISDIGIT c = true -> 57 < a ->
  case_insensitive_match (c :: s) (a :: t) = false.
Proof.
  rewrite Py_ISDIGIT_bounds; intros H Ha.
  unfold case_insensitive_match.
  destruct (pystr_eqb _ _) eqn:E; [| reflexivity].
  apply pystr_eqb_eq in E; cbn [length firstn map] in E.
  injection E as E _; revert E.
  unfold Py_TOLOWER, Py_ISUPPER, in_range; cbn [fst snd].
  decide_ranges; cbn [andb]; lia.
Qed.

Lemma float_of_str_unfold (s a : pystr) :
  drop_while Py_ISSPACE (transform_decimal_and_space s) = a -> a <> [] ->
  float_of_str s =
    match drop_underscores 0 (rev (drop_while Py_ISSPACE (rev a))) with
    | Some b =>
        match float_from_string_inner b with
        | Some f => Ok f
        | None => Raise (ValueError (InvalidLiteral s))
        end
    | None => Raise (ValueError (InvalidLiteral s))
    end.
Proof.
  intros E Hne; unfold float_of_str; rewrite E.
  destruct a; [congruence | reflexivity].
Qed.

(** A non-empty run of ASCII digits reads as the float nearest to the
    number it writes. *)
Lemma float_of_str_digits (s : pystr) :
  s <> [] -> forallb Py_ISDIGIT s = true ->
  float_of_str s =
    Ok (Float.of_Z (Z.of_N (number_of (map (fun c => c - 48) s)))).
Proof.
  intros Hne Hd.
  assert (Hs : forallb (fun c => negb (Py_ISSPACE c)) s = true).
  { revert Hd; apply forallb_weaken; intros c Hc.
    now rewrite (digit_not_Py_space c Hc). }
  rewrite (float_of_str_unfold s s); [| | exact Hne].
  2:{ rewrite transform_ascii; [now apply drop_while_none |].
      revert Hd; apply forallb_weaken; intros c Hc.
      apply Py_ISDIGIT_bounds in Hc; apply N.ltb_lt; lia. }
  rewrite drop_while_none, rev_involutive by now rewrite forallb_rev.
  rewrite (drop_underscores_digits 0 s eq_refl Hd).
  destruct s as [| c s]; [congruence |].
  assert (Hc : Py_ISDIGIT c = true) by (simpl in Hd; now destruct (Py_ISDIGIT c)).
  unfold float_from_string_inner, parse_inf_or_nan, strtod.
  rewrite (parse_sign_digit c s Hc).
  change (lit "inf") with [105; 110; 102].
  change (lit "nan") with [110; 97; 110].
  rewrite !(no_match_digit c s) by (assumption || lia).
  rewrite (span_digits_all (c :: s) Hd).
  cbn [startswith skipn app length Z.of_nat Z.sub].
  rewrite app_nil_r.
  cbn [map].
  unfold Float.of_decimal, Float.of_Z.
  destruct (number_of _) as [| p]; [reflexivity |].
  cbn [Z.of_N Z.leb Z.compare Z.pow Z.pow_pos].
  now rewrite Z.mul_1_r.
Qed.

End DigitStrings.

(* ================================================================== *)
(** * Integers that are binary64 numbers *)

Section ExactIntegers.

Local Open Scope Z_scope.

Lemma iter_xO_value (p k : positive) :
  Zpos (Pos.iter xO p k) = Zpos p * 2 ^ Zpos k.
Proof.
  apply (Pos.iter_ind _ xO p (fun k a => Zpos a = Zpos p * 2 ^ Zpos k)).
  - rewrite Z.pow_1_r; lia.
  - intros q a IH. rewrite Pos2Z.inj_succ, Z.pow_succ_r by lia.
    rewrite Pos2Z.inj_xO, IH; ring.
Qed.

Lemma iter_xO_digits (p k : positive) :
  digits2_pos (Pos.iter xO p k) = (digits2_pos p + k)%positive.
Proof.
  apply (Pos.iter_ind _ xO p
           (fun k a => digits2_pos a = (digits2_pos p + k)%positive)).
  - simpl; lia.
  - intros q a IH; simpl; rewrite IH; lia.
Qed.

Lemma digits2_bound (p : positive) (n : Z) :
  0 <= n -> Zpos p < 2 ^ n -> Zpos (digits2_pos p) <= n.
Proof.
  revert n; induction p as [p IH | p IH |]; intros n Hn H; simpl.
  - assert (0 < n) by (destruct (Z.eq_dec n 0); [subst; simpl in H; lia | lia]).
    replace n with (Z.succ (n - 1)) in H by lia.
    rewrite Z.pow_succ_r in H by lia.
    specialize (IH (n - 1)); lia.
  - assert (0 < n) by (destruct (Z.eq_dec n 0); [subst; simpl in H; lia | lia]).
    replace n with (Z.succ (n - 1)) in H by lia.
    rewrite Z.pow_succ_r in H by lia.
    specialize (IH (n - 1)); lia.
  - destruct (Z.eq_dec n 0); [subst; simpl in H; lia | lia].
Qed.

(** A mantissa of 53 bits with an exponent in range is left as it is. *)
Lemma binary_round_aux_exact (m : positive) (e : Z) :
  Zpos (digits2_pos m) = 53 -> -1074 <= e <= 971 ->
  binary_round_aux 53 1024 false (Zpos m) e loc_Exact =
  S754_finite false m e.
Proof.
  intros Hd He.
  assert (S : shr_fexp 53 1024 (Zpos m) e loc_Exact =
              ({| shr_m := Zpos m; shr_r := false; shr_s := false |}, e)).
  { unfold shr_fexp, Zdigits2, fexp, emin.
    rewrite Hd.
    replace (Z.max (53 + e - 53) (3 - 1024 - 53) - e) with 0 by lia.
    reflexivity. }
  unfold binary_round_aux. rewrite S.
  cbn [shr_m loc_of_shr_record round_nearest_even]. rewrite S.
  cbn [shr_m].
  destruct (Z.leb_spec e (1024 - 53)); [reflexivity | lia].
Qed.

(** An integer below [2^53] is a binary64 number: converting it to a
    float and back gives it again. *)
Lemma of_Z_exact (z : Z) :
  0 <= z < 2 ^ 53 -> Float.to_int (Float.of_Z z) = Ok z.
Proof.
  intros (H0 & H); destruct z as [| p | p]; [reflexivity | | lia].
  pose proof (digits2_bound p 53 ltac:(lia) H) as Hd.
  unfold Float.of_Z, binary_normalize, binary_round, shl_align.
  unfold fexp, emin, Float.prec, Float.emax.
  replace (Z.max (Zpos (digits2_pos p) + 0 - 53) (3 - 1024 - 53))
    with (Zpos (digits2_pos p) - 53) by lia.
  destruct (Zpos (digits2_pos p) - 53 - 0) as [| k | k] eqn:E; [| lia |].
  - rewrite binary_round_aux_exact by lia.
    unfold Float.to_int; cbn [Z.leb Z.compare Z.pow].
    now rewrite Z.mul_1_r.
  - rewrite binary_round_aux_exact.
    + unfold Float.to_int.
      destruct (Z.leb_spec 0 (Zpos (digits2_pos p) - 53)); [lia |].
      replace (- (Zpos (digits2_pos p) - 53)) with (Zpos k) by lia.
      rewrite iter_xO_value, Z.div_mul; [reflexivity |].
      apply Z.pow_nonzero; lia.
    + rewrite iter_xO_digits, Pos2Z.inj_add; lia.
    + lia.
Qed.

End ExactIntegers.

(* ================================================================== *)
(** * The numeric coercion *)

Section Coercion.

(** C7.  A cell whose trimmed text is a hyphen, an em dash, an en dash or
    empty, and a cell that is empty or missing, is coerced to exactly 0:
    [_to_number] returns the integer 0 and the column holds the float 0.0. *)
Theorem C7_dash_or_empty_is_zero (x : Cell) :
  isna x = true \/
  (exists s, x = Text s /\ In (strip s) [lit "-"; em_dash; en_dash; lit ""]) ->
  _to_number x = Ok (PyInt 0) /\ number_of_cell x = Ok Float.zero.
Proof.
  intros H.
  assert (E : _to_number x = Ok (PyInt 0)).
  { destruct H as [H | (s & -> & H)]; unfold _to_number.
    - now rewrite H.
    - cbn [isna].
      replace (existsb (pystr_eqb (strip s)) _) with true; [reflexivity |].
      symmetry; apply existsb_exists.
      exists (strip s); split; [exact H | now apply pystr_eqb_eq]. }
  split; [exact E |].
  unfold number_of_cell; rewrite E; reflexivity.
Qed.

Lemma C7_dash_or_empty_is_zero_witness :
  _to_number (Text (lit " - ")) = Ok (PyInt 0) /\
  number_of_cell (Text (lit " - ")) = Ok Float.zero.
Proof.
  apply (C7_dash_or_empty_is_zero (Text (lit " - "))).
  right; exists (lit " - "); split; [reflexivity |].
  vm_compute; left; reflexivity.
Defined.

(** C9.  [_to_number] returns on every cell, and what it returns is the
    integer 0 or a float, which the column conversion turns into a float;
    when the text does not parse, or the number does not convert, the
    result is 0; and the numeric columns of a row are converted whatever
    its cells are. *)
Theorem C9_to_number_never_raises (x : Cell) (row : list Cell) :
  (exists v, _to_number x = Ok v /\ (v = PyInt 0 \/ exists f, v = PyFloat f)) /\
  (exists f, number_of_cell x = Ok f) /\
  (forall s e, x = Text s ->
     float_of_str (remove_commas (strip s)) = Raise e ->
     _to_number x = Ok (PyInt 0)) /\
  (forall e, (forall s, x <> Text s) -> py_float x = Raise e ->
     _to_number x = Ok (PyInt 0)) /\
  (exists fs, mapM (fun c => number_of_cell (col c row)) NUM_COLS = Ok fs).
Proof.
  repeat split.
  - destruct (to_number_cases x) as [-> | (f & ->)]; eauto.
  - apply number_of_cell_total.
  - intros s e -> H; unfold _to_number; cbn [isna].
    destruct (existsb (pystr_eqb (strip s)) _); [reflexivity |].
    rewrite H.
    destruct (float_of_str_cases (remove_commas (strip s))) as [(f & E) | E];
      rewrite E in H; [discriminate |].
    injection H as <-; reflexivity.
  - intros e Ht H; unfold _to_number.
    destruct (isna x); [reflexivity |].
    destruct x as [| s | z | f]; [| now elim (Ht s) | |]; now rewrite H.
  - apply mapM_total; intros c _; apply number_of_cell_total.
Qed.

Lemma C9_to_number_never_raises_witness :
  _to_number (Text (lit "n/a")) = Ok (PyInt 0) /\
  _to_number (Int (2 ^ 1024)) = Ok (PyInt 0).
Proof.
  split.
  - exact (proj1 (proj2 (proj2 (C9_to_number_never_raises (Text (lit "n/a")) [])))
             (lit "n/a") (ValueError (InvalidLiteral (lit "n/a")))
             eq_refl eq_refl).
  - refine (proj1 (proj2 (proj2 (proj2
             (C9_to_number_never_raises (Int (2 ^ 1024)) []))))
             OverflowError _ _).
    + intros s; discriminate.
    + vm_compute; reflexivity.
Defined.

End Coercion.

(* ================================================================== *)
(** * The derived total and the merge *)

Section TotalAndMerge.

(** C5.  In every record of the result the total is the sum, taken from
    left to right, of the event count, deaths and missing, injuries,
    displaced and affected, and the three tiers of damaged houses, as they
    stand in that record; flooded houses and the three facility counts do
    not enter it, and no cell of the grid is read for it. *)
Theorem C5_total_is_sum_of_seven {pd : pandas}
  (df : DataFrame) (year : Z) (t : Table) (i : nat) (r : ProvinceRecord) :
  extract_province_section df year = Ok t ->
  In (i, r) t ->
  Total_Dampak_Indikator r =
    Float.add (Float.add (Float.add (Float.add (Float.add (Float.add
      (Jumlah_Kejadian r) (Meninggal_Hilang r)) (Luka_Luka r))
      (Mengungsi_Terdampak r)) (Rumah_Rusak_Berat r)) (Rumah_Rusak_Sedang r))
      (Rumah_Rusak_Ringan r).
Proof.
  intros H Hin.
  destruct (extract_provenance _ _ _ H) as (m & _ & _ & Hrows).
  destruct (Hrows _ _ Hin) as (row & _ & _ & _ & _ & Hn).
  now apply normalise_row_Ok in Hn.
Qed.

Lemma combine_fst_snd {A B : Type} (l : list A) (l' : list B) :
  length l = length l' ->
  map fst (combine l l') = l /\ map snd (combine l l') = l'.
Proof.
  revert l'; induction l as [| a l IH]; intros [| b l'] E; try discriminate;
    [now split |].
  destruct (IH l') as (F & S); [now injection E |].
  simpl; now rewrite F, S.
Qed.

(** C10.  The merge of two tables has as many rows as both together and
    holds their records, untouched and in order, those of the first table
    before those of the second; the index alone is renumbered. *)
Theorem C10_merge_concatenates (df23 df24 : Table) :
  length (merge df23 df24) = length df23 + length df24 /\
  map snd (merge df23 df24) = map snd df23 ++ map snd df24 /\
  map fst (merge df23 df24) = seq 0 (length df23 + length df24).
Proof.
  unfold merge, concat_ignore_index; cbn [flat_map].
  rewrite app_nil_r.
  set (records := map snd df23 ++ map snd df24).
  assert (L : length records = length df23 + length df24)
    by (unfold records; now rewrite length_app, !length_map).
  destruct (combine_fst_snd (seq 0 (length records)) records) as (F & S);
    [apply length_seq |].
  repeat split.
  - now rewrite length_combine, length_seq, Nat.min_id.
  - exact S.
  - now rewrite F, L.
Qed.

End TotalAndMerge.

(* ================================================================== *)
(** * Numerals with thousands separators *)

Section Thousands.

Import Unicode.

Lemma digit_or_comma_not_space (c : N) :
  is_digit_or_comma c = true -> isspace c = false.
Proof.
  unfold is_digit_or_comma; rewrite orb_true_iff, N.eqb_eq.
  intros [H | ->]; [now apply digit_not_space | reflexivity].
Qed.

Lemma remove_commas_digits (s : pystr) :
  forallb is_digit_or_comma s = true ->
  remove_commas s = filter Py_ISDIGIT s.
Proof.
  rewrite forallb_forall; intros H; unfold remove_commas.
  apply filter_ext_in; intros c Hc; specialize (H c Hc).
  unfold is_digit_or_comma in H.
  destruct (Py_ISDIGIT c) eqn:D.
  - apply Py_ISDIGIT_bounds in D. apply negb_true_iff, N.eqb_neq; lia.
  - simpl in H; now rewrite H.
Qed.

Lemma filter_nonempty {A : Type} (p : A -> bool) (l : list A) :
  existsb p l = true -> filter p l <> [].
Proof.
  rewrite existsb_exists; intros (a & Ha & Hp) E.
  assert (In a (filter p l)) by now apply filter_In.
  now rewrite E in *.
Qed.

Lemma forallb_filter {A : Type} (p : A -> bool) (l : list A) :
  forallb p (filter p l) = true.
Proof.
  apply forallb_forall; intros a Ha; now apply filter_In in Ha.
Qed.

(** C8.  Text made of ASCII digits and thousands-separator commas, with a
    digit in it, is coerced to the float of the number its digits write:
    the commas are taken out before the text is parsed.  That float is the
    binary64 number nearest to the number written, and is that very number
    when it is below [2^53] (["1,234"] gives [1234.0]). *)
Theorem C8_thousands_separators (s : pystr) :
  forallb is_digit_or_comma s = true ->
  existsb Py_ISDIGIT s = true ->
  _to_number (Text s) = Ok (PyFloat (Float.of_Z (Z.of_N (number_written s)))) /\
  number_of_cell (Text s) = Ok (Float.of_Z (Z.of_N (number_written s))) /\
  ((number_written s < 2 ^ 53)%N ->
   Float.to_int (Float.of_Z (Z.of_N (number_written s)))
     = Ok (Z.of_N (number_written s))).
Proof.
  intros Hall Hex.
  assert (E : _to_number (Text s) =
              Ok (PyFloat (Float.of_Z (Z.of_N (number_written s))))).
  { unfold _to_number; cbn [isna].
    rewrite strip_none.
    2:{ revert Hall; apply forallb_weaken; intros c Hc.
        now rewrite (digit_or_comma_not_space c Hc). }
    replace (existsb (pystr_eqb s) _) with false.
    2:{ symmetry; apply not_true_is_false; intros H.
        apply existsb_exists in H as (t & Ht & E).
        apply pystr_eqb_eq in E; subst t.
        cbn [In] in Ht.
        destruct Ht as [<- | [<- | [<- | [<- | []]]]]; discriminate Hex. }
    rewrite (remove_commas_digits s Hall).
    rewrite float_of_str_digits;
      [reflexivity | now apply filter_nonempty | apply forallb_filter]. }
  split; [exact E |]; split.
  - unfold number_of_cell; now rewrite E.
  - intros Hlt; apply of_Z_exact.
    change (2 ^ 53)%Z with (Z.of_N (2 ^ 53)); lia.
Qed.

Lemma C8_thousands_separators_witness :
  _to_number (Text (lit "1,234")) = Ok (PyFloat (Float.of_Z 1234)) /\
  number_of_cell (Text (lit "1,234")) = Ok (Float.of_Z 1234) /\
  Float.to_int (Float.of_Z 1234) = Ok 1234%Z.
Proof.
  destruct (C8_thousands_separators (lit "1,234") eq_refl eq_refl)
    as (A & B & C).
  split; [exact A |]; split; [exact B |].
  apply C; reflexivity.
Defined.

(** ["1,234"] is coerced to the float [1234 = 1234 * 2^42 * 2^-42]. *)
Example thousands_1234 :
  number_written (lit "1,234") = 1234%N /\
  number_of_cell (Text (lit "1,234")) =
    Ok (S754_finite false (1234 * 2 ^ 42) (-42)).
Proof. split; vm_compute; reflexivity. Qed.

End Thousands.

(* ================================================================== *)
(** * The rows that are kept *)

Section RowsKept.

Import Unicode.

Lemma col_code (row : list Cell) :
  col "Kode_Provinsi" (firstn 13 row) = cell row 0.
Proof. unfold col, cell; cbn [position EXPECTED_COLS String.eqb]. now destruct row. Qed.

Lemma cell_firstn (row : list Cell) (j : nat) :
  j < 13 -> cell (firstn 13 row) j = cell row j.
Proof.
  intros H; unfold cell; rewrite nth_firstn.
  destruct (Nat.ltb_spec j 13); [reflexivity | lia].
Qed.

Lemma Py_space_is_space (c : N) : Py_ISSPACE c = true -> isspace c = true.
Proof.
  unfold Py_ISSPACE, isspace, existsb, in_range; cbn [fst snd].
  rewrite orb_true_iff, andb_true_iff, !N.leb_le, N.eqb_eq.
  intros [H | ->]; [| reflexivity].
  decide_ranges.
Qed.

(** [int] of text that starts with neither a space nor a minus sign is not
    negative. *)
Lemma int_of_str_nonneg (c : N) (s : pystr) (n : Z) :
  isspace c = false -> c <> 45%N ->
  int_of_str (c :: s) = Ok n -> (0 <= n)%Z.
Proof.
  intros Hs Hc.
  assert (Hp : Py_ISSPACE c = false).
  { destruct (Py_ISSPACE c) eqn:E; [| reflexivity].
    apply Py_space_is_space in E; congruence. }
  assert (exists c' r,
            drop_while Py_ISSPACE (transform_decimal_and_space (c :: s))
            = c' :: r /\ c' <> 45%N) as (c' & r & E & Hc').
  { cbn [transform_decimal_and_space].
    destruct (N.ltb c 127).
    - exists c; eexists; split; [apply drop_while_head; exact Hp | exact Hc].
    - rewrite Hs. destruct (decimal_value c) as [d |].
      + exists (48 + d)%N; eexists; split.
        * apply drop_while_head.
          unfold Py_ISSPACE, in_range; cbn [fst snd]. decide_ranges.
        * lia.
      + exists 63%N, []; split; [reflexivity | discriminate]. }
  unfold int_of_str; rewrite E; unfold parse_sign.
  destruct (N.eqb_spec c' 45); [congruence |].
  destruct (N.eqb c' 43);
    (destruct (startswith _ _); [discriminate |];
     destruct (scan_int _ _) as [[[| d ds] rest] |]; try discriminate;
     destruct (drop_while _ rest); try discriminate;
     destruct (Nat.ltb _ _); try discriminate;
     intros H; injection H as <-; lia).
Qed.

Lemma to_int_nonneg (m : positive) (e : Z) (n : Z) :
  Float.to_int (S754_finite false m e) = Ok n -> (0 <= n)%Z.
Proof.
  assert (A : (0 <= if Z.leb 0 e then Zpos m * 2 ^ e
                    else Zpos m / 2 ^ (- e))%Z).
  { destruct (Z.leb_spec 0 e).
    - apply Z.mul_nonneg_nonneg; [lia | apply Z.pow_nonneg; lia].
    - apply Z.div_pos; [lia | apply Z.pow_pos_nonneg; lia]. }
  unfold Float.to_int; intros H; injection H as <-; exact A.
Qed.

Lemma startswith_dash (c : N) (s : pystr) :
  startswith (lit "-") (c :: s) = N.eqb 45 c.
Proof.
  unfold lit; cbn [list_ascii_of_string map startswith].
  change (N_of_ascii "-") with 45%N. apply andb_true_r.
Qed.

(** The cleaned code of a cell whose text starts with neither a space nor
    a minus sign is not empty and does not start with a minus sign. *)
Lemma clean_code_head (x : Cell) (c : N) (s k : pystr) :
  py_str x = c :: s -> isspace c = false ->
  startswith (lit "-") (py_str x) = false ->
  clean_code x = Ok k ->
  k <> [] /\ startswith (lit "-") k = false.
Proof.
  intros E Hs Hd; unfold clean_code.
  assert (Hc : c <> 45%N).
  { rewrite E, startswith_dash in Hd. apply N.eqb_neq in Hd; congruence. }
  destruct (isdigit (strip (py_str x))).
  - intros H; apply bind_Ok in H as (n & Hn & H); injection H as <-.
    split; [apply str_of_Z_nonempty |].
    apply str_of_Z_no_dash.
    destruct x as [| t | z | f]; cbn [py_int py_str] in *.
    + discriminate.
    + subst t. exact (int_of_str_nonneg c s n Hs Hc Hn).
    + injection Hn as <-. destruct z; try lia.
      cbn [str_of_Z] in E; injection E as <- _; congruence.
    + destruct f as [sg | sg | | sg m e]; try discriminate.
      * injection Hn as <-; lia.
      * destruct sg; [| exact (to_int_nonneg m e n Hn)].
        cbn [Float.repr] in E.
        destruct (Float.shortest_from _ _ _ _) as [a b].
        cbn [app] in E; injection E as <- _; congruence.
  - intros H; injection H as <-.
    destruct (strip_head c s Hs) as (s' & Es).
    rewrite E in *; rewrite Es.
    split; [discriminate |].
    rewrite startswith_dash; apply N.eqb_neq; congruence.
Qed.

Lemma clean_code_nonempty (x : Cell) (k : pystr) :
  strip (py_str x) <> [] -> clean_code x = Ok k -> k <> [].
Proof.
  intros Hne; unfold clean_code.
  destruct (isdigit (strip (py_str x))).
  - intros H; apply bind_Ok in H as (n & _ & H); injection H as <-.
    apply str_of_Z_nonempty.
  - intros H; now injection H as <-.
Qed.

(** C2, as the code has it.  Every record of the result stems from a row
    whose code and name cells are both present (not the empty marker) and
    whose code, as text before trimming, does not start with ['-'].  Its
    code and its name are non-empty whenever the trimmed text of their
    cell is, and its code is non-empty and does not start with ['-']
    whenever the code text starts with a character that is not a space.
    (Text made of spaces only, or the empty string, is not absent: its
    row is kept.) *)
Theorem C2_kept_rows {pd : pandas}
  (df : DataFrame) (year : Z) (t : Table) (i : nat) (r : ProvinceRecord) :
  extract_province_section df year = Ok t ->
  In (i, r) t ->
  exists row,
    nth_error (rows df) i = Some row /\
    isna (cell row 0) = false /\
    isna (cell row 1) = false /\
    startswith (lit "-") (py_str (cell row 0)) = false /\
    (strip (py_str (cell row 0)) <> [] -> Kode_Provinsi r <> []) /\
    (strip (py_str (cell row 1)) <> [] -> Provinsi r <> []) /\
    (forall c s, py_str (cell row 0) = c :: s -> isspace c = false ->
       Kode_Provinsi r <> [] /\
       startswith (lit "-") (Kode_Provinsi r) = false).
Proof.
  intros H Hin.
  destruct (extract_provenance _ _ _ H) as (m & _ & _ & Hrows).
  destruct (Hrows _ _ Hin) as (row & Hnth & _ & Hk & Hp & Hn).
  apply normalise_row_Ok in Hn as (Hcode & Hname & _).
  unfold has_code_and_name in Hk; unfold not_placeholder in Hp.
  rewrite col_code in *.
  assert (Ec : col "Provinsi" (firstn 13 row) = cell row 1)
    by (apply (cell_firstn row 1); lia).
  rewrite Ec in *.
  apply negb_true_iff, orb_false_iff in Hk as (Hk0 & Hk1).
  apply negb_true_iff in Hp.
  exists row; repeat split; try assumption.
  - intros Hne; exact (clean_code_nonempty _ _ Hne Hcode).
  - intros Hne; rewrite Hname; now apply title_nonempty.
  - exact (proj1 (clean_code_head _ _ _ _ H0 H1 Hp Hcode)).
  - exact (proj2 (clean_code_head _ _ _ _ H0 H1 Hp Hcode)).
Qed.

Lemma C2_kept_rows_witness :
  exists row,
    nth_error (rows Examples.aceh) 1 = Some row /\
    isna (cell row 0) = false /\
    isna (cell row 1) = false /\
    startswith (lit "-") (py_str (cell row 0)) = false /\
    (strip (py_str (cell row 0)) <> [] ->
       Kode_Provinsi Examples.aceh_record <> []) /\
    (strip (py_str (cell row 1)) <> [] ->
       Provinsi Examples.aceh_record <> []) /\
    (forall c s, py_str (cell row 0) = c :: s -> isspace c = false ->
       Kode_Provinsi Examples.aceh_record <> [] /\
       startswith (lit "-") (Kode_Provinsi Examples.aceh_record) = false).
Proof.
  apply (C2_kept_rows Examples.aceh 2023 [(1, Examples.aceh_record)]).
  - vm_compute; reflexivity.
  - left; reflexivity.
Defined.

(** C2 fails as stated: a row whose code is a space, and a row whose name
    is the empty string, are both returned, with an empty code and an
    empty name. *)
Lemma C2_blank_text_is_kept :
  contains_marker Examples.blank_text = true /\
  exists r1 r2,
    extract_province_section Examples.blank_text 2023 = Ok [(1, r1); (2, r2)] /\
    Kode_Provinsi r1 = [] /\ Provinsi r2 = [].
Proof.
  split; [reflexivity |].
  eexists _, _; split; [vm_compute; reflexivity |].
  split; reflexivity.
Qed.

End RowsKept.

(* ================================================================== *)
(** * The values of the numeric columns *)

Section Indicators.

(** A converted cell is 0.0 or the number the cell holds. *)
Lemma number_of_cell_held (x : Cell) (v : Float.float) :
  number_of_cell x = Ok v -> v = Float.zero \/ held_number x = Some v.
Proof.
  unfold number_of_cell, _to_number.
  destruct x as [| s | z | f]; cbn [isna held_number py_float].
  - intros H; injection H as <-; now left.
  - destruct (existsb (pystr_eqb (strip s)) _);
      [intros H; injection H as <-; now left |].
    destruct (float_of_str (remove_commas (strip s))) as [f | e] eqn:E.
    + intros H; injection H as <-; now right.
    + destruct (float_of_str_cases (remove_commas (strip s))) as [(f & F) | F];
        rewrite F in E; [discriminate |].
      injection E as <-; intros H; injection H as <-; now left.
  - destruct (Float.of_int z) as [f | e];
      intros H; injection H as <-; [now right | now left].
  - destruct f; intros H; injection H as <-; (now right) || (now left).
Qed.

(** The k-th numeric column of a record is the conversion of the cell in
    column [2 + k] of its row. *)
Lemma indicator_cells (row : list Cell) (fs : list Float.float) :
  mapM (fun c => number_of_cell (col c (firstn 13 row))) NUM_COLS = Ok fs ->
  forall k, k < 11 ->
    number_of_cell (cell row (2 + k)) = Ok (nth k fs Float.zero).
Proof.
  intros H k Hk.
  destruct (mapM_nth _ _ _ H) as (_ & Hnth).
  rewrite <- (cell_firstn row (2 + k)) by lia.
  do 11 (destruct k as [| k];
         [match goal with
          | |- context [nth ?j fs _] =>
              destruct (Hnth j _ eq_refl) as (b & Hb & Hc);
              rewrite (nth_error_nth _ _ _ Hb); exact Hc
          end |]).
  lia.
Qed.

(** C4, as the code has it.  Each of the eleven numeric fields of a record
    is the conversion of its cell: exactly 0.0 when the cell holds no
    number (it is empty, a placeholder, or text that does not parse), and
    negative only when the cell holds a negative number or text that
    parses to one, such as ["-5"]. *)
Theorem C4_indicator_values {pd : pandas}
  (df : DataFrame) (year : Z) (t : Table) (i : nat) (r : ProvinceRecord) :
  extract_province_section df year = Ok t ->
  In (i, r) t ->
  exists row,
    nth_error (rows df) i = Some row /\
    forall k, k < 11 ->
      number_of_cell (cell row (2 + k)) = Ok (nth k (indicators r) Float.zero) /\
      (held_number (cell row (2 + k)) = None ->
         nth k (indicators r) Float.zero = Float.zero) /\
      (Float.is_negative (nth k (indicators r) Float.zero) = true ->
         held_number (cell row (2 + k)) = Some (nth k (indicators r) Float.zero)).
Proof.
  intros H Hin.
  destruct (extract_provenance _ _ _ H) as (m & _ & _ & Hrows).
  destruct (Hrows _ _ Hin) as (row & Hnth & _ & _ & _ & Hn).
  apply normalise_row_Ok in Hn as (_ & _ & Hnums & _).
  exists row; split; [exact Hnth |]; intros k Hk.
  pose proof (indicator_cells row _ Hnums k Hk) as Hv.
  split; [exact Hv |].
  destruct (number_of_cell_held _ _ Hv) as [E | E]; split.
  - now intros _.
  - rewrite E; discriminate.
  - rewrite E; discriminate.
  - now intros _.
Qed.

Lemma C4_indicator_values_witness :
  exists row,
    nth_error (rows Examples.aceh) 1 = Some row /\
    forall k, k < 11 ->
      number_of_cell (cell row (2 + k))
        = Ok (nth k (indicators Examples.aceh_record) Float.zero) /\
      (held_number (cell row (2 + k)) = None ->
         nth k (indicators Examples.aceh_record) Float.zero = Float.zero) /\
      (Float.is_negative (nth k (indicators Examples.aceh_record) Float.zero)
         = true ->
         held_number (cell row (2 + k))
           = Some (nth k (indicators Examples.aceh_record) Float.zero)).
Proof.
  apply (C4_indicator_values Examples.aceh 2023 [(1, Examples.aceh_record)]).
  - vm_compute; reflexivity.
  - left; reflexivity.
Defined.

(** C4 fails as stated: the text ["-5"] in the event count of a row gives
    the record the event count [-5.0], which is below zero. *)
Lemma C4_negative_text_is_kept :
  exists r,
    extract_province_section Examples.negative_count 2023 = Ok [(1, r)] /\
    Jumlah_Kejadian r = SFopp (Float.of_Z 5) /\
    Float.is_negative (Jumlah_Kejadian r) = true.
Proof.
  eexists; split; [vm_compute; reflexivity |].
  split; reflexivity.
Qed.

Lemma C5_total_is_sum_of_seven_witness :
  Total_Dampak_Indikator Examples.aceh_record =
    Float.add (Float.add (Float.add (Float.add (Float.add (Float.add
      (Jumlah_Kejadian Examples.aceh_record)
      (Meninggal_Hilang Examples.aceh_record))
      (Luka_Luka Examples.aceh_record))
      (Mengungsi_Terdampak Examples.aceh_record))
      (Rumah_Rusak_Berat Examples.aceh_record))
      (Rumah_Rusak_Sedang Examples.aceh_record))
      (Rumah_Rusak_Ringan Examples.aceh_record).
Proof.
  apply (C5_total_is_sum_of_seven Examples.aceh 2023
           [(1, Examples.aceh_record)] 1).
  - vm_compute; reflexivity.
  - left; reflexivity.
Defined.

End Indicators.

(* ================================================================== *)
(** * The marker row *)

Section MarkerRow.

(** [index_where], with the labels starting at [s]. *)
Lemma index_from_cons (s : nat) (b : bool) (mask : list bool) :
  map fst (filter snd (combine (seq s (length (b :: mask))) (b :: mask))) =
  (if b then [s] else []) ++
  map fst (filter snd (combine (seq (S s) (length mask)) mask)).
Proof. now destruct b. Qed.

(** The first label picked is that of the first [true] of the mask. *)
Lemma index_from_first (s : nat) (mask : list bool) (i : nat) (rest : list nat) :
  map fst (filter snd (combine (seq s (length mask)) mask)) = i :: rest ->
  s <= i /\ nth_error mask (i - s) = Some true /\
  forall j, j < i - s -> nth_error mask j = Some false.
Proof.
  revert s; induction mask as [| b mask IH]; intros s; [discriminate |].
  rewrite index_from_cons. destruct b; cbn [app].
  - intros H; injection H as <- _. rewrite Nat.sub_diag.
    split; [lia |]; split; [reflexivity | intros j Hj; lia].
  - intros H; apply IH in H as (Hle & Hnth & Hlt).
    replace (i - s) with (S (i - S s)) by lia.
    split; [lia |]; split; [exact Hnth |].
    intros [| j] Hj; [reflexivity | apply Hlt; lia].
Qed.

Lemma index_from_nil (s : nat) (mask : list bool) :
  map fst (filter snd (combine (seq s (length mask)) mask)) = [] <->
  forallb negb mask = true.
Proof.
  revert s; induction mask as [| b mask IH]; intros s; [now split |].
  rewrite index_from_cons. destruct b; cbn [app forallb negb andb].
  - split; discriminate.
  - apply IH.
Qed.

Lemma index_where_first (mask : list bool) (i : nat) (rest : list nat) :
  index_where mask = i :: rest ->
  nth_error mask i = Some true /\
  forall j, j < i -> nth_error mask j = Some false.
Proof.
  intros H; apply index_from_first in H as (_ & Hnth & Hlt).
  rewrite Nat.sub_0_r in *; now split.
Qed.

Lemma index_where_nil (mask : list bool) :
  index_where mask = [] <-> forallb negb mask = true.
Proof. apply index_from_nil. Qed.

Lemma forallb_negb_map {A : Type} (p : A -> bool) (l : list A) :
  forallb negb (map p l) = negb (existsb p l).
Proof.
  induction l as [| a l IH]; [reflexivity |]; simpl.
  now rewrite IH, negb_orb.
Qed.

(** A cell of the first column is a cell of its row. *)
Lemma first_cell_in_row (row : list Cell) :
  has_marker (cell row 0) = true -> existsb has_marker row = true.
Proof.
  destruct row as [| x row]; unfold cell; cbn [nth existsb].
  - discriminate.
  - now intros ->.
Qed.

Lemma no_marker_first_col (df : DataFrame) :
  contains_marker df = false -> first_col_rows df = [].
Proof.
  unfold contains_marker, first_col_rows; intros H.
  apply index_where_nil. rewrite forallb_negb_map, negb_true_iff.
  apply not_true_is_false; intros E.
  apply existsb_exists in E as (row & Hrow & E).
  apply first_cell_in_row in E.
  assert (existsb (existsb has_marker) (rows df) = true)
    by (apply existsb_exists; eauto).
  congruence.
Qed.

(** What [locate_marker] returns, by the outcome of the two passes. *)
Lemma locate_marker_first {pd : pandas} (df : DataFrame) (i : nat) (rest : list nat) :
  0 < ncols df -> first_col_rows df = i :: rest -> locate_marker df = Ok i.
Proof.
  intros Hc H; unfold locate_marker.
  destruct (Nat.eqb_spec (ncols df) 0); [lia |]; cbn [bind].
  now rewrite H.
Qed.

Lemma locate_marker_fallback {pd : pandas} (df : DataFrame) :
  0 < ncols df -> rows df <> [] -> first_col_rows df = [] ->
  locate_marker df =
    match index_where (map (existsb has_marker) (rows df)) with
    | [] => Raise (ValueError MarkerNotFound)
    | i :: _ => Ok i
    end.
Proof.
  intros Hc Hr H; unfold locate_marker, any_cell_rows.
  destruct (Nat.eqb_spec (ncols df) 0); [lia |]; cbn [bind].
  rewrite H; cbn [length Nat.eqb].
  destruct (rows df) as [| row rs] eqn:E; [congruence |]; cbn [bind].
  now destruct (index_where _).
Qed.

Lemma nth_error_mask {A : Type} (p : A -> bool) (l : list A) (j : nat) (b : bool) :
  nth_error (map p l) j = Some b ->
  exists a, nth_error l j = Some a /\ p a = b.
Proof.
  rewrite nth_error_map. destruct (nth_error l j) as [a |]; simpl;
    [intros H; injection H as <-; eauto | discriminate].
Qed.

Lemma nth_error_mask_false {A : Type} (p : A -> bool) (l : list A) (j : nat) (a : A) :
  nth_error (map p l) j = Some false -> nth_error l j = Some a -> p a = false.
Proof.
  intros H Ha; apply nth_error_mask in H as (a' & Ha' & E); congruence.
Qed.

(** A frame with the marker in it has a column and a row. *)
Lemma marker_needs_cells (df : DataFrame) :
  rectangular df = true -> contains_marker df = true ->
  0 < ncols df /\ rows df <> [].
Proof.
  unfold rectangular, contains_marker; intros Hr Hm.
  apply existsb_exists in Hm as (row & Hrow & Hm).
  rewrite forallb_forall in Hr. specialize (Hr row Hrow).
  apply Nat.eqb_eq in Hr.
  split; [| intros E; now rewrite E in Hrow].
  destruct row; [discriminate | simpl in Hr; lia].
Qed.

(** In [two_markers] the row picked is the third, the first one with the
    marker in its first cell, not the first row, which has it in its
    second cell. *)
Example two_markers_row : locate_marker Examples.two_markers = Ok 2.
Proof. reflexivity. Qed.

(** The marker in another case is not the marker. *)
Example marker_case_matters :
  has_marker (Text (lit "Kode Wilayah Provinsi :")) = true /\
  has_marker (Text (lit "KODE WILAYAH PROVINSI")) = false.
Proof. split; reflexivity. Qed.

(** The end-to-end example of the specification: one record, that of
    Aceh, with the total 107.0. *)
Example aceh_end_to_end :
  extract_province_section Examples.aceh 2023 = Ok [(1, Examples.aceh_record)].
Proof. vm_compute; reflexivity. Qed.

End MarkerRow.

(* ================================================================== *)
(** * Frames without the marker, and the width of the frame *)

Section Failures.

(** Without rows, the fallback search finds nothing on pandas 3. *)
Lemma locate_marker_no_rows (df : DataFrame) :
  0 < ncols df -> rows df = [] ->
  @locate_marker pandas_3 df = Raise (ValueError MarkerNotFound).
Proof.
  intros Hc Hr; unfold locate_marker, any_cell_rows, first_col_rows.
  destruct (Nat.eqb_spec (ncols df) 0); [lia |]; now rewrite Hr.
Qed.

(** Where the marker search does what the specification says: on a frame
    in which no cell, as text, contains the marker, the extraction returns
    no table; and when the frame has a column, and a row or pandas 3 under
    it, what it raises is the [ValueError] of the missing marker. *)
Lemma no_marker_raises {pd : pandas} (df : DataFrame) (year : Z) :
  contains_marker df = false ->
  (forall t, extract_province_section df year <> Ok t) /\
  (0 < ncols df -> rows df <> [] \/ pd = pandas_3 ->
   extract_province_section df year = Raise (ValueError MarkerNotFound)).
Proof.
  intros H.
  pose proof (no_marker_first_col df H) as F.
  assert (L : 0 < ncols df -> rows df <> [] ->
              locate_marker df = Raise (ValueError MarkerNotFound)).
  { intros Hc Hr. rewrite (locate_marker_fallback df Hc Hr F).
    replace (index_where _) with (@nil nat); [reflexivity |].
    symmetry; apply index_where_nil.
    unfold contains_marker in H. now rewrite forallb_negb_map, H. }
  split.
  - intros t E. apply bind_Ok in E as (i & Hi & _).
    destruct (Nat.eq_dec (ncols df) 0) as [Z | Z];
      [| destruct (rows df) as [| row rs] eqn:R].
    + unfold locate_marker in Hi; now rewrite Z in Hi.
    + unfold locate_marker, any_cell_rows in Hi.
      destruct (Nat.eqb (ncols df) 0); [discriminate |].
      rewrite F, R in Hi; destruct pd; discriminate.
    + rewrite L in Hi; [discriminate | lia | discriminate].
  - intros Hc [Hr | ->]; unfold extract_province_section.
    + now rewrite (L Hc Hr).
    + destruct (rows df) as [| row rs] eqn:R.
      * now rewrite (locate_marker_no_rows df Hc R).
      * rewrite L; [reflexivity | exact Hc | discriminate].
Qed.

Example unmarked_frame_raises :
  extract_province_section Examples.unmarked 2023
    = Raise (ValueError MarkerNotFound).
Proof. reflexivity. Qed.

(** C1 does not hold of the code.  The frame of an empty sheet has no
    column: it holds the marker in no cell, and on it the extraction
    raises [IndexError], at [df_raw.columns[0]], before the search that
    would raise the [ValueError] of the missing marker. *)
Theorem C1_no_columns_index_error {pd : pandas} (year : Z) :
  rectangular Examples.no_columns = true /\
  contains_marker Examples.no_columns = false /\
  extract_province_section Examples.no_columns year = Raise IndexError.
Proof. repeat split. Qed.

Lemma map_iloc_first_13 (df : DataFrame) (k : nat) :
  map (fun ir => (fst ir, firstn 13 (snd ir))) (iloc_rows_from k df) =
  skipn k (combine (seq 0 (length (rows df))) (map (firstn 13) (rows df))).
Proof.
  unfold iloc_rows_from. rewrite <- skipn_map. f_equal.
  generalize (seq 0 (length (rows df))).
  induction (rows df) as [| row rs IH]; intros [| n ns]; simpl;
    [reflexivity .. |].
  now rewrite IH.
Qed.

Lemma first_13_columns_wide (w : nat) (df : Slice) :
  13 <= w ->
  first_13_columns w df = Ok (map (fun ir => (fst ir, firstn 13 (snd ir))) df).
Proof.
  intros H; unfold first_13_columns.
  change (length EXPECTED_COLS) with 13.
  replace (Nat.min 13 w) with 13 by lia; cbn [Nat.eqb].
  f_equal; apply map_ext; now intros [i r].
Qed.

(** C3, as the code has it.  A frame of fewer than 13 columns is not
    padded: once the marker row is found, labelling the columns raises
    the [ValueError] of a length mismatch.  In a frame of 13 columns or
    more the records are read from the first 13 columns alone: two such
    frames with the same marker row and the same first 13 columns give the
    same result. *)
Theorem C3_first_13_columns {pd : pandas} (df df' : DataFrame) (year : Z) (i : nat) :
  locate_marker df = Ok i ->
  (ncols df < 13 ->
   extract_province_section df year
     = Raise (ValueError (LengthMismatch (ncols df) 13))) /\
  (13 <= ncols df -> 13 <= ncols df' ->
   same_first_13 df df' -> locate_marker df' = Ok i ->
   extract_province_section df year = extract_province_section df' year).
Proof.
  intros L; split.
  - intros Hw; unfold extract_province_section; rewrite L; cbn [bind].
    now rewrite (first_13_columns_narrow _ _ Hw).
  - intros Hw Hw' Hsame L'; unfold extract_province_section.
    rewrite L, L'; cbn [bind].
    rewrite !first_13_columns_wide by assumption; cbn [bind].
    rewrite !map_iloc_first_13.
    unfold same_first_13 in Hsame.
    assert (E : length (rows df) = length (rows df'))
      by (rewrite <- (length_map (firstn 13) (rows df)), Hsame;
          apply length_map).
    now rewrite Hsame, E.
Qed.

Lemma C3_first_13_columns_witness :
  extract_province_section Examples.narrow 2023
    = Raise (ValueError (LengthMismatch 2 13)) /\
  extract_province_section Examples.wide 2023
    = extract_province_section Examples.aceh 2023.
Proof.
  split.
  - apply (proj1 (C3_first_13_columns Examples.narrow Examples.narrow 2023 0
                    eq_refl)).
    unfold Examples.narrow; simpl; lia.
  - apply (proj2 (C3_first_13_columns Examples.wide Examples.aceh 2023 0
                    eq_refl)).
    + unfold Examples.wide; simpl; lia.
    + unfold Examples.aceh; simpl; lia.
    + reflexivity.
    + reflexivity.
Defined.

(** C3 fails as stated: a frame of two columns with the marker in it is
    not extracted; labelling its columns raises. *)
Lemma C3_narrow_frame_raises :
  rectangular Examples.narrow = true /\
  contains_marker Examples.narrow = true /\
  extract_province_section Examples.narrow 2023
    = Raise (ValueError (LengthMismatch 2 13)).
Proof. repeat split. Qed.

End Failures.
(* ================================================================== *)
(** * The rows of the result, one for one *)

Section KeptRows.

Lemma mapM_Forall2 {A B : Type} (f : A -> result B) (l : list A) (l' : list B) :
  mapM f l = Ok l' <-> Forall2 (fun a b => f a = Ok b) l l'.
Proof.
  revert l'; induction l as [| a l IH]; intros l'; simpl.
  - split; [intros H; injection H as <-; constructor |].
    intros H; inversion H; reflexivity.
  - split.
    + intros H. apply bind_Ok in H as (b & Hb & H).
      apply bind_Ok in H as (bs & Hbs & H). injection H as <-.
      constructor; [exact Hb | now apply IH].
    + intros H; inversion H as [| a' b l1 bs Hb Hbs]; subst.
      rewrite Hb; cbn [bind]. apply IH in Hbs. now rewrite Hbs.
Qed.

Lemma Forall2_In_l {A B : Type} (R : A -> B -> Prop) (l : list A) (l' : list B) :
  Forall2 R l l' -> forall a, In a l -> exists b, In b l' /\ R a b.
Proof.
  induction 1 as [| x y l l' Hxy _ IH]; intros a Ha; [destruct Ha |].
  destruct Ha as [<- | Ha]; [exists y; split; [now left | exact Hxy] |].
  destruct (IH a Ha) as (b & Hb & Hr); exists b; split; [now right | exact Hr].
Qed.

Lemma combine_seq_nth {A : Type} (l : list A) (s i : nat) (a : A) :
  nth_error l i = Some a ->
  nth_error (combine (seq s (length l)) l) i = Some (s + i, a).
Proof.
  revert s i; induction l as [| b l IH]; intros s [| i] H; simpl in *;
    try discriminate.
  - injection H as ->. now rewrite Nat.add_0_r.
  - rewrite (IH (S s) i H). f_equal; f_equal; lia.
Qed.

Lemma iloc_rows_from_has (k : nat) (df : DataFrame) (i : nat) (row : list Cell) :
  k <= i -> nth_error (rows df) i = Some row -> In (i, row) (iloc_rows_from k df).
Proof.
  intros Hk Hnth; unfold iloc_rows_from.
  apply nth_error_In with (n := i - k).
  rewrite nth_error_skipn. replace (k + (i - k)) with i by lia.
  now rewrite (combine_seq_nth _ 0 i row Hnth).
Qed.

(** A successful extraction pairs the kept rows, one for one and in
    order, with their records. *)
Lemma extract_Forall2 {pd : pandas} (df : DataFrame) (year : Z) (t : Table) :
  extract_province_section df year = Ok t ->
  exists marker_idx,
    locate_marker df = Ok marker_idx /\ 13 <= ncols df /\
    Forall2 (fun ir lr => fst lr = fst ir /\
                          normalise_row year (snd ir) = Ok (snd lr))
            (kept_rows df marker_idx) t.
Proof.
  unfold extract_province_section; intros H.
  apply bind_Ok in H as (m & Hm & H).
  apply bind_Ok in H as (df' & Hc & H).
  apply first_13_columns_Ok in Hc as (Hw & ->).
  exists m; split; [exact Hm |]; split; [exact Hw |].
  apply mapM_Forall2 in H. unfold kept_rows.
  eapply Forall2_impl; [| exact H].
  intros [i row] [l r] E; cbn [fst snd] in *.
  apply bind_Ok in E as (r' & Hr & E). injection E as <- <-. now split.
Qed.

Lemma kept_rows_has (df : DataFrame) (m i : nat) (row : list Cell) :
  m < i -> nth_error (rows df) i = Some row ->
  has_code_and_name (firstn 13 row) = true ->
  not_placeholder (firstn 13 row) = true ->
  In (i, firstn 13 row) (kept_rows df m).
Proof.
  intros Hi Hnth Hk Hp; unfold kept_rows.
  apply filter_In; split; [| exact Hp].
  apply filter_In; split; [| exact Hk].
  apply in_map_iff; exists (i, row); split; [reflexivity |].
  apply iloc_rows_from_has; [lia | exact Hnth].
Qed.

Lemma sorted_labels_filter {A : Type} (p : nat * A -> bool) (l : list (nat * A)) :
  StronglySorted lt (map fst l) -> StronglySorted lt (map fst (filter p l)).
Proof.
  induction l as [| a l IH]; intros H; [constructor |].
  cbn [map] in H. apply StronglySorted_inv in H as (Hs & Hall).
  cbn [filter]. destruct (p a); [| now apply IH].
  cbn [map]. constructor; [now apply IH |].
  rewrite Forall_forall in *. intros x Hx. apply Hall.
  apply in_map_iff in Hx as (y & <- & Hy). apply filter_In in Hy as (Hy & _).
  now apply in_map.
Qed.

Lemma sorted_seq (s n : nat) : StronglySorted lt (seq s n).
Proof.
  revert s; induction n as [| n IH]; intros s; [constructor |].
  cbn [seq]. constructor; [apply IH |].
  apply Forall_forall; intros x Hx. apply in_seq in Hx; lia.
Qed.

Lemma kept_rows_labels (df : DataFrame) (m : nat) :
  StronglySorted lt (map fst (kept_rows df m)).
Proof.
  unfold kept_rows. do 2 apply sorted_labels_filter.
  rewrite map_map; cbn [fst].
  rewrite iloc_rows_from_eq.
  rewrite (proj1 (combine_fst_snd _ _ (length_seq _ _))).
  apply sorted_seq.
Qed.

Lemma Forall2_labels (year : Z) (l : Slice) (t : Table) :
  Forall2 (fun ir lr => fst lr = fst ir /\
                        normalise_row year (snd ir) = Ok (snd lr)) l t ->
  map fst t = map fst l.
Proof.
  induction 1 as [| ir lr l t (E & _) _ IH]; [reflexivity |].
  cbn [map]; now rewrite E, IH.
Qed.

(** A row that passes the filters is normalised, and its record returned. *)
Lemma kept_row_is_returned {pd : pandas}
  (df : DataFrame) (year : Z) (t : Table) (m i : nat) (row : list Cell) :
  extract_province_section df year = Ok t ->
  locate_marker df = Ok m ->
  m < i -> nth_error (rows df) i = Some row ->
  isna (cell row 0) = false -> isna (cell row 1) = false ->
  startswith (lit "-") (py_str (cell row 0)) = false ->
  exists r, In (i, r) t /\ normalise_row year (firstn 13 row) = Ok r.
Proof.
  intros H Hm Hi Hnth Hc Hn Hd.
  destruct (extract_Forall2 _ _ _ H) as (m' & Hm' & _ & F).
  rewrite Hm in Hm'; injection Hm' as <-.
  assert (K : In (i, firstn 13 row) (kept_rows df m)).
  { apply kept_rows_has; try assumption.
    - unfold has_code_and_name.
      rewrite col_code, (cell_firstn row 1 ltac:(lia) : col "Provinsi" _ = _).
      now rewrite Hc, Hn.
    - unfold not_placeholder. now rewrite col_code, Hd. }
  destruct (Forall2_In_l _ _ _ F _ K) as ([l r] & Hin & E & Hr).
  cbn [fst snd] in *; subst l. now exists r.
Qed.

End KeptRows.

(* ================================================================== *)
(** * The marker row and the rows after it *)

Section CandidateRows.

(** The outcome of the extraction is read off the width of the frame, the
    marker row and the rows after it. *)
Lemma extract_rows_after {pd : pandas} (df df' : DataFrame) (year : Z) (i : nat) :
  ncols df' = ncols df ->
  locate_marker df = Ok i -> locate_marker df' = Ok i ->
  skipn (i + 1) (rows df') = skipn (i + 1) (rows df) ->
  extract_province_section df' year = extract_province_section df year.
Proof.
  intros W L L' E; unfold extract_province_section.
  rewrite L, L'; cbn [bind].
  now rewrite !iloc_rows_from_eq, E, W.
Qed.

(** The records of a successful extraction are those of the rows after the
    marker row that pass the two filters. *)
Lemma extract_records {pd : pandas}
  (df : DataFrame) (year : Z) (t : Table) (i l : nat) (r : ProvinceRecord) :
  extract_province_section df year = Ok t ->
  locate_marker df = Ok i ->
  In (l, r) t <->
  i < l /\
  exists row, nth_error (rows df) l = Some row /\
              has_code_and_name (firstn 13 row) = true /\
              not_placeholder (firstn 13 row) = true /\
              normalise_row year (firstn 13 row) = Ok r.
Proof.
  intros H L; split.
  - intros Hin.
    destruct (extract_provenance _ _ _ H) as (m & Hm & _ & Hall).
    rewrite L in Hm; injection Hm as <-.
    destruct (Hall _ _ Hin) as (row & Hnth & Hlt & Hk & Hp & Hn).
    split; [exact Hlt |]. now exists row.
  - intros (Hlt & row & Hnth & Hk & Hp & Hn).
    destruct (extract_Forall2 _ _ _ H) as (m & Hm & _ & F).
    rewrite L in Hm; injection Hm as <-.
    pose proof (kept_rows_has df i l row Hlt Hnth Hk Hp) as K.
    destruct (Forall2_In_l _ _ _ F _ K) as ([l' r'] & Hin & E & Hr).
    cbn [fst snd] in *; subst l'.
    rewrite Hn in Hr; injection Hr as <-. exact Hin.
Qed.

(** C6.  In a frame that holds the marker, the marker row is the first row
    whose first cell, as text, contains the marker (case matters, the
    test being equality of code points); when no first cell does, it is
    the first row with a cell that does.  The candidate rows are exactly
    the rows strictly after it: they are what the rest of the extraction
    is handed, under their own labels; the records of the result are those
    of the rows after the marker row that pass the two filters, one for
    each such row and in the order of the rows, and of no other row; and a
    frame of the same width with the same marker row and the same rows
    after it has the same outcome, whatever its rows up to the marker row
    are. *)
Theorem C6_marker_row {pd : pandas} (df : DataFrame) :
  rectangular df = true ->
  contains_marker df = true ->
  exists i,
    locate_marker df = Ok i /\
    ((exists j row, nth_error (rows df) j = Some row /\
                    has_marker (cell row 0) = true) ->
     (exists row, nth_error (rows df) i = Some row /\
                  has_marker (cell row 0) = true) /\
     (forall j row, j < i -> nth_error (rows df) j = Some row ->
                    has_marker (cell row 0) = false)) /\
    ((forall j row, nth_error (rows df) j = Some row ->
                    has_marker (cell row 0) = false) ->
     (exists row, nth_error (rows df) i = Some row /\
                  existsb has_marker row = true) /\
     (forall j row, j < i -> nth_error (rows df) j = Some row ->
                    existsb has_marker row = false)) /\
    iloc_rows_from (i + 1) df =
      combine (seq (i + 1) (length (rows df) - (i + 1)))
              (skipn (i + 1) (rows df)) /\
    (forall year t, extract_province_section df year = Ok t ->
     StronglySorted lt (map fst t) /\
     forall l r,
       In (l, r) t <->
       i < l /\
       exists row, nth_error (rows df) l = Some row /\
                   has_code_and_name (firstn 13 row) = true /\
                   not_placeholder (firstn 13 row) = true /\
                   normalise_row year (firstn 13 row) = Ok r) /\
    (forall df' year,
       ncols df' = ncols df -> locate_marker df' = Ok i ->
       skipn (i + 1) (rows df') = skipn (i + 1) (rows df) ->
       extract_province_section df' year
         = extract_province_section df year).
Proof.
  intros Hr Hm.
  destruct (marker_needs_cells df Hr Hm) as (Hc & Hrows).
  assert (Hafter : forall i, locate_marker df = Ok i ->
            iloc_rows_from (i + 1) df =
              combine (seq (i + 1) (length (rows df) - (i + 1)))
                      (skipn (i + 1) (rows df)) /\
            (forall year t, extract_province_section df year = Ok t ->
             StronglySorted lt (map fst t) /\
             forall l r,
               In (l, r) t <->
               i < l /\
               exists row, nth_error (rows df) l = Some row /\
                           has_code_and_name (firstn 13 row) = true /\
                           not_placeholder (firstn 13 row) = true /\
                           normalise_row year (firstn 13 row) = Ok r) /\
            (forall df' year,
               ncols df' = ncols df -> locate_marker df' = Ok i ->
               skipn (i + 1) (rows df') = skipn (i + 1) (rows df) ->
               extract_province_section df' year
                 = extract_province_section df year)).
  { intros i Hi; split; [| split].
    - now rewrite iloc_rows_from_eq, length_skipn.
    - intros year t H; split; [| intros l r; now apply extract_records].
      destruct (extract_Forall2 _ _ _ H) as (m & _ & _ & F).
      rewrite (Forall2_labels _ _ _ F); apply kept_rows_labels.
    - intros df' year W L' E. now apply (extract_rows_after df df' year i). }
  destruct (first_col_rows df) as [| i rest] eqn:E.
  - (* no first cell holds the marker: fallback *)
    pose proof (locate_marker_fallback df Hc Hrows E) as L.
    destruct (index_where (map (existsb has_marker) (rows df)))
      as [| i rest] eqn:F.
    + apply index_where_nil in F.
      rewrite forallb_negb_map in F. unfold contains_marker in Hm.
      rewrite Hm in F; discriminate.
    + apply index_where_first in F as (Hi & Hlt).
      apply index_where_nil in E. rewrite forallb_negb_map, negb_true_iff in E.
      exists i; split; [exact L |].
      split; [| split; [| exact (Hafter i L)]].
      * intros (j & row & Hj & Hrow).
        assert (existsb (fun r => has_marker (cell r 0)) (rows df) = true)
          by (apply existsb_exists; exists row; split;
              [now apply nth_error_In in Hj | exact Hrow]).
        congruence.
      * intros _; split.
        -- apply nth_error_mask in Hi as (row & Hrow & Hh); eauto.
        -- intros j row Hj Hrow.
           exact (nth_error_mask_false _ _ _ _ (Hlt j Hj) Hrow).
  - (* some first cell holds the marker *)
    pose proof (locate_marker_first df i rest Hc E) as L.
    apply index_where_first in E as (Hi & Hlt).
    exists i; split; [exact L |].
    split; [| split; [| exact (Hafter i L)]].
    + intros _; split.
      * apply nth_error_mask in Hi as (row & Hrow & Hh); eauto.
      * intros j row Hj Hrow.
        exact (nth_error_mask_false _ _ _ _ (Hlt j Hj) Hrow).
    + intros Hnone.
      apply nth_error_mask in Hi as (row & Hrow & Hh).
      rewrite (Hnone _ _ Hrow) in Hh; discriminate.
Qed.

(** On [two_markers] the first pass decides; on [marker_in_third_column]
    the fallback does. *)
Lemma C6_marker_row_witness :
  (exists i,
      locate_marker Examples.two_markers = Ok i /\
      ((exists j row, nth_error (rows Examples.two_markers) j = Some row /\
                      has_marker (cell row 0) = true) ->
       (exists row, nth_error (rows Examples.two_markers) i = Some row /\
                    has_marker (cell row 0) = true) /\
       (forall j row, j < i -> nth_error (rows Examples.two_markers) j = Some row ->
                      has_marker (cell row 0) = false)) /\
      ((forall j row, nth_error (rows Examples.two_markers) j = Some row ->
                      has_marker (cell row 0) = false) ->
       (exists row, nth_error (rows Examples.two_markers) i = Some row /\
                    existsb has_marker row = true) /\
       (forall j row, j < i -> nth_error (rows Examples.two_markers) j = Some row ->
                      existsb has_marker row = false)) /\
      iloc_rows_from (i + 1) Examples.two_markers =
        combine (seq (i + 1) (length (rows Examples.two_markers) - (i + 1)))
                (skipn (i + 1) (rows Examples.two_markers)) /\
      (forall year t, extract_province_section Examples.two_markers year = Ok t ->
       StronglySorted lt (map fst t) /\
       forall l r,
         In (l, r) t <->
         i < l /\
         exists row, nth_error (rows Examples.two_markers) l = Some row /\
                     has_code_and_name (firstn 13 row) = true /\
                     not_placeholder (firstn 13 row) = true /\
                     normalise_row year (firstn 13 row) = Ok r) /\
      (forall df' year,
         ncols df' = ncols Examples.two_markers -> locate_marker df' = Ok i ->
         skipn (i + 1) (rows df') = skipn (i + 1) (rows Examples.two_markers) ->
         extract_province_section df' year
           = extract_province_section Examples.two_markers year)) /\
  (exists i,
      locate_marker Examples.marker_in_third_column = Ok i /\
      ((exists j row, nth_error (rows Examples.marker_in_third_column) j = Some row /\
                      has_marker (cell row 0) = true) ->
       (exists row, nth_error (rows Examples.marker_in_third_column) i = Some row /\
                    has_marker (cell row 0) = true) /\
       (forall j row, j < i -> nth_error (rows Examples.marker_in_third_column) j = Some row ->
                      has_marker (cell row 0) = false)) /\
      ((forall j row, nth_error (rows Examples.marker_in_third_column) j = Some row ->
                      has_marker (cell row 0) = false) ->
       (exists row, nth_error (rows Examples.marker_in_third_column) i = Some row /\
                    existsb has_marker row = true) /\
       (forall j row, j < i -> nth_error (rows Examples.marker_in_third_column) j = Some row ->
                      existsb has_marker row = false)) /\
      iloc_rows_from (i + 1) Examples.marker_in_third_column =
        combine (seq (i + 1) (length (rows Examples.marker_in_third_column) - (i + 1)))
                (skipn (i + 1) (rows Examples.marker_in_third_column)) /\
      (forall year t, extract_province_section Examples.marker_in_third_column year = Ok t ->
       StronglySorted lt (map fst t) /\
       forall l r,
         In (l, r) t <->
         i < l /\
         exists row, nth_error (rows Examples.marker_in_third_column) l = Some row /\
                     has_code_and_name (firstn 13 row) = true /\
                     not_placeholder (firstn 13 row) = true /\
                     normalise_row year (firstn 13 row) = Ok r) /\
      (forall df' year,
         ncols df' = ncols Examples.marker_in_third_column -> locate_marker df' = Ok i ->
         skipn (i + 1) (rows df') = skipn (i + 1) (rows Examples.marker_in_third_column) ->
         extract_province_section df' year
           = extract_province_section Examples.marker_in_third_column year)).
Proof.
  split.
  - apply (C6_marker_row Examples.two_markers); reflexivity.
  - apply (C6_marker_row Examples.marker_in_third_column); reflexivity.
Defined.

(** In [marker_in_third_column] the row picked is the second, and the one
    record is that of the row after it, not of the row before. *)
Example marker_in_third_column_row :
  locate_marker Examples.marker_in_third_column = Ok 1 /\
  exists r,
    extract_province_section Examples.marker_in_third_column 2023
      = Ok [(2, r)].
Proof. split; [reflexivity | eexists; vm_compute; reflexivity]. Qed.

End CandidateRows.


(* ================================================================== *)
(** * More on the extraction: which rows come out, and in which order *)

Section ExtractionRows.

(** X1.  Every record of the result bears the year the caller passed;
    no cell of the frame decides it. *)
Theorem X1_year_is_the_callers {pd : pandas}
  (df : DataFrame) (year : Z) (t : Table) (i : nat) (r : ProvinceRecord) :
  extract_province_section df year = Ok t -> In (i, r) t -> Tahun r = year.
Proof.
  intros H Hin.
  destruct (extract_provenance _ _ _ H) as (m & _ & _ & Hrows).
  destruct (Hrows _ _ Hin) as (row & _ & _ & _ & _ & Hn).
  now apply normalise_row_Ok in Hn.
Qed.

Lemma X1_year_is_the_callers_witness : Tahun Examples.aceh_record = 2023%Z.
Proof.
  apply (X1_year_is_the_callers Examples.aceh 2023
           [(1, Examples.aceh_record)] 1).
  - vm_compute; reflexivity.
  - left; reflexivity.
Defined.

(** X2.  The records come out in the order of the rows of the frame, at
    most one for each row: their index labels increase strictly, and each
    is the position of a row of the frame. *)
Theorem X2_rows_in_order {pd : pandas} (df : DataFrame) (year : Z) (t : Table) :
  extract_province_section df year = Ok t ->
  StronglySorted lt (map fst t) /\
  Forall (fun l => l < length (rows df)) (map fst t) /\
  length t <= length (rows df).
Proof.
  intros H.
  destruct (extract_Forall2 _ _ _ H) as (m & _ & _ & F).
  split; [| split].
  - rewrite (Forall2_labels _ _ _ F); apply kept_rows_labels.
  - apply Forall_forall; intros l Hl.
    apply in_map_iff in Hl as ([l' r] & <- & Hin).
    destruct (extract_provenance _ _ _ H) as (m' & _ & _ & Hrows).
    destruct (Hrows _ _ Hin) as (row & Hnth & _).
    apply nth_error_Some; cbn [fst]; congruence.
  - rewrite <- (Forall2_length F). unfold kept_rows.
    etransitivity; [apply filter_length_le |].
    etransitivity; [apply filter_length_le |].
    rewrite length_map. unfold iloc_rows_from.
    rewrite length_skipn, length_combine, length_seq. lia.
Qed.

(** [two_provinces] gives two records, under the labels 1 and 3: the row
    of the totals between them is dropped. *)
Lemma X2_rows_in_order_witness :
  StronglySorted lt (map fst MoreExamples.two_provinces_table) /\
  Forall (fun l => l < length (rows MoreExamples.two_provinces))
         (map fst MoreExamples.two_provinces_table) /\
  length MoreExamples.two_provinces_table
    <= length (rows MoreExamples.two_provinces).
Proof.
  apply (X2_rows_in_order MoreExamples.two_provinces 2023).
  vm_compute; reflexivity.
Defined.

(** X3.  Nothing else is dropped: when the extraction succeeds, every row
    after the marker row whose code and name cells are present and whose
    code, as text, does not start with ['-'] has its record in the result,
    under its own label. *)
Theorem X3_kept_rows_are_returned {pd : pandas}
  (df : DataFrame) (year : Z) (t : Table) (m i : nat) (row : list Cell) :
  extract_province_section df year = Ok t ->
  locate_marker df = Ok m ->
  m < i -> nth_error (rows df) i = Some row ->
  isna (cell row 0) = false -> isna (cell row 1) = false ->
  startswith (lit "-") (py_str (cell row 0)) = false ->
  exists r, In (i, r) t /\ normalise_row year (firstn 13 row) = Ok r.
Proof. exact (kept_row_is_returned df year t m i row). Qed.

Lemma X3_kept_rows_are_returned_witness :
  exists r,
    In (1, r) [(1, Examples.aceh_record)] /\
    normalise_row 2023
      (firstn 13 [Examples.T "11"; Examples.T "Aceh"; Examples.T "5";
                  Examples.T "2"; Examples.T "-"; Examples.T "100";
                  Examples.T "0"; Examples.T "0"; Examples.T "0";
                  Examples.T "0"; Examples.T "0"; Examples.T "0";
                  Examples.T "0"]) = Ok r.
Proof.
  apply (X3_kept_rows_are_returned Examples.aceh 2023
           [(1, Examples.aceh_record)] 0 1);
    solve [reflexivity | vm_compute; reflexivity | unfold lt; apply le_n].
Defined.

(** X4.  One code that cannot be cleaned aborts the whole extraction:
    when [int] raises on the code of a row that passes the filters (a
    code written with digits that are not decimal digits, such as a
    superscript two), no table is returned. *)
Theorem X4_bad_code_aborts {pd : pandas}
  (df : DataFrame) (year : Z) (m i : nat) (row : list Cell) (e : exn) :
  locate_marker df = Ok m ->
  m < i -> nth_error (rows df) i = Some row ->
  isna (cell row 0) = false -> isna (cell row 1) = false ->
  startswith (lit "-") (py_str (cell row 0)) = false ->
  clean_code (cell row 0) = Raise e ->
  exists e', extract_province_section df year = Raise e'.
Proof.
  intros Hm Hi Hnth Hc Hn Hd He.
  destruct (extract_province_section df year) as [t | e'] eqn:H; [| eauto].
  destruct (kept_row_is_returned df year t m i row H Hm Hi Hnth Hc Hn Hd)
    as (r & _ & Hr).
  apply normalise_row_Ok in Hr as (Hcode & _).
  rewrite col_code in Hcode. congruence.
Qed.

Lemma X4_bad_code_aborts_witness :
  exists e', extract_province_section MoreExamples.superscript_code 2023 = Raise e'.
Proof.
  apply (X4_bad_code_aborts MoreExamples.superscript_code 2023 0 1
           (Text [178%N] :: Examples.T "Aceh" :: repeat (Examples.T "0") 11)
           (ValueError (InvalidLiteral [178%N])));
    solve [reflexivity | vm_compute; reflexivity | unfold lt; apply le_n].
Defined.

End ExtractionRows.

(* ================================================================== *)
(** * More on the province code *)

Section ProvinceCode.

Import Unicode.
Local Open Scope N_scope.

Lemma ascii_digit_is_digit (c : N) : Py_ISDIGIT c = true -> isdigit_char c = true.
Proof.
  intros H; unfold isdigit_char, isdecimal, decimal_value, decimal_zeros.
  cbn [find]. change (48 + 9) with 57.
  change (in_range c (48, 57)) with (Py_ISDIGIT c). now rewrite H.
Qed.

Lemma scan_int_digits (prev : N) (s : pystr) :
  (prev =? 95) = false -> forallb Py_ISDIGIT s = true ->
  scan_int prev s = Some (map (fun c => c - 48) s, []).
Proof.
  revert prev; induction s as [| c s IH]; intros prev Hp; simpl.
  - now rewrite Hp.
  - rewrite andb_true_iff; intros (Hc & Hs). rewrite Hc.
    rewrite (IH c); [reflexivity | | exact Hs].
    apply Py_ISDIGIT_bounds in Hc; apply N.eqb_neq; lia.
Qed.

(** [int] of a run of ASCII digits, within the digit limit, is the number
    written. *)
Lemma int_of_str_digits (s : pystr) :
  s <> [] -> forallb Py_ISDIGIT s = true ->
  (length s <= int_max_str_digits)%nat ->
  int_of_str s = Ok (Z.of_N (number_of (map (fun c => c - 48) s))).
Proof.
  intros Hne Hd Hlen.
  unfold int_of_str.
  rewrite transform_ascii.
  2:{ revert Hd; apply forallb_weaken; intros c Hc.
      apply Py_ISDIGIT_bounds in Hc; apply N.ltb_lt; lia. }
  rewrite drop_while_none.
  2:{ revert Hd; apply forallb_weaken; intros c Hc.
      now rewrite (digit_not_Py_space c Hc). }
  destruct s as [| c s]; [congruence |].
  assert (Hc : Py_ISDIGIT c = true) by (simpl in Hd; now destruct (Py_ISDIGIT c)).
  rewrite (parse_sign_digit c s Hc).
  replace (startswith [95] (c :: s)) with false.
  2:{ cbn [startswith]. apply Py_ISDIGIT_bounds in Hc.
      destruct (N.eqb_spec 95 c); [lia | reflexivity]. }
  rewrite (scan_int_digits 0 (c :: s) eq_refl Hd).
  cbn [map drop_while].
  rewrite <- (length_map (fun c => c - 48) (c :: s)) in Hlen. cbn [map] in Hlen.
  destruct (Nat.ltb_spec int_max_str_digits
              (length (c - 48 :: map (fun c0 => c0 - 48) s))); [lia |].
  reflexivity.
Qed.

Lemma str_of_Z_of_N (n : N) : str_of_Z (Z.of_N n) = str_of_N n.
Proof. now destruct n. Qed.

(** A code written in ASCII digits is replaced by the numeral of its
    number. *)
Lemma clean_code_digits (s : pystr) :
  s <> [] -> forallb Py_ISDIGIT s = true ->
  (length s <= int_max_str_digits)%nat ->
  clean_code (Text s) = Ok (str_of_N (number_written s)).
Proof.
  intros Hne Hd Hlen; unfold clean_code; cbn [py_str py_int].
  rewrite strip_none.
  2:{ revert Hd; apply forallb_weaken; intros c Hc.
      now rewrite (digit_not_space c Hc). }
  replace (isdigit s) with true.
  2:{ symmetry; unfold isdigit. destruct s; [congruence |].
      revert Hd; apply forallb_weaken, ascii_digit_is_digit. }
  rewrite (int_of_str_digits s Hne Hd Hlen); cbn [bind].
  rewrite str_of_Z_of_N. unfold number_written.
  replace (filter Py_ISDIGIT s) with s; [reflexivity |].
  symmetry; clear -Hd. induction s as [| c s IH]; [reflexivity |].
  simpl in *. apply andb_true_iff in Hd as (-> & Hd). now rewrite IH.
Qed.

(** The digits of a numeral write its number. *)
Lemma digits_of_value (fuel : nat) (n : N) (acc : pystr) :
  n < 2 ^ N.of_nat fuel ->
  number_of (map (fun c => c - 48) (digits_of fuel n acc)) =
  fold_left (fun a d => 10 * a + d) (map (fun c => c - 48) acc) n.
Proof.
  unfold number_of.
  revert n acc; induction fuel as [| fuel IH]; intros n acc Hn.
  - simpl in Hn. replace n with 0 by lia. reflexivity.
  - cbn [digits_of].
    assert (Hm : n mod 10 < 10) by (apply N.mod_lt; discriminate).
    assert (Hdiv : n = 10 * (n / 10) + n mod 10)
      by (apply N.div_mod; discriminate).
    destruct (N.eqb_spec (n / 10) 0) as [E | E].
    + cbn [map fold_left]. f_equal.
      rewrite (N.add_comm 48), N.add_sub.
      rewrite E in Hdiv. symmetry; exact Hdiv.
    + rewrite IH.
      * cbn [map fold_left]. f_equal.
        rewrite (N.add_comm 48), N.add_sub. symmetry; exact Hdiv.
      * rewrite Nat2N.inj_succ, N.pow_succ_r' in Hn.
        assert (10 * (n / 10) <= n) by (rewrite Hdiv at 2; apply N.le_add_r).
        clear Hdiv IH E Hm.
        remember (2 ^ N.of_nat fuel) as P. remember (n / 10) as q. lia.
Qed.

Lemma number_written_str_of_N_raw (n : N) :
  number_of (map (fun c => c - 48) (str_of_N n)) = n.
Proof.
  unfold str_of_N. rewrite digits_of_value; [reflexivity |].
  destruct n as [| p]; [reflexivity |].
  rewrite Nat2N.inj_succ, N2Nat.id.
  apply N.log2_spec; lia.
Qed.

Lemma digits_of_are_digits (fuel : nat) (n : N) (acc : pystr) :
  forallb Py_ISDIGIT acc = true ->
  forallb Py_ISDIGIT (digits_of fuel n acc) = true.
Proof.
  revert n acc; induction fuel as [| fuel IH]; intros n acc H; [exact H |].
  cbn [digits_of].
  assert (Hm : n mod 10 < 10) by (apply N.mod_lt; discriminate).
  assert (D : forallb Py_ISDIGIT ((48 + n mod 10) :: acc) = true).
  { cbn [forallb]. rewrite H, andb_true_r. apply Py_ISDIGIT_bounds.
    remember (n mod 10) as m; lia. }
  destruct (n / 10 =? 0); [exact D | now apply IH].
Qed.

Lemma str_of_N_digits (n : N) : forallb Py_ISDIGIT (str_of_N n) = true.
Proof. now apply digits_of_are_digits. Qed.

Lemma str_of_N_nonempty (n : N) : str_of_N n <> [].
Proof. destruct (str_of_N_head n) as (c & r & -> & _); discriminate. Qed.

Lemma filter_digits_all (l : pystr) :
  forallb Py_ISDIGIT l = true -> filter Py_ISDIGIT l = l.
Proof.
  induction l as [| c l IH]; [reflexivity |]. simpl.
  rewrite andb_true_iff; intros (-> & H). now rewrite IH.
Qed.

Lemma number_written_str_of_N (n : N) : number_written (str_of_N n) = n.
Proof.
  unfold number_written.
  rewrite filter_digits_all by apply str_of_N_digits.
  apply number_written_str_of_N_raw.
Qed.

(** X5.  A province code written in ASCII digits (at most 4300 of them,
    the bound of [int]) is replaced by the numeral of the number it
    writes: leading zeros go, ["007"] becomes ["7"]. *)
Theorem X5_digit_code_is_canonical (s : pystr) :
  s <> [] -> forallb Py_ISDIGIT s = true ->
  (length s <= 4300)%nat ->
  clean_code (Text s) = Ok (str_of_N (number_written s)) /\
  number_written (str_of_N (number_written s)) = number_written s.
Proof.
  intros Hne Hd Hlen; split; [now apply clean_code_digits |].
  apply number_written_str_of_N.
Qed.

Lemma X5_digit_code_is_canonical_witness :
  clean_code (Text (lit "007")) = Ok (lit "7") /\
  number_written (lit "7") = number_written (lit "007").
Proof.
  apply (X5_digit_code_is_canonical (lit "007")).
  - discriminate.
  - reflexivity.
  - apply Nat.leb_le; reflexivity.
Defined.

(** The code of a non-negative integer cell is its numeral. *)
Lemma clean_code_Int (n : N) : clean_code (Int (Z.of_N n)) = Ok (str_of_N n).
Proof.
  unfold clean_code; cbn [py_str py_int]. rewrite str_of_Z_of_N.
  rewrite strip_none.
  2:{ generalize (str_of_N_digits n); apply forallb_weaken; intros c Hc.
      now rewrite (digit_not_space c Hc). }
  replace (isdigit (str_of_N n)) with true;
    [cbn [bind]; now rewrite str_of_Z_of_N |].
  symmetry; unfold isdigit.
  pose proof (str_of_N_nonempty n) as Hne.
  destruct (str_of_N n) eqn:E; [congruence |]. rewrite <- E.
  generalize (str_of_N_digits n); apply forallb_weaken, ascii_digit_is_digit.
Qed.

(** X6.  The cleaned code is stable: an integer cell and the text of its
    numeral give the same code, the numeral itself, so that cleaning a
    cleaned code changes nothing. *)
Theorem X6_code_round_trip (n : N) :
  clean_code (Int (Z.of_N n)) = Ok (str_of_N n) /\
  ((length (str_of_N n) <= 4300)%nat ->
   clean_code (Text (str_of_N n)) = Ok (str_of_N n)).
Proof.
  split; [apply clean_code_Int |].
  intros Hlen.
  rewrite clean_code_digits;
    [now rewrite number_written_str_of_N | apply str_of_N_nonempty
    | apply str_of_N_digits | exact Hlen].
Qed.

Lemma X6_code_round_trip_witness :
  clean_code (Int 11) = Ok (lit "11") /\
  clean_code (Text (lit "11")) = Ok (lit "11").
Proof.
  destruct (X6_code_round_trip 11) as (A & B).
  split; [exact A |].
  apply B. apply Nat.leb_le; reflexivity.
Defined.

End ProvinceCode.

(* ================================================================== *)
(** * More on the numeric coercion *)

Section CoercionMore.

Import Unicode.

Lemma drop_while_spaces (p : N -> bool) (pre s : pystr) :
  forallb p pre = true -> drop_while p (pre ++ s) = drop_while p s.
Proof.
  induction pre as [| c pre IH]; [reflexivity |]; simpl.
  rewrite andb_true_iff; intros (-> & H); now apply IH.
Qed.

Lemma drop_while_app (p : N -> bool) (s t : pystr) :
  drop_while p s <> [] -> drop_while p (s ++ t) = drop_while p s ++ t.
Proof.
  induction s as [| c s IH]; simpl; [congruence |].
  destruct (p c); [exact IH | reflexivity].
Qed.

Lemma drop_while_all (p : N -> bool) (s t : pystr) :
  drop_while p s = [] -> drop_while p (s ++ t) = drop_while p t.
Proof.
  induction s as [| c s IH]; simpl; [reflexivity |].
  destruct (p c); [exact IH | discriminate].
Qed.

(** Spaces around a text do not count when it is trimmed. *)
Lemma strip_padding (pre s post : pystr) :
  forallb isspace pre = true -> forallb isspace post = true ->
  strip (pre ++ s ++ post) = strip s.
Proof.
  intros Hpre Hpost; unfold strip.
  rewrite (drop_while_spaces _ pre _ Hpre).
  destruct (drop_while isspace s) as [| c u] eqn:E.
  - rewrite (drop_while_all _ s post E).
    replace (drop_while isspace post) with (@nil N); [reflexivity |].
    symmetry. rewrite <- (app_nil_r post).
    now rewrite (drop_while_spaces _ post [] Hpost).
  - rewrite drop_while_app by (rewrite E; discriminate).
    rewrite E, rev_app_distr.
    rewrite drop_while_spaces; [reflexivity | now rewrite forallb_rev].
Qed.

(** X7.  Whitespace around the text of a numeric cell (spaces, tabs,
    no-break spaces, ...) does not change what the cell is coerced to. *)
Theorem X7_padding_is_ignored (pre s post : pystr) :
  forallb isspace pre = true -> forallb isspace post = true ->
  _to_number (Text (pre ++ s ++ post)) = _to_number (Text s) /\
  number_of_cell (Text (pre ++ s ++ post)) = number_of_cell (Text s).
Proof.
  intros Hpre Hpost.
  assert (E : _to_number (Text (pre ++ s ++ post)) = _to_number (Text s)).
  { unfold _to_number; cbn [isna].
    now rewrite (strip_padding pre s post Hpre Hpost). }
  split; [exact E |]. unfold number_of_cell; now rewrite E.
Qed.

Lemma X7_padding_is_ignored_witness :
  _to_number (Text ([160%N; 32%N] ++ lit "1,234" ++ [9%N]))
    = _to_number (Text (lit "1,234")) /\
  number_of_cell (Text ([160%N; 32%N] ++ lit "1,234" ++ [9%N]))
    = number_of_cell (Text (lit "1,234")).
Proof.
  apply (X7_padding_is_ignored [160%N; 32%N] (lit "1,234") [9%N]);
    reflexivity.
Defined.

(** X8.  Text that spells [nan], in any mix of upper and lower case, is
    not a failed parse: the cell is coerced to NaN, not to 0. *)
Theorem X8_nan_text_is_kept (s : pystr) :
  map Py_TOLOWER s = lit "nan" ->
  _to_number (Text s) = Ok (PyFloat S754_nan) /\
  number_of_cell (Text s) = Ok S754_nan.
Proof.
  intros H.
  assert (C : forall c l, Py_TOLOWER c = l -> (l = 110 \/ l = 97)%N ->
                          (c = l \/ c = l - 32)%N).
  { intros c l <- Hl. unfold Py_TOLOWER, Py_ISUPPER, in_range in *.
    cbn [fst snd] in *.
    destruct (N.leb_spec 65 c), (N.leb_spec c 90); cbn [andb] in *; lia. }
  destruct s as [| a [| b [| c [| d s]]]]; try discriminate H.
  injection H as Ha Hb Hc.
  apply C in Ha; [| now left]. apply C in Hb; [| now right].
  apply C in Hc; [| now left].
  destruct Ha as [-> | ->], Hb as [-> | ->], Hc as [-> | ->];
    split; vm_compute; reflexivity.
Qed.

Lemma X8_nan_text_is_kept_witness :
  _to_number (Text (lit "NaN")) = Ok (PyFloat S754_nan) /\
  number_of_cell (Text (lit "NaN")) = Ok S754_nan.
Proof. apply (X8_nan_text_is_kept (lit "NaN")); reflexivity. Defined.

Lemma add_nan_l (x : Float.float) : Float.add S754_nan x = S754_nan.
Proof. reflexivity. Qed.

Lemma add_nan_r (x : Float.float) : Float.add x S754_nan = S754_nan.
Proof. now destruct x. Qed.

(** X9.  NaN spreads to the total: a record in which one of the seven
    summed fields is NaN has NaN as its total. *)
Theorem X9_nan_poisons_total {pd : pandas}
  (df : DataFrame) (year : Z) (t : Table) (i : nat) (r : ProvinceRecord) :
  extract_province_section df year = Ok t ->
  In (i, r) t ->
  In S754_nan (firstn 7 (indicators r)) ->
  Total_Dampak_Indikator r = S754_nan.
Proof.
  intros H Hin Hnan.
  destruct (extract_provenance _ _ _ H) as (m & _ & _ & Hrows).
  destruct (Hrows _ _ Hin) as (row & _ & _ & _ & _ & Hn).
  apply normalise_row_Ok in Hn as (_ & _ & _ & _ & ->).
  cbn [indicators firstn In] in Hnan.
  repeat (destruct Hnan as [E | Hnan];
          [rewrite E; now rewrite ?add_nan_r, ?add_nan_l |]).
  destruct Hnan.
Qed.

Lemma X9_nan_poisons_total_witness :
  exists r,
    extract_province_section MoreExamples.nan_count 2023 = Ok [(1, r)] /\
    Total_Dampak_Indikator r = S754_nan.
Proof.
  eexists; split; [vm_compute; reflexivity |].
  eapply (X9_nan_poisons_total MoreExamples.nan_count 2023 _ 1).
  - vm_compute; reflexivity.
  - left; reflexivity.
  - right; left; reflexivity.
Defined.

(** X10.  An integer cell from 0 to below [2^53] is converted without
    loss: the float in the column has that integer as its value. *)
Theorem X10_integer_cells_are_exact (z : Z) :
  (0 <= z < 2 ^ 53)%Z ->
  number_of_cell (Int z) = Ok (Float.of_Z z) /\
  Float.to_int (Float.of_Z z) = Ok z.
Proof.
  intros Hz. pose proof (of_Z_exact z Hz) as E. split; [| exact E].
  unfold number_of_cell, _to_number; cbn [isna py_float].
  unfold Float.of_int.
  destruct (Float.of_Z z); try reflexivity. discriminate E.
Qed.

Lemma X10_integer_cells_are_exact_witness :
  number_of_cell (Int 100) = Ok (Float.of_Z 100) /\
  Float.to_int (Float.of_Z 100) = Ok 100%Z.
Proof. apply (X10_integer_cells_are_exact 100); split; reflexivity || discriminate. Defined.

End CoercionMore.

(* ================================================================== *)
(** * [unique] and [sorted] *)

Section UniqueSorted.

Context {A : Type}.
Variable eqb : A -> A -> bool.
Hypothesis eqb_eq : forall a b, eqb a b = true <-> a = b.

Lemma isin_In (l : list A) (x : A) : isin eqb l x = true <-> In x l.
Proof.
  unfold isin; rewrite existsb_exists; split.
  - intros (y & Hy & E); apply eqb_eq in E; now subst.
  - intros H; exists x; split; [exact H | now apply eqb_eq].
Qed.

Lemma unique_from_In (seen l : list A) (x : A) :
  In x (unique_from eqb seen l) <-> In x l /\ ~ In x seen.
Proof.
  revert seen; induction l as [| a l IH]; intros seen; simpl; [tauto |].
  destruct (existsb (eqb a) seen) eqn:E.
  - apply (isin_In seen a) in E. rewrite IH. split.
    + intros (H1 & H2); tauto.
    + intros ([<- | H1] & H2); [contradiction | tauto].
  - assert (N : ~ In a seen)
      by (intros H; apply (isin_In seen a) in H; unfold isin in H; congruence).
    simpl; rewrite IH; simpl. split.
    + intros [<- | (H1 & H2)]; [tauto | split; [tauto |]].
      intros H; apply H2; now right.
    + intros ([<- | H1] & H2); [now left |].
      destruct (eqb a x) eqn:Eax.
      * apply eqb_eq in Eax; now left.
      * right; split; [exact H1 |]. intros [-> | H]; [| contradiction].
        assert (eqb x x = true) by now apply eqb_eq. congruence.
Qed.

Lemma unique_from_NoDup (seen l : list A) : NoDup (unique_from eqb seen l).
Proof.
  revert seen; induction l as [| a l IH]; intros seen; simpl; [constructor |].
  destruct (existsb (eqb a) seen); [apply IH |].
  constructor; [| apply IH].
  rewrite unique_from_In; simpl; tauto.
Qed.

Lemma unique_In (l : list A) (x : A) : In x (unique eqb l) <-> In x l.
Proof. unfold unique; rewrite unique_from_In; simpl; tauto. Qed.

Lemma unique_NoDup (l : list A) : NoDup (unique eqb l).
Proof. apply unique_from_NoDup. Qed.

Variable leb : A -> A -> bool.
Hypothesis leb_total : forall a b, leb a b = true \/ leb b a = true.

Lemma insert_sorted_In (x : A) (l : list A) (y : A) :
  In y (insert_sorted leb x l) <-> y = x \/ In y l.
Proof.
  induction l as [| a l IH]; simpl; [intuition congruence |].
  destruct (leb x a); simpl; [intuition congruence |].
  rewrite IH; intuition congruence.
Qed.

Lemma insert_sorted_Sorted (x : A) (l : list A) :
  Sorted (fun a b => leb a b = true) l ->
  Sorted (fun a b => leb a b = true) (insert_sorted leb x l).
Proof.
  induction 1 as [| a l Hs IH Hd]; simpl; [repeat constructor |].
  destruct (leb x a) eqn:E.
  - constructor; [constructor; assumption | constructor; exact E].
  - constructor; [exact IH |].
    assert (Hax : leb a x = true) by (destruct (leb_total a x); congruence).
    destruct l as [| b l]; simpl; [constructor; exact Hax |].
    destruct (leb x b); constructor; [exact Hax |].
    now inversion Hd.
Qed.

Lemma insert_sorted_NoDup (x : A) (l : list A) :
  ~ In x l -> NoDup l -> NoDup (insert_sorted leb x l).
Proof.
  intros Hx Hl; induction Hl as [| a l Ha Hl IH]; simpl;
    [constructor; [tauto | constructor] |].
  destruct (leb x a).
  - constructor; [exact Hx | now constructor].
  - constructor.
    + rewrite insert_sorted_In. intros [-> | H]; [apply Hx; now left | tauto].
    + apply IH. intros H; apply Hx; now right.
Qed.

Lemma sorted_In (l : list A) (y : A) : In y (sorted leb l) <-> In y l.
Proof.
  induction l as [| a l IH]; simpl; [tauto |].
  rewrite insert_sorted_In, IH; intuition congruence.
Qed.

Lemma sorted_Sorted (l : list A) :
  Sorted (fun a b => leb a b = true) (sorted leb l).
Proof.
  induction l as [| a l IH]; simpl; [constructor |].
  now apply insert_sorted_Sorted.
Qed.

Lemma sorted_NoDup (l : list A) : NoDup l -> NoDup (sorted leb l).
Proof.
  induction 1 as [| a l Ha Hl IH]; simpl; [constructor |].
  apply insert_sorted_NoDup; [now rewrite sorted_In | exact IH].
Qed.

End UniqueSorted.

Section TextOrder.

Lemma pystr_leb_total (a b : pystr) :
  pystr_leb a b = true \/ pystr_leb b a = true.
Proof.
  revert b; induction a as [| x a IH]; intros [| y b]; simpl; auto.
  destruct (N.ltb_spec x y); [now left |].
  destruct (N.ltb_spec y x); [now right |].
  assert (x = y) by lia; subst y. rewrite N.eqb_refl. apply IH.
Qed.

Lemma Z_leb_total (a b : Z) : Z.leb a b = true \/ Z.leb b a = true.
Proof. rewrite !Z.leb_le; lia. Qed.

Lemma Z_eqb_eq (a b : Z) : Z.eqb a b = true <-> a = b.
Proof. apply Z.eqb_eq. Qed.

End TextOrder.

(* ================================================================== *)
(** * Loading the two files *)

Section Loading.

Lemma merge_records (df23 df24 : Table) :
  map snd (merge df23 df24) = map snd df23 ++ map snd df24.
Proof.
  unfold merge, concat_ignore_index; cbn [flat_map]. rewrite app_nil_r.
  apply combine_fst_snd, length_seq.
Qed.

Lemma merge_labels (df23 df24 : Table) :
  map fst (merge df23 df24) = seq 0 (length df23 + length df24).
Proof.
  unfold merge, concat_ignore_index; cbn [flat_map]. rewrite app_nil_r.
  rewrite (proj1 (combine_fst_snd _ _ (length_seq _ _))).
  now rewrite length_app, !length_map.
Qed.

(** All the records of an extraction bear its year. *)
Lemma extract_column_Tahun {pd : pandas} (df : DataFrame) (year : Z) (t : Table) :
  extract_province_section df year = Ok t ->
  column_Tahun t = repeat year (length t).
Proof.
  intros H.
  destruct (extract_provenance _ _ _ H) as (m & _ & _ & Hrows).
  assert (F : forall ir, In ir t -> Tahun (snd ir) = year).
  { intros [i r] Hin. destruct (Hrows _ _ Hin) as (row & _ & _ & _ & _ & Hn).
    now apply normalise_row_Ok in Hn. }
  clear -F. unfold column_Tahun.
  induction t as [| ir t IH]; [reflexivity |].
  cbn [map length repeat]. rewrite (F ir (or_introl eq_refl)), IH;
    [reflexivity |]. intros ir' H'; apply F; now right.
Qed.

Lemma column_Tahun_records (df : Table) :
  column_Tahun df = map Tahun (map snd df).
Proof. unfold column_Tahun; now rewrite map_map. Qed.

Lemma locate_marker_needs_marker {pd : pandas} (df : DataFrame) (i : nat) :
  locate_marker df = Ok i -> contains_marker df = true.
Proof.
  intros H. destruct (contains_marker df) eqn:C; [reflexivity |].
  pose proof (no_marker_first_col df C) as F.
  unfold locate_marker, any_cell_rows in H.
  destruct (Nat.eqb (ncols df) 0); [discriminate |]. cbn [bind] in H.
  rewrite F in H; cbn [length Nat.eqb] in H.
  unfold contains_marker in C.
  destruct (rows df) as [| row rs] eqn:R; [destruct pd; discriminate |].
  cbn [bind] in H.
  replace (index_where (map (existsb has_marker) (row :: rs)))
    with (@nil nat) in H; [discriminate |].
  symmetry; apply index_where_nil. now rewrite forallb_negb_map, C.
Qed.

(** X11.  The table the application works on holds the records of the
    2023 file, all of the year 2023, then those of the 2024 file, all of
    the year 2024, renumbered from 0. *)
Theorem X11_loaded_table {pd : pandas} (read_2023 read_2024 : result DataFrame) (df : Table) :
  load_data read_2023 read_2024 = Ok df ->
  exists df23 df24,
    load_from_excel read_2023 2023 = Ok df23 /\
    load_from_excel read_2024 2024 = Ok df24 /\
    map snd df = map snd df23 ++ map snd df24 /\
    column_Tahun df
      = repeat 2023%Z (length df23) ++ repeat 2024%Z (length df24) /\
    map fst df = seq 0 (length df).
Proof.
  unfold load_data; intros H.
  apply bind_Ok in H as (df23 & H23 & H).
  apply bind_Ok in H as (df24 & H24 & H). injection H as <-.
  exists df23, df24. split; [exact H23 |]; split; [exact H24 |].
  split; [apply merge_records |]. split.
  - rewrite column_Tahun_records, merge_records, map_app,
      <- !column_Tahun_records.
    unfold load_from_excel in H23, H24.
    apply bind_Ok in H23 as (f23 & _ & H23).
    apply bind_Ok in H24 as (f24 & _ & H24).
    now rewrite (extract_column_Tahun _ _ _ H23),
      (extract_column_Tahun _ _ _ H24).
  - rewrite merge_labels.
    rewrite <- (length_map snd (merge df23 df24)), merge_records.
    now rewrite length_app, !length_map.
Qed.

Lemma X11_loaded_table_witness :
  exists df23 df24,
    load_from_excel (Ok Examples.aceh) 2023 = Ok df23 /\
    load_from_excel (Ok Examples.wide) 2024 = Ok df24 /\
    map snd LoadedExamples.both_years = map snd df23 ++ map snd df24 /\
    column_Tahun LoadedExamples.both_years
      = repeat 2023%Z (length df23) ++ repeat 2024%Z (length df24) /\
    map fst LoadedExamples.both_years = seq 0 (length LoadedExamples.both_years).
Proof.
  apply (X11_loaded_table (Ok Examples.aceh) (Ok Examples.wide)).
  vm_compute; reflexivity.
Defined.

(** X12.  A table is loaded only if both files were read, both frames
    hold the marker and both have at least 13 columns: there is no table
    of one year alone. *)
Theorem X12_both_files_needed {pd : pandas}
  (read_2023 read_2024 : result DataFrame) (df : Table) :
  load_data read_2023 read_2024 = Ok df ->
  exists raw_2023 raw_2024,
    read_2023 = Ok raw_2023 /\ read_2024 = Ok raw_2024 /\
    contains_marker raw_2023 = true /\ contains_marker raw_2024 = true /\
    13 <= ncols raw_2023 /\ 13 <= ncols raw_2024.
Proof.
  unfold load_data, load_from_excel; intros H.
  apply bind_Ok in H as (df23 & H23 & H).
  apply bind_Ok in H as (df24 & H24 & _).
  apply bind_Ok in H23 as (f23 & -> & H23).
  apply bind_Ok in H24 as (f24 & -> & H24).
  destruct (extract_provenance _ _ _ H23) as (m23 & L23 & W23 & _).
  destruct (extract_provenance _ _ _ H24) as (m24 & L24 & W24 & _).
  exists f23, f24; repeat split; try assumption;
    eapply locate_marker_needs_marker; eassumption.
Qed.

Lemma X12_both_files_needed_witness :
  exists raw_2023 raw_2024,
    Ok Examples.aceh = Ok raw_2023 /\ Ok Examples.wide = Ok raw_2024 /\
    contains_marker raw_2023 = true /\ contains_marker raw_2024 = true /\
    13 <= ncols raw_2023 /\ 13 <= ncols raw_2024.
Proof.
  apply (X12_both_files_needed (Ok Examples.aceh) (Ok Examples.wide)
           LoadedExamples.both_years).
  vm_compute; reflexivity.
Defined.

End Loading.

(* ================================================================== *)
(** * The sidebar and the filters *)

Section Sidebar.

Lemma increasing_of_sorted (l : list Z) :
  Sorted (fun a b => Z.leb a b = true) l -> NoDup l -> StronglySorted Z.lt l.
Proof.
  intros Hs Hn.
  assert (T : StronglySorted (fun a b => Z.leb a b = true) l).
  { apply Sorted_StronglySorted; [| exact Hs].
    intros a b c; rewrite !Z.leb_le; lia. }
  induction T as [| a l T IH Ha]; [constructor |].
  apply NoDup_cons_iff in Hn as (Hna & Hn).
  constructor; [apply IH; [now apply StronglySorted_Sorted | exact Hn] |].
  rewrite Forall_forall in *. intros x Hx.
  specialize (Ha x Hx). apply Z.leb_le in Ha.
  assert (a <> x) by (intros ->; contradiction). lia.
Qed.

(** Two increasing lists with the same members are the same list. *)
Lemma increasing_unique (l1 l2 : list Z) :
  StronglySorted Z.lt l1 -> StronglySorted Z.lt l2 ->
  (forall x, In x l1 <-> In x l2) -> l1 = l2.
Proof.
  intros H1; revert l2; induction H1 as [| a l1 H1 IH Ha];
    intros l2 H2 E.
  - destruct l2 as [| b l2]; [reflexivity |].
    destruct (proj2 (E b) (or_introl eq_refl)).
  - destruct H2 as [| b l2 H2 Hb];
      [destruct (proj1 (E a) (or_introl eq_refl)) |].
    rewrite Forall_forall in Ha, Hb.
    assert (a = b).
    { destruct (proj1 (E a) (or_introl eq_refl)) as [-> | Hin];
        [reflexivity |].
      destruct (proj2 (E b) (or_introl eq_refl)) as [-> | Hin'];
        [reflexivity |].
      specialize (Ha b Hin'). specialize (Hb a Hin). lia. }
    subst b. f_equal. apply IH; [exact H2 |].
    intros x; split; intros Hx.
    + destruct (proj1 (E x) (or_intror Hx)) as [<- | Hx']; [| exact Hx'].
      specialize (Ha a Hx); lia.
    + destruct (proj2 (E x) (or_intror Hx)) as [<- | Hx']; [| exact Hx'].
      specialize (Hb a Hx); lia.
Qed.

Lemma years_spec (df : Table) :
  StronglySorted Z.lt (years df) /\
  forall y, In y (years df) <-> In y (column_Tahun df).
Proof.
  unfold years; split.
  - apply increasing_of_sorted.
    + apply sorted_Sorted, Z_leb_total.
    + apply sorted_NoDup, (unique_NoDup Z.eqb Z_eqb_eq).
  - intros y. now rewrite sorted_In, (unique_In Z.eqb Z_eqb_eq).
Qed.

(** X13.  The years offered in the sidebar are the years present in the
    table, each once, in increasing order. *)
Theorem X13_years_offered (df : Table) :
  StronglySorted Z.lt (years df) /\
  forall y, In y (years df) <-> exists i r, In (i, r) df /\ Tahun r = y.
Proof.
  destruct (years_spec df) as (S & E). split; [exact S |].
  intros y; rewrite E. unfold column_Tahun; rewrite in_map_iff. split.
  - intros ([i r] & <- & Hin); eauto.
  - intros (i & r & Hin & <-); now exists (i, r).
Qed.

(** X14.  After a successful load the sidebar offers 2023 if the 2023
    file gave a record, then 2024 if the 2024 file gave one, and no other
    year. *)
Theorem X14_years_of_loaded_table {pd : pandas}
  (read_2023 read_2024 : result DataFrame) (df23 df24 df : Table) :
  load_from_excel read_2023 2023 = Ok df23 ->
  load_from_excel read_2024 2024 = Ok df24 ->
  load_data read_2023 read_2024 = Ok df ->
  years df = (match df23 with [] => [] | _ :: _ => [2023%Z] end)
             ++ (match df24 with [] => [] | _ :: _ => [2024%Z] end).
Proof.
  intros H23 H24 H.
  assert (C : column_Tahun df
              = repeat 2023%Z (length df23) ++ repeat 2024%Z (length df24)).
  { unfold load_data in H. rewrite H23, H24 in H; cbn [bind] in H.
    injection H as <-.
    unfold load_from_excel in H23, H24.
    apply bind_Ok in H23 as (f23 & _ & H23).
    apply bind_Ok in H24 as (f24 & _ & H24).
    rewrite column_Tahun_records, merge_records, map_app,
      <- !column_Tahun_records.
    now rewrite (extract_column_Tahun _ _ _ H23),
      (extract_column_Tahun _ _ _ H24). }
  destruct (years_spec df) as (S & E).
  apply increasing_unique; [exact S | |].
  - destruct df23, df24; repeat constructor; lia.
  - intros y. rewrite E, C, !in_app_iff. 
    assert (R : forall (a : Z) (l : Table),
               In y (repeat a (length l)) <->
               In y (match l with [] => [] | _ :: _ => [a] end)).
    { intros a [| x l]; simpl; [tauto |]. split.
      - intros [<- | Hy]; [now left | apply repeat_spec in Hy; now left].
      - intros [<- | []]; now left. }
    now rewrite !R.
Qed.

Lemma X14_years_of_loaded_table_witness :
  years LoadedExamples.both_years = [2023%Z] ++ [2024%Z].
Proof.
  apply (X14_years_of_loaded_table (Ok Examples.aceh) (Ok Examples.wide)
           [(1, Examples.aceh_record)]
           [(1, LoadedExamples.aceh_record_2024)]);
    vm_compute; reflexivity.
Defined.

Lemma filter_all {A : Type} (p : A -> bool) (l : list A) :
  (forall a, In a l -> p a = true) -> filter p l = l.
Proof.
  induction l as [| a l IH]; intros H; [reflexivity |]. simpl.
  rewrite (H a (or_introl eq_refl)), IH; [reflexivity |].
  intros b Hb; apply H; now right.
Qed.

(** X15.  With the selections the sidebar starts from, every year and no
    province, the filters keep the whole table as it is. *)
Theorem X15_default_selection_keeps_all (df : Table) :
  apply_filters (years df) [] df = df.
Proof.
  unfold apply_filters. apply filter_all. intros [i r] Hin; cbn [snd].
  apply (isin_In Z.eqb Z_eqb_eq). apply years_spec.
  unfold column_Tahun. apply in_map_iff. now exists (i, r).
Qed.

Lemma apply_filters_In
  (year_sel : list Z) (prov_sel : list pystr) (df : Table)
  (i : nat) (r : ProvinceRecord) :
  In (i, r) (apply_filters year_sel prov_sel df) <->
  In (i, r) df /\ In (Tahun r) year_sel /\
  (prov_sel = [] \/ In (Provinsi r) prov_sel).
Proof.
  unfold apply_filters. destruct prov_sel as [| p ps].
  - rewrite filter_In; cbn [snd].
    rewrite (isin_In Z.eqb Z_eqb_eq). intuition.
  - rewrite !filter_In; cbn [snd].
    rewrite (isin_In Z.eqb Z_eqb_eq), (isin_In pystr_eqb pystr_eqb_eq).
    intuition discriminate.
Qed.

(** X16.  What the filters keep: the rows, under their labels and in
    their order, whose year is selected and, when some province is
    selected, whose province is selected too.  No selected province means
    every province; no selected year means no row. *)
Theorem X16_filtered_rows
  (year_sel : list Z) (prov_sel : list pystr) (df : Table) :
  (forall i r,
     In (i, r) (apply_filters year_sel prov_sel df) <->
     In (i, r) df /\ In (Tahun r) year_sel /\
     (prov_sel = [] \/ In (Provinsi r) prov_sel)) /\
  (exists keep, apply_filters year_sel prov_sel df = filter keep df) /\
  apply_filters [] prov_sel df = [].
Proof.
  split; [| split].
  - intros i r; apply apply_filters_In.
  - unfold apply_filters. destruct prov_sel as [| p ps]; [eauto |].
    exists (fun ir => isin Z.eqb year_sel (Tahun (snd ir))
                      && isin pystr_eqb (p :: ps) (Provinsi (snd ir))).
    induction df as [| a df IH]; [reflexivity |].
    cbn [filter]. destruct (isin Z.eqb year_sel (Tahun (snd a)));
      cbn [filter andb]; [| exact IH].
    destruct (isin pystr_eqb (p :: ps) (Provinsi (snd a))); now rewrite IH.
  - unfold apply_filters.
    assert (E : filter (fun ir => isin Z.eqb [] (Tahun (snd ir))) df = [])
      by (induction df; [reflexivity | assumption]).
    rewrite E. now destruct prov_sel.
Qed.

(** X17.  The card "Jumlah Provinsi" counts each province name once: the
    figure is the number of different names among the rows shown, that is
    the length of any list that holds each of those names once.  So it is
    at most the number of rows shown, at most the count of the unfiltered
    table and, when provinces are selected, at most the number of
    provinces selected. *)
Theorem X17_province_count
  (year_sel : list Z) (prov_sel : list pystr) (df : Table)
  (names : list pystr) :
  let df_f := apply_filters year_sel prov_sel df in
  NoDup names ->
  (forall p, In p names <-> In p (column_Provinsi df_f)) ->
  nunique_Provinsi df_f = length names /\
  nunique_Provinsi df_f <= length df_f /\
  nunique_Provinsi df_f <= nunique_Provinsi df /\
  (prov_sel <> [] -> nunique_Provinsi df_f <= length prov_sel).
Proof.
  cbv zeta. unfold nunique_Provinsi.
  set (df_f := apply_filters year_sel prov_sel df).
  intros Hnames Hsame.
  pose proof (unique_NoDup pystr_eqb pystr_eqb_eq (column_Provinsi df_f)) as N.
  assert (M : forall p, In p (unique pystr_eqb (column_Provinsi df_f)) ->
                        exists i r, In (i, r) df_f /\ Provinsi r = p).
  { intros p Hp. apply (proj1 (unique_In pystr_eqb pystr_eqb_eq _ _)) in Hp.
    unfold column_Provinsi in Hp. apply in_map_iff in Hp as ([i r] & <- & Hin).
    eauto. }
  pose proof (apply_filters_In year_sel prov_sel df) as Spec.
  split; [| split; [| split]].
  - apply Nat.le_antisymm; apply NoDup_incl_length; try assumption.
    + intros p Hp. apply Hsame.
      exact (proj1 (unique_In pystr_eqb pystr_eqb_eq _ _) Hp).
    + intros p Hp. apply Hsame in Hp.
      exact (proj2 (unique_In pystr_eqb pystr_eqb_eq _ _) Hp).
  - rewrite <- (length_map (fun ir => Provinsi (snd ir)) df_f).
    apply NoDup_incl_length; [exact N |].
    intros p Hp. exact (proj1 (unique_In pystr_eqb pystr_eqb_eq _ _) Hp).
  - apply NoDup_incl_length; [exact N |].
    intros p Hp. destruct (M p Hp) as (i & r & Hin & <-).
    apply (proj2 (unique_In pystr_eqb pystr_eqb_eq _ _)).
    unfold column_Provinsi. apply in_map_iff. exists (i, r); split;
      [reflexivity |]. now apply Spec in Hin.
  - intros Hne. apply NoDup_incl_length; [exact N |].
    intros p Hp. destruct (M p Hp) as (i & r & Hin & <-).
    apply Spec in Hin as (_ & _ & [E | Hin]); [contradiction | exact Hin].
Qed.

(** Three rows, two of them of Aceh: the figure is 2. *)
Lemma X17_province_count_witness :
  nunique_Provinsi (apply_filters [2023%Z; 2024%Z] []
                      LoadedExamples.three_rows) = 2.
Proof.
  apply (X17_province_count [2023%Z; 2024%Z] [] LoadedExamples.three_rows
           [lit "Aceh"; lit "Sumatera Utara"]).
  - repeat constructor; cbn [In]; intros H;
      repeat (destruct H as [H | H]; [discriminate H |]); exact H.
  - intros p; vm_compute; tauto.
Defined.

End Sidebar.

(* ================================================================== *)
(** * Province names and numeric codes *)

Section NamesAndCodes.

Import Unicode.

(** X18.  The provinces offered in the sidebar are the names present in
    the table, each once, in the order of [str] (code point by code
    point). *)
Theorem X18_provinces_offered (df : Table) :
  Sorted (fun a b => pystr_leb a b = true) (provs df) /\
  NoDup (provs df) /\
  forall p, In p (provs df) <-> exists i r, In (i, r) df /\ Provinsi r = p.
Proof.
  unfold provs; split; [| split].
  - apply sorted_Sorted, pystr_leb_total.
  - apply sorted_NoDup, (unique_NoDup pystr_eqb pystr_eqb_eq).
  - intros p. rewrite sorted_In, (unique_In pystr_eqb pystr_eqb_eq).
    unfold column_Provinsi; rewrite in_map_iff. split.
    + intros ([i r] & <- & Hin); eauto.
    + intros (i & r & Hin & <-); now exists (i, r).
Qed.

(** Two characters with the same ASCII lower case are the same character,
    or the two cases of one ASCII letter. *)
Lemma same_lower_cases (a b : N) :
  Py_TOLOWER a = Py_TOLOWER b ->
  a = b \/ (Py_ISUPPER a = true /\ b = (a + 32)%N)
        \/ (Py_ISUPPER b = true /\ a = (b + 32)%N).
Proof.
  unfold Py_TOLOWER, Py_ISUPPER, in_range; cbn [fst snd].
  destruct (N.leb_spec 65 a), (N.leb_spec a 90), (N.leb_spec 65 b),
    (N.leb_spec b 90); cbn [andb]; intros E; subst; auto;
    left; lia.
Qed.

Lemma case_profile_eqb_eq (a b : N) :
  case_profile_eqb a b = true -> case_profile a = case_profile b.
Proof.
  unfold case_profile_eqb.
  destruct (case_profile a) as [[[[t l] c] i] s].
  destruct (case_profile b) as [[[[t' l'] c'] i'] s'].
  rewrite !andb_true_iff. intros ((((T & L) & C) & I) & S).
  apply pystr_eqb_eq in T, L. apply Bool.eqb_prop in C, I, S.
  congruence.
Qed.

(** The two cases of an ASCII letter have the same title case and the
    same lower case, and both are cased. *)
Lemma upper_letter_profile (a : N) :
  Py_ISUPPER a = true -> case_profile a = case_profile (a + 32)%N.
Proof.
  intros H. apply case_profile_eqb_eq.
  assert (A : forallb (fun k => case_profile_eqb k (k + 32)%N)
                      (map N.of_nat (seq 65 26)) = true)
    by (vm_compute; reflexivity).
  rewrite forallb_forall in A. apply A.
  unfold Py_ISUPPER, in_range in H; cbn [fst snd] in H.
  apply andb_true_iff in H as (Lo & Hi).
  apply N.leb_le in Lo, Hi.
  rewrite <- (N2Nat.id a). apply in_map, in_seq. lia.
Qed.

Lemma same_lower_profile (a b : N) :
  Py_TOLOWER a = Py_TOLOWER b -> case_profile a = case_profile b.
Proof.
  intros E. destruct (same_lower_cases a b E) as [-> | [(U & ->) | (U & ->)]].
  - reflexivity.
  - now apply upper_letter_profile.
  - symmetry; now apply upper_letter_profile.
Qed.

Lemma drop_ignorable_same_lower (s t : pystr) :
  map Py_TOLOWER s = map Py_TOLOWER t ->
  map Py_TOLOWER (drop_while _PyUnicode_IsCaseIgnorable s)
    = map Py_TOLOWER (drop_while _PyUnicode_IsCaseIgnorable t).
Proof.
  revert t; induction s as [| a s IH]; intros [| b t] E; try discriminate;
    [reflexivity |].
  injection E as Eab E. cbn [drop_while].
  pose proof (same_lower_profile a b Eab) as P.
  unfold case_profile in P; injection P as _ _ _ I _. rewrite I.
  destruct (_PyUnicode_IsCaseIgnorable b); [now apply IH |].
  cbn [map]; now rewrite Eab, E.
Qed.

Lemma head_cased_same_lower {A : Type} (f : bool -> A) (d : A) (s t : pystr) :
  map Py_TOLOWER s = map Py_TOLOWER t ->
  match drop_while _PyUnicode_IsCaseIgnorable s with
  | [] => d
  | c :: _ => f (_PyUnicode_IsCased c)
  end =
  match drop_while _PyUnicode_IsCaseIgnorable t with
  | [] => d
  | c :: _ => f (_PyUnicode_IsCased c)
  end.
Proof.
  intros E; apply drop_ignorable_same_lower in E.
  destruct (drop_while _ s) as [| a s'], (drop_while _ t) as [| b t'];
    try discriminate; [reflexivity |].
  injection E as Eab _.
  pose proof (same_lower_profile a b Eab) as P.
  unfold case_profile in P; injection P as _ _ C _ _. now rewrite C.
Qed.

Lemma capital_sigma_same_lower (before before' after after' : pystr) :
  map Py_TOLOWER before = map Py_TOLOWER before' ->
  map Py_TOLOWER after = map Py_TOLOWER after' ->
  handle_capital_sigma before after = handle_capital_sigma before' after'.
Proof.
  intros B A; unfold handle_capital_sigma.
  rewrite (head_cased_same_lower (fun b => b) false _ _ B).
  now rewrite (head_cased_same_lower negb true _ _ A).
Qed.

Lemma do_title_same_lower (before before' : pystr) (p : bool) (s t : pystr) :
  map Py_TOLOWER before = map Py_TOLOWER before' ->
  map Py_TOLOWER s = map Py_TOLOWER t ->
  do_title before p s = do_title before' p t.
Proof.
  revert before before' p t; induction s as [| a s IH];
    intros before before' p [| b t] B E; try discriminate; [reflexivity |].
  injection E as Eab E.
  pose proof (same_lower_profile a b Eab) as P.
  unfold case_profile in P; injection P as T L C _ S.
  cbn [do_title]. unfold lower_ucs4.
  rewrite T, L, C, S, (capital_sigma_same_lower _ _ _ _ B E).
  f_equal. apply IH; [cbn [map]; now rewrite Eab, B | exact E].
Qed.

(** X19.  Names that differ only by the case of their ASCII letters and
    by the whitespace around them are cleaned to the same name, so that
    they fall in one group. *)
Theorem X19_names_fold_together (x y : pystr) :
  map Py_TOLOWER (strip x) = map Py_TOLOWER (strip y) ->
  clean_name (Text x) = clean_name (Text y).
Proof.
  intros E; unfold clean_name, title; cbn [py_str].
  now apply do_title_same_lower.
Qed.

Lemma X19_names_fold_together_witness :
  clean_name (Text (lit " ACEH barat ")) = clean_name (Text (lit "aceh Barat")).
Proof.
  apply (X19_names_fold_together (lit " ACEH barat ") (lit "aceh Barat")).
  reflexivity.
Defined.

(** Letters beyond ASCII have their case too: [élan] gives [Élan], the
    sharp s gives [Ss], and a capital sigma that ends a word is lowered to
    the final sigma. *)
Example title_beyond_ascii :
  title (233%N :: lit "lan") = 201%N :: lit "lan" /\
  title [223%N] = lit "Ss" /\
  title [927; 916; 927; 931]%N = [927; 948; 959; 962]%N.
Proof. repeat split. Qed.

(** X20.  A row whose code cell is an integer is returned only if the
    integer is not negative (the placeholder rows -1, -2, ... are
    dropped), and its code is then the numeral of that integer. *)
Theorem X20_integer_codes {pd : pandas}
  (df : DataFrame) (year : Z) (t : Table) (i : nat) (r : ProvinceRecord)
  (row : list Cell) (z : Z) :
  extract_province_section df year = Ok t ->
  In (i, r) t ->
  nth_error (rows df) i = Some row ->
  cell row 0 = Int z ->
  (0 <= z)%Z /\ Kode_Provinsi r = str_of_Z z.
Proof.
  intros H Hin Hnth Hz.
  destruct (extract_provenance _ _ _ H) as (m & _ & _ & Hrows).
  destruct (Hrows _ _ Hin) as (row' & Hnth' & _ & _ & Hp & Hn).
  rewrite Hnth in Hnth'; injection Hnth' as <-.
  apply normalise_row_Ok in Hn as (Hcode & _).
  unfold not_placeholder in Hp. rewrite col_code, Hz in *.
  apply negb_true_iff in Hp. cbn [py_str] in Hp.
  assert (P : (0 <= z)%Z).
  { destruct z; try lia. cbn [str_of_Z] in Hp.
    rewrite startswith_dash in Hp. discriminate Hp. }
  split; [exact P |].
  rewrite <- (Z2N.id z P) in Hcode. rewrite clean_code_Int in Hcode.
  injection Hcode as <-. rewrite <- (Z2N.id z P) at 2.
  symmetry; apply str_of_Z_of_N.
Qed.

Lemma X20_integer_codes_witness :
  (0 <= 11)%Z /\ Kode_Provinsi LoadedExamples.aceh_record_2024 = str_of_Z 11.
Proof.
  apply (X20_integer_codes MoreExamples.integer_code 2024
           [(1, LoadedExamples.aceh_record_2024)] 1
           LoadedExamples.aceh_record_2024
           (Int 11 :: Examples.T "Aceh" :: Examples.T "5" :: Examples.T "2"
              :: Examples.T "-" :: Examples.T "100"
              :: repeat (Examples.T "0") 7) 11);
    solve [reflexivity | vm_compute; reflexivity | left; reflexivity].
Defined.

End NamesAndCodes.
